(** * Plenty Events: booking life cycle and rating aggregation

    A shallow embedding of the booking controllers (updateOrderStatus,
    updateJobStatus), the rating controllers (rateVendor, rateWaiter,
    deleteRating, reportRating, respondToRating, getRatingById), the Rating
    schema hooks and the updateRating methods of the Vendor and Waiter
    models, together with the properties of the specification that concern
    them.  The second part adds the listings of orders, jobs and ratings
    (getVendorOrders, getVendorOrder, getWaiterJobs, getWaiterJob,
    getVendorRatings), the validators of the time fields of the hire forms
    with the hours hireWaiter derives from them, updateVendorProfile and
    the deleteUser handler of the administration, and properties read off
    that code.

    Conventions of the embedding.
    - A MongoDB collection is a list of documents in natural (insertion)
      order; findOne is the first match, save replaces the document that
      carries the same _id, create appends.
    - A handler is a computation over the store that either returns or
      throws; a throw keeps the store as it was at that point (there is no
      transaction in the source).
    - A JavaScript Number is an exact rational (Q) for rating scores and
      averages and an integer (Z) for counters and time stamps, which is
      the arithmetic of the doubles for integers below 2^53 in magnitude;
      Module Binary64 replays the averaging and the counter line of
      updateOrderStatus on IEEE doubles.
    - A path that a query has populated holds the document and not its
      identifier: its _id is the identifier, its toString() is not.
    - Date.now() and the request fields are arguments of the handlers. *)

From Stdlib Require Import List String Ascii Bool ZArith QArith Qround Lia.
From Stdlib Require Import Floats.PrimFloat.
From Stdlib Require Uint63.
Import ListNotations.

Local Close Scope Q_scope.
Local Open Scope bool_scope.
Local Open Scope string_scope.
Local Open Scope list_scope.

(** ** JavaScript helpers *)

Definition ObjectId := nat.
Bind Scope nat_scope with ObjectId.

(** Truthiness of an optional string ([undefined] and the empty string are
    falsy). *)
Definition truthy (s : option string) : bool :=
  match s with
  | Some EmptyString => false
  | Some _ => true
  | None => false
  end.

(** [s || d] for an optional string [s]. *)
Definition orElse (s : option string) (d : string) : string :=
  match s with
  | Some (String c r) => String c r
  | Some EmptyString => d
  | None => d
  end.

(** [Array.prototype.includes] on an array of strings. *)
Definition includes (l : list string) (x : string) : bool :=
  existsb (String.eqb x) l.

(** Property lookup on an object literal with string keys. *)
Fixpoint lookup {A : Type} (k : string) (o : list (string * A)) : option A :=
  match o with
  | [] => None
  | (k', v) :: o' => if String.eqb k k' then Some v else lookup k o'
  end.

(** A path of type ObjectId as a handler holds it: the reference the
    document stores, or the document populate has put in its place. *)
Inductive Path : Type :=
| Reference (i : ObjectId)
| Document (i : ObjectId).

(** [path._id]: a reference is its own identifier. *)
Definition Path_id (p : Path) : ObjectId :=
  match p with
  | Reference i => i
  | Document i => i
  end.

(** [path.toString() === id.toString()]: a reference prints as its
    identifier, a populated document as the text of the object, which is
    the text of no identifier. *)
Definition toStringIs (p : Path) (i : ObjectId) : bool :=
  match p with
  | Reference j => Nat.eqb j i
  | Document _ => false
  end.

(** ** Exceptions and the error handler (middleware/errorHandler.js) *)

Inductive Exception : Type :=
| ErrorResponse (message : string) (statusCode : Z)
| Error (message : string)
| ValidationError (messages : list string)
| DuplicateKey (field : string)
| TypeError (message : string)
| CastError (path : string).

(** The status the error handler answers with: [error.statusCode || 500],
    after validation errors and duplicate keys were turned into 400 and
    cast errors into 404. *)
Definition httpStatus (e : Exception) : Z :=
  match e with
  | ErrorResponse _ c => c
  | ValidationError _ => 400
  | DuplicateKey _ => 400
  | Error _ => 500
  | TypeError _ => 500
  | CastError _ => 404
  end.

(** ** Models *)

Module User.
(** [req.user]: the fields of the authenticated user the controllers read.
    protect sets it to the document of the users collection. *)
Record t : Type := mk {
  _id : ObjectId;
  role : string
}.

(** [req.user.vendorProfile]: the User schema declares no such path and no
    middleware sets the property, so it is undefined. *)
Definition vendorProfile (u : t) : option ObjectId := None.
End User.

Module Vendor.
(** totalRatings and the two counters are Numbers that hold integers: the
    integer arithmetic of the model is the arithmetic of the doubles while
    the values stay below 2^53 in magnitude; Module Binary64 replays the
    counter line of updateOrderStatus on doubles for what lies beyond. *)
Record t : Type := mk {
  _id : ObjectId;
  user : ObjectId;
  averageRating : Q;
  totalRatings : Z;
  totalBookings : Z;
  completedBookings : Z
}.

Definition set_completedBookings (n : Z) (v : t) : t :=
  mk (_id v) (user v) (averageRating v) (totalRatings v) (totalBookings v) n.

Definition set_rating (avg : Q) (n : Z) (v : t) : t :=
  mk (_id v) (user v) avg n (totalBookings v) (completedBookings v).
End Vendor.

Module Waiter.
(** totalRatings, totalJobs and completedJobs are Numbers that hold
    integers, as the counters of the vendor profile. *)
Record t : Type := mk {
  _id : ObjectId;
  user : ObjectId;
  averageRating : Q;
  attitudeRating : Q;
  totalRatings : Z;
  totalJobs : Z;
  completedJobs : Z
}.

Definition set_jobs (total completed : Z) (w : t) : t :=
  mk (_id w) (user w) (averageRating w) (attitudeRating w) (totalRatings w)
     total completed.

Definition set_rating (avg att : Q) (n : Z) (w : t) : t :=
  mk (_id w) (user w) avg att n (totalJobs w) (completedJobs w).
End Waiter.

Module Order.
Record t : Type := mk {
  _id : ObjectId;
  user : ObjectId;
  vendor : ObjectId;
  status : string;
  isRated : bool
}.

(** The enum of the status path of orderSchema. *)
Definition statusEnum : list string :=
  ["pending"; "confirmed"; "in-progress"; "completed"; "cancelled";
   "refunded"]%string.

Definition set_status (s : string) (o : t) : t :=
  mk (_id o) (user o) (vendor o) s (isRated o).

Definition set_isRated (b : bool) (o : t) : t :=
  mk (_id o) (user o) (vendor o) (status o) b.
End Order.

Module Job.
Record t : Type := mk {
  _id : ObjectId;
  vendor : ObjectId;
  waiter : ObjectId;
  status : string;
  respondedAt : option Z;
  declineReason : option string;
  completedAt : option Z;
  isRated : bool
}.

(** The enum of the status path of jobSchema. *)
Definition statusEnum : list string :=
  ["pending"; "accepted"; "declined"; "in-progress"; "completed";
   "cancelled"]%string.

Definition set_status (s : string) (j : t) : t :=
  mk (_id j) (vendor j) (waiter j) s (respondedAt j) (declineReason j)
     (completedAt j) (isRated j).

Definition set_respondedAt (d : Z) (j : t) : t :=
  mk (_id j) (vendor j) (waiter j) (status j) (Some d) (declineReason j)
     (completedAt j) (isRated j).

Definition set_declineReason (r : option string) (j : t) : t :=
  mk (_id j) (vendor j) (waiter j) (status j) (respondedAt j) r
     (completedAt j) (isRated j).

Definition set_completedAt (d : Z) (j : t) : t :=
  mk (_id j) (vendor j) (waiter j) (status j) (respondedAt j)
     (declineReason j) (Some d) (isRated j).

Definition set_isRated (b : bool) (j : t) : t :=
  mk (_id j) (vendor j) (waiter j) (status j) (respondedAt j)
     (declineReason j) (completedAt j) b.
End Job.

Module Rating.
(** [response] holds the message and its respondedAt date. *)
Record t : Type := mk {
  _id : ObjectId;
  reviewer : ObjectId;
  vendor : option ObjectId;
  waiter : option ObjectId;
  order : option ObjectId;
  job : option ObjectId;
  rating : Q;
  attitudeRating : option Q;
  review : option string;
  isActive : bool;
  response : option (string * Z);
  isReported : bool;
  reportReason : option string
}.

Definition set_id (i : ObjectId) (r : t) : t :=
  mk i (reviewer r) (vendor r) (waiter r) (order r) (job r) (rating r)
     (attitudeRating r) (review r) (isActive r) (response r) (isReported r)
     (reportReason r).

Definition set_isActive (b : bool) (r : t) : t :=
  mk (_id r) (reviewer r) (vendor r) (waiter r) (order r) (job r) (rating r)
     (attitudeRating r) (review r) b (response r) (isReported r)
     (reportReason r).

Definition set_report (why : string) (r : t) : t :=
  mk (_id r) (reviewer r) (vendor r) (waiter r) (order r) (job r) (rating r)
     (attitudeRating r) (review r) (isActive r) (response r) true
     (Some why).

Definition set_response (msg : string) (at_ : Z) (r : t) : t :=
  mk (_id r) (reviewer r) (vendor r) (waiter r) (order r) (job r) (rating r)
     (attitudeRating r) (review r) (isActive r) (Some (msg, at_))
     (isReported r) (reportReason r).
End Rating.

(** ** The store and the handler monad *)

Record Store : Type := mkStore {
  vendors : list Vendor.t;
  waiters : list Waiter.t;
  orders : list Order.t;
  jobs : list Job.t;
  ratings : list Rating.t
}.

Inductive Outcome (A : Type) : Type :=
| Ok (a : A)
| Throw (e : Exception).
Arguments Ok {A} a.
Arguments Throw {A} e.

Definition M (A : Type) : Type := Store -> Outcome A * Store.

Definition ret {A : Type} (a : A) : M A := fun s => (Ok a, s).

Definition throw {A : Type} (e : Exception) : M A := fun s => (Throw e, s).

Definition bind {A B : Type} (m : M A) (k : A -> M B) : M B :=
  fun s =>
    match m s with
    | (Ok a, s') => k a s'
    | (Throw e, s') => (Throw e, s')
    end.

Definition gets {A : Type} (f : Store -> A) : M A := fun s => (Ok (f s), s).

Definition modify (f : Store -> Store) : M unit := fun s => (Ok tt, f s).

Declare Scope handler_scope.
Delimit Scope handler_scope with handler.
Notation "x <- m ;; k" := (bind m (fun x => k))
  (at level 61, m at next level, right associativity) : handler_scope.
Notation "m ;;; k" := (bind m (fun _ => k))
  (at level 61, right associativity) : handler_scope.
Local Open Scope handler_scope.

(** [if (!doc) return next(new ErrorResponse(...))]. *)
Definition orThrow {A : Type} (o : option A) (e : Exception) : M A :=
  match o with
  | Some a => ret a
  | None => throw e
  end.

Definition when (b : bool) (m : M unit) : M unit :=
  if b then m else ret tt.

(** ** Collections *)

Definition set_vendors (l : list Vendor.t) (s : Store) : Store :=
  mkStore l (waiters s) (orders s) (jobs s) (ratings s).
Definition set_waiters (l : list Waiter.t) (s : Store) : Store :=
  mkStore (vendors s) l (orders s) (jobs s) (ratings s).
Definition set_orders (l : list Order.t) (s : Store) : Store :=
  mkStore (vendors s) (waiters s) l (jobs s) (ratings s).
Definition set_jobs (l : list Job.t) (s : Store) : Store :=
  mkStore (vendors s) (waiters s) (orders s) l (ratings s).
Definition set_ratings (l : list Rating.t) (s : Store) : Store :=
  mkStore (vendors s) (waiters s) (orders s) (jobs s) l.

(** [doc.save()] of a document that is already stored. *)
Definition replaceById {A : Type} (id_of : A -> ObjectId) (doc : A)
    (l : list A) : list A :=
  map (fun d => if Nat.eqb (id_of d) (id_of doc) then doc else d) l.

(** The _id given to a new document: one not used in the collection. *)
Definition freshId {A : Type} (id_of : A -> ObjectId) (l : list A) : ObjectId :=
  S (list_max (map id_of l)).

Definition Vendor_findById (i : ObjectId) : M (option Vendor.t) :=
  gets (fun s => find (fun v => Nat.eqb (Vendor._id v) i) (vendors s)).
Definition Vendor_findOne (p : Vendor.t -> bool) : M (option Vendor.t) :=
  gets (fun s => find p (vendors s)).
Definition Vendor_save (v : Vendor.t) : M unit :=
  modify (fun s => set_vendors (replaceById Vendor._id v (vendors s)) s).

Definition Waiter_findById (i : ObjectId) : M (option Waiter.t) :=
  gets (fun s => find (fun w => Nat.eqb (Waiter._id w) i) (waiters s)).
Definition Waiter_findOne (p : Waiter.t -> bool) : M (option Waiter.t) :=
  gets (fun s => find p (waiters s)).
Definition Waiter_save (w : Waiter.t) : M unit :=
  modify (fun s => set_waiters (replaceById Waiter._id w (waiters s)) s).

Definition Order_findOne (p : Order.t -> bool) : M (option Order.t) :=
  gets (fun s => find p (orders s)).
Definition Order_save (o : Order.t) : M unit :=
  modify (fun s => set_orders (replaceById Order._id o (orders s)) s).

Definition Job_findOne (p : Job.t -> bool) : M (option Job.t) :=
  gets (fun s => find p (jobs s)).
Definition Job_save (j : Job.t) : M unit :=
  modify (fun s => set_jobs (replaceById Job._id j (jobs s)) s).

(** ** Rating aggregation (models/Vendor.js, models/Waiter.js) *)

Definition Math_ceil (x : Q) : Q := inject_Z (Qceiling x).

Definition Qsum (l : list Q) : Q := fold_right Qplus 0%Q l.

(** The [$avg] accumulator: the mean of the numeric inputs, [null] when
    there is none (a missing field is skipped). *)
Definition avgAcc (xs : list (option Q)) : option Q :=
  let nums := flat_map (fun x => match x with Some q => [q] | None => [] end)
                xs in
  match nums with
  | [] => None
  | _ :: _ => Some (Qsum nums / inject_Z (Z.of_nat (List.length nums)))%Q
  end.

(** ToNumber of an accumulator result: [null * 10] is [0]. *)
Definition toNumber (x : option Q) : Q :=
  match x with
  | Some q => q
  | None => 0%Q
  end.

(** A field of type ObjectId compared with a value of a query filter. *)
Definition refIs (f : option ObjectId) (i : ObjectId) : bool :=
  match f with
  | Some x => Nat.eqb x i
  | None => false
  end.

Module VendorModel.

Record Stats : Type := mkStats {
  averageRating : option Q;
  totalRatings : Z
}.

(** [Rating.aggregate([{ $match: { vendor: this._id } }, { $group: ... }])]:
    one group when a rating matches, none otherwise. *)
Definition aggregate (i : ObjectId) : M (list Stats) :=
  gets (fun s =>
    let docs := filter (fun r => refIs (Rating.vendor r) i) (ratings s) in
    match docs with
    | [] => []
    | _ :: _ =>
        [ mkStats (avgAcc (map (fun r => Some (Rating.rating r)) docs))
                  (Z.of_nat (List.length docs)) ]
    end).

(** vendorSchema.methods.updateRating; the answer is [this] as the method
    leaves it. *)
Definition updateRating (this : Vendor.t) : M Vendor.t :=
  stats <- aggregate (Vendor._id this) ;;
  let this :=
    match stats with
    | st :: _ =>
        Vendor.set_rating
          (Math_ceil (toNumber (averageRating st) * 10) / 10)%Q
          (totalRatings st) this
    | [] => Vendor.set_rating 0%Q 0%Z this
    end in
  Vendor_save this ;;;
  ret this.

End VendorModel.

Module WaiterModel.

Record Stats : Type := mkStats {
  averageRating : option Q;
  attitudeRating : option Q;
  totalRatings : Z
}.

(** [Rating.aggregate([{ $match: { waiter: this._id } }, { $group: ... }])] *)
Definition aggregate (i : ObjectId) : M (list Stats) :=
  gets (fun s =>
    let docs := filter (fun r => refIs (Rating.waiter r) i) (ratings s) in
    match docs with
    | [] => []
    | _ :: _ =>
        [ mkStats (avgAcc (map (fun r => Some (Rating.rating r)) docs))
                  (avgAcc (map Rating.attitudeRating docs))
                  (Z.of_nat (List.length docs)) ]
    end).

(** waiterSchema.methods.updateRating; the answer is [this] as the method
    leaves it. *)
Definition updateRating (this : Waiter.t) : M Waiter.t :=
  stats <- aggregate (Waiter._id this) ;;
  let this :=
    match stats with
    | st :: _ =>
        Waiter.set_rating
          (Math_ceil (toNumber (averageRating st) * 10) / 10)%Q
          (Math_ceil (toNumber (attitudeRating st) * 10) / 10)%Q
          (totalRatings st) this
    | [] => Waiter.set_rating 0%Q 0%Q 0%Z this
    end in
  Waiter_save this ;;;
  ret this.

End WaiterModel.

(** ** The Rating model (models/Rating.js) *)

Module RatingModel.

Definition isSome {A : Type} (o : option A) : bool :=
  match o with
  | Some _ => true
  | None => false
  end.

(** The validators of the schema paths, with the messages they raise. *)
Definition validate (this : Rating.t) : list string :=
  ((if Qle_bool 1 (Rating.rating this) then []
    else ["Rating must be at least 1"])
   ++ (if Qle_bool (Rating.rating this) 5 then []
       else ["Rating cannot be more than 5"])
   ++ match Rating.attitudeRating this with
      | Some a =>
          (if Qle_bool 1 a then []
           else ["Attitude rating must be at least 1"])
          ++ (if Qle_bool a 5 then []
              else ["Attitude rating cannot be more than 5"])
      | None => []
      end
   ++ match Rating.review this with
      | Some t =>
          if Nat.leb (String.length t) 500 then []
          else ["Review cannot be more than 500 characters"]
      | None => []
      end).

(** ratingSchema.pre("save"): the error is handed to [next] first, so the
    save is refused. *)
Definition preSave (this : Rating.t) : M unit :=
  if (isSome (Rating.vendor this) && isSome (Rating.waiter this))
     || (negb (isSome (Rating.vendor this))
         && negb (isSome (Rating.waiter this)))
  then throw
      (Error "Must rate either a vendor or a waiter, not both or neither")
  else ret tt.

(** ratingSchema.post("save") *)
Definition postSave (this : Rating.t) : M unit :=
  match Rating.vendor this with
  | Some v =>
      vendor <- Vendor_findById v ;;
      match vendor with
      | Some vendor => VendorModel.updateRating vendor ;;; ret tt
      | None => ret tt
      end
  | None => ret tt
  end ;;;
  match Rating.waiter this with
  | Some w =>
      waiter <- Waiter_findById w ;;
      match waiter with
      | Some waiter => WaiterModel.updateRating waiter ;;; ret tt
      | None => ret tt
      end
  | None => ret tt
  end.

(** The two unique partial indexes: (reviewer, vendor, order) over the
    documents that have a vendor and an order, (reviewer, waiter, job) over
    those that have a waiter and a job.  [isActive] is no part of them. *)
Definition sameVendorKey (a b : Rating.t) : bool :=
  match Rating.vendor a, Rating.order a, Rating.vendor b, Rating.order b with
  | Some va, Some oa, Some vb, Some ob =>
      Nat.eqb (Rating.reviewer a) (Rating.reviewer b)
      && Nat.eqb va vb && Nat.eqb oa ob
  | _, _, _, _ => false
  end.

Definition sameWaiterKey (a b : Rating.t) : bool :=
  match Rating.waiter a, Rating.job a, Rating.waiter b, Rating.job b with
  | Some wa, Some ja, Some wb, Some jb =>
      Nat.eqb (Rating.reviewer a) (Rating.reviewer b)
      && Nat.eqb wa wb && Nat.eqb ja jb
  | _, _, _, _ => false
  end.

Definition duplicateKey (doc : Rating.t) (l : list Rating.t) : bool :=
  existsb (fun d => sameVendorKey doc d || sameWaiterKey doc d) l.

Definition findById (i : ObjectId) : M (option Rating.t) :=
  gets (fun s => find (fun r => Nat.eqb (Rating._id r) i) (ratings s)).

Definition findOne (p : Rating.t -> bool) : M (option Rating.t) :=
  gets (fun s => find p (ratings s)).

(** ratingSchema.pre(/^find/): every find query populates reviewer, so
    [rating.reviewer] of a rating a handler has found is the document of
    the reviewer. *)
Definition reviewer (this : Rating.t) : Path :=
  Document (Rating.reviewer this).

Definition runValidators (this : Rating.t) : M unit :=
  match validate this with
  | [] => ret tt
  | m :: ms => throw (ValidationError (m :: ms))
  end.

(** [doc.save()] of a stored rating: validation, the pre hook, the write,
    the post hook. *)
Definition save (this : Rating.t) : M unit :=
  runValidators this ;;;
  preSave this ;;;
  modify (fun s => set_ratings (replaceById Rating._id this (ratings s)) s) ;;;
  postSave this.

(** [Rating.create(fields)]: validation, the pre hook, the insert under the
    unique indexes, the post hook.  The [_id] of [fields] is replaced. *)
Definition create (fields : Rating.t) : M Rating.t :=
  runValidators fields ;;;
  preSave fields ;;;
  dup <- gets (fun s => duplicateKey fields (ratings s)) ;;
  if dup then throw (DuplicateKey "reviewer")
  else
    i <- gets (fun s => freshId Rating._id (ratings s)) ;;
    let doc := Rating.set_id i fields in
    modify (fun s => set_ratings (ratings s ++ [doc]) s) ;;;
    postSave doc ;;;
    ret doc.

End RatingModel.

(** ** Controllers *)

(** controllers/vendorController.js *)
Module VendorController.

Definition notBooked : Exception :=
  ErrorResponse
    "You can only rate vendors you have booked and completed services with"
    400.

Definition alreadyRatedVendor : Exception :=
  ErrorResponse "You have already rated this vendor for this booking" 400.

(** The filter of the eligibility query of rateVendor. *)
Definition completedOrderOf (user : User.t) (id : ObjectId) (o : Order.t)
    : bool :=
  Nat.eqb (Order.user o) (User._id user)
  && Nat.eqb (Order.vendor o) id
  && String.eqb (Order.status o) "completed".

(** The filter of the duplicate query of rateVendor. *)
Definition vendorRatingOf (user : User.t) (id order : ObjectId)
    (r : Rating.t) : bool :=
  Nat.eqb (Rating.reviewer r) (User._id user)
  && refIs (Rating.vendor r) id
  && refIs (Rating.order r) order.

(** rateVendor: [user] is req.user, [id] is req.params.id, [rating] and
    [review] are fields of req.body (the breakdown is not modelled). *)
Definition rateVendor (user : User.t) (id : ObjectId) (rating : Q)
    (review : option string) : M Rating.t :=
  vendor <- Vendor_findById id ;;
  _ <- orThrow vendor (ErrorResponse "Vendor not found" 404) ;;
  existingOrder <- Order_findOne (completedOrderOf user id) ;;
  existingOrder <- orThrow existingOrder notBooked ;;
  existingRating <- RatingModel.findOne
                      (vendorRatingOf user id (Order._id existingOrder)) ;;
  if RatingModel.isSome existingRating then throw alreadyRatedVendor
  else
    rating <- RatingModel.create
                (Rating.mk 0%nat (User._id user) (Some id) None
                   (Some (Order._id existingOrder)) None rating None review
                   true None false None) ;;
    Order_save (Order.set_isRated true existingOrder) ;;;
    ret rating.

(** The object literal of updateOrderStatus. *)
Definition validTransitions : list (string * list string) :=
  [ ("pending", ["confirmed"; "cancelled"]);
    ("confirmed", ["in-progress"; "cancelled"]);
    ("in-progress", ["completed"; "cancelled"]);
    ("completed", []);
    ("cancelled", []);
    ("refunded", []) ]%string.

Definition cannotChange (from to : string) : Exception :=
  ErrorResponse
    ("Cannot change status from " ++ from ++ " to " ++ to)%string 400.

(** updateOrderStatus: [user] is req.user, [orderId] is
    req.params.orderId, [status] is req.body.status.  The answer is the
    saved order. *)
Definition updateOrderStatus (user : User.t) (orderId : ObjectId)
    (status : string) : M Order.t :=
  vendor <- Vendor_findOne
              (fun v => Nat.eqb (Vendor.user v) (User._id user)) ;;
  vendor <- orThrow vendor (ErrorResponse "Vendor profile not found" 404) ;;
  order <- Order_findOne
             (fun o => Nat.eqb (Order._id o) orderId
                       && Nat.eqb (Order.vendor o) (Vendor._id vendor)) ;;
  order <- orThrow order (ErrorResponse "Order not found" 404) ;;
  allowed <- orThrow (lookup (Order.status order) validTransitions)
               (TypeError "Cannot read properties of undefined") ;;
  if negb (includes allowed status) then
    throw (cannotChange (Order.status order) status)
  else
    let order := Order.set_status status order in
    when (String.eqb status "completed")
      (Vendor_save
         (Vendor.set_completedBookings
            (Vendor.completedBookings vendor + 1) vendor)) ;;;
    Order_save order ;;;
    ret order.

End VendorController.

(** controllers/waiterController.js *)
Module WaiterController.

Definition notHired : Exception :=
  ErrorResponse
    "You can only rate waiters you have hired and completed jobs with" 400.

Definition alreadyRatedWaiter : Exception :=
  ErrorResponse "You have already rated this waiter for this job" 400.

(** The filter of the eligibility query of rateWaiter.  The vendor side is
    req.user.vendorProfile; when that is undefined the filter asks for a
    null vendor, which no job has (the path is required). *)
Definition completedJobOf (user : User.t) (id : ObjectId) (j : Job.t)
    : bool :=
  Nat.eqb (Job.waiter j) id
  && refIs (User.vendorProfile user) (Job.vendor j)
  && String.eqb (Job.status j) "completed".

(** The filter of the duplicate query of rateWaiter. *)
Definition waiterRatingOf (user : User.t) (id job : ObjectId)
    (r : Rating.t) : bool :=
  Nat.eqb (Rating.reviewer r) (User._id user)
  && refIs (Rating.waiter r) id
  && refIs (Rating.job r) job.

(** rateWaiter: as rateVendor, with the attitudeRating of req.body. *)
Definition rateWaiter (user : User.t) (id : ObjectId) (rating : Q)
    (attitudeRating : option Q) (review : option string) : M Rating.t :=
  waiter <- Waiter_findById id ;;
  _ <- orThrow waiter (ErrorResponse "Waiter not found" 404) ;;
  existingJob <- Job_findOne (completedJobOf user id) ;;
  existingJob <- orThrow existingJob notHired ;;
  existingRating <- RatingModel.findOne
                      (waiterRatingOf user id (Job._id existingJob)) ;;
  if RatingModel.isSome existingRating then throw alreadyRatedWaiter
  else
    rating <- RatingModel.create
                (Rating.mk 0%nat (User._id user) None (Some id) None
                   (Some (Job._id existingJob)) rating attitudeRating review
                   true None false None) ;;
    Job_save (Job.set_isRated true existingJob) ;;;
    ret rating.

(** The object literal of updateJobStatus. *)
Definition validTransitions : list (string * list string) :=
  [ ("pending", ["accepted"; "declined"]);
    ("accepted", ["in-progress"; "cancelled"]);
    ("declined", []);
    ("in-progress", ["completed"]);
    ("completed", []);
    ("cancelled", []) ]%string.

Definition cannotChange (from to : string) : Exception :=
  ErrorResponse
    ("Cannot change status from " ++ from ++ " to " ++ to)%string 400.

(** updateJobStatus: [user] is req.user, [jobId] is req.params.jobId,
    [status] and [declineReason] are the fields of req.body, [now] is
    Date.now().  The answer is the saved job. *)
Definition updateJobStatus (user : User.t) (jobId : ObjectId)
    (status : string) (declineReason : option string) (now : Z)
    : M Job.t :=
  waiter <- Waiter_findOne
              (fun w => Nat.eqb (Waiter.user w) (User._id user)) ;;
  waiter <- orThrow waiter (ErrorResponse "Waiter profile not found" 404) ;;
  job <- Job_findOne
           (fun j => Nat.eqb (Job._id j) jobId
                     && Nat.eqb (Job.waiter j) (Waiter._id waiter)) ;;
  job <- orThrow job (ErrorResponse "Job not found" 404) ;;
  allowed <- orThrow (lookup (Job.status job) validTransitions)
               (TypeError "Cannot read properties of undefined") ;;
  if negb (includes allowed status) then
    throw (cannotChange (Job.status job) status)
  else
    let job := Job.set_status status job in
    let job :=
      if String.eqb status "accepted" || String.eqb status "declined" then
        let job := Job.set_respondedAt now job in
        if String.eqb status "declined" && truthy declineReason then
          Job.set_declineReason declineReason job
        else job
      else job in
    if String.eqb status "completed" then
      let waiter :=
        Waiter.set_jobs (Waiter.totalJobs waiter + 1)
          (Waiter.completedJobs waiter + 1) waiter in
      let job := Job.set_completedAt now job in
      Waiter_save waiter ;;;
      Job_save job ;;;
      ret job
    else if String.eqb status "accepted" then
      let waiter :=
        Waiter.set_jobs (Waiter.totalJobs waiter + 1)
          (Waiter.completedJobs waiter) waiter in
      Waiter_save waiter ;;;
      Job_save job ;;;
      ret job
    else
      Job_save job ;;;
      ret job.

End WaiterController.

(** controllers/ratingController.js *)

Module RatingController.

Definition notFound : Exception := ErrorResponse "Rating not found" 404.

Definition cannotDelete : Exception :=
  ErrorResponse "Not authorized to delete this rating" 403.

(** The populated vendor or waiter of getRatingById: its user. *)
Definition vendorUser (s : Store) (r : Rating.t) : option ObjectId :=
  match Rating.vendor r with
  | Some v =>
      option_map Vendor.user
        (find (fun d => Nat.eqb (Vendor._id d) v) (vendors s))
  | None => None
  end.

Definition waiterUser (s : Store) (r : Rating.t) : option ObjectId :=
  match Rating.waiter r with
  | Some w =>
      option_map Waiter.user
        (find (fun d => Nat.eqb (Waiter._id d) w) (waiters s))
  | None => None
  end.

(** [doc && doc.user.toString() === id.toString()] for a populated
    profile whose user is populated in turn: [u] is the user of the
    profile, [None] when the profile is missing. *)
Definition userIs (u : option ObjectId) (i : ObjectId) : bool :=
  match u with
  | Some j => toStringIs (Document j) i
  | None => false
  end.

(** getRatingById: no filter on isActive.  The query populates reviewer,
    vendor with its user and waiter with its user; the owner test reads
    rating.reviewer._id, the tests for the rated party print the populated
    user.  The users collection is not modelled: the users a stored
    document refers to are taken to exist. *)
Definition getRatingById (user : User.t) (id : ObjectId) : M Rating.t :=
  rating <- RatingModel.findById id ;;
  rating <- orThrow rating notFound ;;
  vu <- gets (fun s => vendorUser s rating) ;;
  wu <- gets (fun s => waiterUser s rating) ;;
  let canView :=
    String.eqb (User.role user) "admin"
    || Nat.eqb (Path_id (RatingModel.reviewer rating)) (User._id user)
    || userIs vu (User._id user)
    || userIs wu (User._id user) in
  if negb canView then
    throw (ErrorResponse "Not authorized to view this rating" 403)
  else ret rating.

(** deleteRating: [user] is req.user, [id] is req.params.id.  The owner
    test compares rating.reviewer.toString() with req.user._id.toString(),
    rating.reviewer being the user document the pre-find hook has
    populated. *)
Definition deleteRating (user : User.t) (id : ObjectId) : M unit :=
  rating <- RatingModel.findById id ;;
  rating <- orThrow rating notFound ;;
  let canDelete :=
    String.eqb (User.role user) "admin"
    || toStringIs (RatingModel.reviewer rating) (User._id user) in
  if negb canDelete then throw cannotDelete
  else
    let rating := Rating.set_isActive false rating in
    RatingModel.save rating ;;;
    match Rating.vendor rating with
    | Some v =>
        vendor <- Vendor_findById v ;;
        match vendor with
        | Some vendor => VendorModel.updateRating vendor ;;; ret tt
        | None => ret tt
        end
    | None => ret tt
    end ;;;
    match Rating.waiter rating with
    | Some w =>
        waiter <- Waiter_findById w ;;
        match waiter with
        | Some waiter => WaiterModel.updateRating waiter ;;; ret tt
        | None => ret tt
        end
    | None => ret tt
    end.

(** reportRating: [reason] is req.body.reason. *)
Definition reportRating (id : ObjectId) (reason : option string) : M unit :=
  rating <- RatingModel.findById id ;;
  rating <- orThrow rating notFound ;;
  if Rating.isReported rating then
    throw (ErrorResponse "Rating is already reported" 400)
  else
    RatingModel.save
      (Rating.set_report (orElse reason "Inappropriate content") rating).

(** respondToRating: [message] is req.body.message, [now] is Date.now(). *)
Definition respondToRating (user : User.t) (id : ObjectId) (message : string)
    (now : Z) : M Rating.t :=
  rating <- RatingModel.findById id ;;
  rating <- orThrow rating notFound ;;
  byVendor <-
    match Rating.vendor rating with
    | Some v =>
        if String.eqb (User.role user) "vendor" then
          vendor <- Vendor_findOne
                      (fun d => Nat.eqb (Vendor._id d) v
                                && Nat.eqb (Vendor.user d) (User._id user)) ;;
          ret (RatingModel.isSome vendor)
        else ret false
    | None => ret false
    end ;;
  canRespond <-
    match Rating.waiter rating with
    | Some w =>
        if String.eqb (User.role user) "waiter" then
          waiter <- Waiter_findOne
                      (fun d => Nat.eqb (Waiter._id d) w
                                && Nat.eqb (Waiter.user d) (User._id user)) ;;
          ret (RatingModel.isSome waiter)
        else ret byVendor
    | None => ret byVendor
    end ;;
  if negb canRespond then
    throw (ErrorResponse "Not authorized to respond to this rating" 403)
  else if truthy (option_map fst (Rating.response rating)) then
    throw (ErrorResponse "You have already responded to this rating" 400)
  else
    let rating := Rating.set_response message now rating in
    RatingModel.save rating ;;;
    ret rating.

End RatingController.

(** ** The specification's vocabulary *)

(** The allowed successors of an Order status, as the specification lists
    them (section 4.1). *)
Inductive orderEdge : string -> string -> Prop :=
| order_pending_confirmed : orderEdge "pending" "confirmed"
| order_pending_cancelled : orderEdge "pending" "cancelled"
| order_confirmed_inprogress : orderEdge "confirmed" "in-progress"
| order_confirmed_cancelled : orderEdge "confirmed" "cancelled"
| order_inprogress_completed : orderEdge "in-progress" "completed"
| order_inprogress_cancelled : orderEdge "in-progress" "cancelled".

(** The allowed successors of a Job status (section 4.2). *)
Inductive jobEdge : string -> string -> Prop :=
| job_pending_accepted : jobEdge "pending" "accepted"
| job_pending_declined : jobEdge "pending" "declined"
| job_accepted_inprogress : jobEdge "accepted" "in-progress"
| job_accepted_cancelled : jobEdge "accepted" "cancelled"
| job_inprogress_completed : jobEdge "in-progress" "completed".

(** The error kinds of section 7, as the controllers raise them. *)
Definition InvalidTransition (from to : string) : Exception :=
  ErrorResponse ("Cannot change status from " ++ from ++ " to " ++ to)%string
    400.

(** The queries of updateOrderStatus and updateJobStatus. *)
Definition vendorOf (user : User.t) (s : Store) : option Vendor.t :=
  find (fun v => Nat.eqb (Vendor.user v) (User._id user)) (vendors s).

Definition orderOf (vendor : Vendor.t) (orderId : ObjectId) (s : Store)
    : option Order.t :=
  find (fun o => Nat.eqb (Order._id o) orderId
                 && Nat.eqb (Order.vendor o) (Vendor._id vendor)) (orders s).

Definition waiterOf (user : User.t) (s : Store) : option Waiter.t :=
  find (fun w => Nat.eqb (Waiter.user w) (User._id user)) (waiters s).

Definition jobOf (waiter : Waiter.t) (jobId : ObjectId) (s : Store)
    : option Job.t :=
  find (fun j => Nat.eqb (Job._id j) jobId
                 && Nat.eqb (Job.waiter j) (Waiter._id waiter)) (jobs s).

(** ** What the handlers leave behind *)

(** The store after a successful updateOrderStatus. *)
Definition orderUpdated (vendor : Vendor.t) (order : Order.t)
    (status : string) (s : Store) : Store :=
  let s1 :=
    if String.eqb status "completed" then
      set_vendors
        (replaceById Vendor._id
           (Vendor.set_completedBookings
              (Vendor.completedBookings vendor + 1) vendor) (vendors s)) s
    else s in
  set_orders
    (replaceById Order._id (Order.set_status status order) (orders s1)) s1.

(** The job after a successful updateJobStatus. *)
Definition jobAfter (job : Job.t) (status : string)
    (declineReason : option string) (now : Z) : Job.t :=
  let job := Job.set_status status job in
  let job :=
    if String.eqb status "accepted" || String.eqb status "declined" then
      let job := Job.set_respondedAt now job in
      if String.eqb status "declined" && truthy declineReason then
        Job.set_declineReason declineReason job
      else job
    else job in
  if String.eqb status "completed" then Job.set_completedAt now job else job.

(** The waiter profile after a successful updateJobStatus. *)
Definition waiterAfter (waiter : Waiter.t) (status : string) : Waiter.t :=
  if String.eqb status "completed" then
    Waiter.set_jobs (Waiter.totalJobs waiter + 1)
      (Waiter.completedJobs waiter + 1) waiter
  else if String.eqb status "accepted" then
    Waiter.set_jobs (Waiter.totalJobs waiter + 1)
      (Waiter.completedJobs waiter) waiter
  else waiter.

(** The store after a successful updateJobStatus. *)
Definition jobUpdated (waiter : Waiter.t) (job : Job.t) (status : string)
    (declineReason : option string) (now : Z) (s : Store) : Store :=
  let s1 :=
    if String.eqb status "completed" || String.eqb status "accepted" then
      set_waiters
        (replaceById Waiter._id (waiterAfter waiter status) (waiters s)) s
    else s in
  set_jobs
    (replaceById Job._id (jobAfter job status declineReason now) (jobs s1)) s1.

(** The ratings the [$match] stage of Vendor.updateRating keeps. *)
Definition vendorDocs (i : ObjectId) (l : list Rating.t) : list Rating.t :=
  filter (fun r => refIs (Rating.vendor r) i) l.

(** The ratings the [$match] stage of Waiter.updateRating keeps. *)
Definition waiterDocs (i : ObjectId) (l : list Rating.t) : list Rating.t :=
  filter (fun r => refIs (Rating.waiter r) i) l.

(** [this] after Vendor.updateRating over the ratings [l]. *)
Definition vendorRated (this : Vendor.t) (l : list Rating.t) : Vendor.t :=
  match vendorDocs (Vendor._id this) l with
  | [] => Vendor.set_rating 0%Q 0%Z this
  | d :: ds =>
      Vendor.set_rating
        (Math_ceil
           (toNumber (avgAcc (map (fun r => Some (Rating.rating r)) (d :: ds)))
            * 10) / 10)%Q
        (Z.of_nat (List.length (d :: ds))) this
  end.

(** [this] after Waiter.updateRating over the ratings [l]. *)
Definition waiterRated (this : Waiter.t) (l : list Rating.t) : Waiter.t :=
  match waiterDocs (Waiter._id this) l with
  | [] => Waiter.set_rating 0%Q 0%Q 0%Z this
  | d :: ds =>
      Waiter.set_rating
        (Math_ceil
           (toNumber (avgAcc (map (fun r => Some (Rating.rating r)) (d :: ds)))
            * 10) / 10)%Q
        (Math_ceil
           (toNumber (avgAcc (map Rating.attitudeRating (d :: ds)))
            * 10) / 10)%Q
        (Z.of_nat (List.length (d :: ds))) this
  end.

(** The store after the recomputation of the vendor a rating refers to. *)
Definition recomputeVendor (r : Rating.t) (s : Store) : Store :=
  match Rating.vendor r with
  | Some v =>
      match find (fun d => Nat.eqb (Vendor._id d) v) (vendors s) with
      | Some vendor =>
          set_vendors
            (replaceById Vendor._id (vendorRated vendor (ratings s))
               (vendors s)) s
      | None => s
      end
  | None => s
  end.

(** The store after the recomputation of the waiter a rating refers to. *)
Definition recomputeWaiter (r : Rating.t) (s : Store) : Store :=
  match Rating.waiter r with
  | Some w =>
      match find (fun d => Nat.eqb (Waiter._id d) w) (waiters s) with
      | Some waiter =>
          set_waiters
            (replaceById Waiter._id (waiterRated waiter (ratings s))
               (waiters s)) s
      | None => s
      end
  | None => s
  end.

(** The store after the recomputation of the profiles a rating refers to
    (the post-save hook, and the tail of deleteRating). *)
Definition recomputeTargets (r : Rating.t) (s : Store) : Store :=
  recomputeWaiter r (recomputeVendor r s).

(** The test of the pre-save hook. *)
Definition oneTarget (r : Rating.t) : bool :=
  xorb (RatingModel.isSome (Rating.vendor r))
       (RatingModel.isSome (Rating.waiter r)).

(** The fields rateVendor hands to Rating.create. *)
Definition vendorFields (user : User.t) (id : ObjectId) (order : Order.t)
    (rating : Q) (review : option string) : Rating.t :=
  Rating.mk 0 (User._id user) (Some id) None (Some (Order._id order)) None
    rating None review true None false None.

(** The fields rateWaiter hands to Rating.create. *)
Definition waiterFields (user : User.t) (id : ObjectId) (job : Job.t)
    (rating : Q) (attitudeRating : option Q) (review : option string)
    : Rating.t :=
  Rating.mk 0 (User._id user) None (Some id) None (Some (Job._id job))
    rating attitudeRating review true None false None.

(** The store after a successful rateVendor. *)
Definition vendorRatingStored (doc : Rating.t) (order : Order.t) (s : Store)
    : Store :=
  let s1 := recomputeTargets doc (set_ratings (ratings s ++ [doc]) s) in
  set_orders
    (replaceById Order._id (Order.set_isRated true order) (orders s1)) s1.

(** The owner-or-admin test of deleteRating. *)
Definition canDelete (user : User.t) (r : Rating.t) : bool :=
  String.eqb (User.role user) "admin"
  || toStringIs (RatingModel.reviewer r) (User._id user).

(** The store after a successful deleteRating of the rating [r]. *)
Definition ratingRetracted (r : Rating.t) (s : Store) : Store :=
  recomputeTargets (Rating.set_isActive false r)
    (set_ratings
       (replaceById Rating._id (Rating.set_isActive false r) (ratings s)) s).

(** ** The averaging on doubles *)

(** IEEE 754 binary64, the arithmetic the source runs on. *)
Module Binary64.

Definition two52 : float := 4503599627370496%float.

(** [Math.ceil] on a double between 0 and 2^51: adding and removing 2^52
    rounds to an integer, which is stepped up when it fell below. *)
Definition ceil (x : float) : float :=
  let r := (x + two52 - two52)%float in
  if PrimFloat.ltb r x then (r + 1)%float else r.

(** [$avg] of a group: the sum over the count. *)
Definition avg (l : list float) : float :=
  (fold_left PrimFloat.add l 0 / fold_left (fun c _ => c + 1) l 0)%float.

(** [Math.ceil(avg * 10) / 10] *)
Definition ceilTenths (m : float) : float := (ceil (m * 10) / 10)%float.

(** The double that the literal 4.4 denotes. *)
Definition fourPointFour : float := 0x1.199999999999ap+2%float.

(** 2^53: from there on the doubles are two or more apart. *)
Definition two53 : float := 9007199254740992%float.

(** The double nearest to an integer between 0 and 2^63. *)
Definition ofZ (n : Z) : float := PrimFloat.of_uint63 (Uint63.of_Z n).

(** The counter line of updateOrderStatus on the double:
    [if (status === "completed") vendor.completedBookings += 1]. *)
Definition completedBookingsAfter (status : string)
    (completedBookings : float) : float :=
  if String.eqb status "completed" then (completedBookings + 1)%float
  else completedBookings.

End Binary64.

(** [Number.isSafeInteger]: the integers the doubles count one by one. *)
Definition safeInteger (n : Z) : Prop := (- 2 ^ 53 < n < 2 ^ 53)%Z.

(** ** The aggregate of the specification *)

(** The aggregate as the specification words it: over the active ratings
    that refer to the profile, the mean rounded up to one decimal, zero
    when there is none. *)
Definition activeDocs (target : Rating.t -> option ObjectId) (i : ObjectId)
    (l : list Rating.t) : list Rating.t :=
  filter (fun r => Rating.isActive r && refIs (target r) i) l.

(** The arithmetic mean. *)
Definition mean (scores : list Q) : Q :=
  (Qsum scores / inject_Z (Z.of_nat (List.length scores)))%Q.

(** The ceiling at the tenths digit. *)
Definition ceilToTenths (m : Q) : Q :=
  (inject_Z (Qceiling (m * 10)) / 10)%Q.

(** The average the specification asks for. *)
Definition specAverage (scores : list Q) : Q :=
  match scores with
  | [] => 0%Q
  | _ :: _ => ceilToTenths (mean scores)
  end.

(** The ratings [l] with their isActive flags set by [flags]. *)
Definition reflag (flags : Rating.t -> bool) (l : list Rating.t)
    : list Rating.t :=
  map (fun r => Rating.set_isActive (flags r) r) l.

(** ** Request sequences and reachable stores *)

(** The requests of a list sent one after the other for one order; a
    request that throws leaves the store as it is. *)
Fixpoint driveOrder (user : User.t) (orderId : ObjectId)
    (requests : list string) (s : Store) : Store :=
  match requests with
  | [] => s
  | status :: rest =>
      driveOrder user orderId rest
        (snd (VendorController.updateOrderStatus user orderId status s))
  end.

(** 1 for the status completed, 0 for the others. *)
Definition isCompleted (status : string) : Z :=
  if String.eqb status "completed" then 1%Z else 0%Z.

(** Exactly one of vendor and waiter is set, a vendor comes with an order
    and no job, a waiter with a job and no order. *)
Definition wellTargeted (r : Rating.t) : bool :=
  match Rating.vendor r, Rating.waiter r, Rating.order r, Rating.job r with
  | Some _, None, Some _, None => true
  | None, Some _, None, Some _ => true
  | _, _, _, _ => false
  end.

(** The requests of the exposed operations that the embedding covers. *)
Inductive Request : Type :=
| RateVendor (user : User.t) (id : ObjectId) (rating : Q)
    (review : option string)
| RateWaiter (user : User.t) (id : ObjectId) (rating : Q)
    (attitudeRating : option Q) (review : option string)
| DeleteRating (user : User.t) (id : ObjectId)
| ReportRating (id : ObjectId) (reason : option string)
| RespondToRating (user : User.t) (id : ObjectId) (message : string)
    (now : Z)
| GetRatingById (user : User.t) (id : ObjectId)
| UpdateOrderStatus (user : User.t) (orderId : ObjectId) (status : string)
| UpdateJobStatus (user : User.t) (jobId : ObjectId) (status : string)
    (declineReason : option string) (now : Z).

(** The store a request leaves behind, whether it returned or threw. *)
Definition handle (q : Request) (s : Store) : Store :=
  match q with
  | RateVendor user id rating review =>
      snd (VendorController.rateVendor user id rating review s)
  | RateWaiter user id rating att review =>
      snd (WaiterController.rateWaiter user id rating att review s)
  | DeleteRating user id => snd (RatingController.deleteRating user id s)
  | ReportRating id reason => snd (RatingController.reportRating id reason s)
  | RespondToRating user id message now =>
      snd (RatingController.respondToRating user id message now s)
  | GetRatingById user id => snd (RatingController.getRatingById user id s)
  | UpdateOrderStatus user orderId status =>
      snd (VendorController.updateOrderStatus user orderId status s)
  | UpdateJobStatus user jobId status reason now =>
      snd (WaiterController.updateJobStatus user jobId status reason now s)
  end.

(** The stores the operations can produce: from a store without ratings,
    by the requests above and by the operations outside the embedding,
    which write no rating (registration, hiring, profile updates) or only
    remove ratings (the deleteUser of the admin controller). *)
Inductive reachable : Store -> Prop :=
| reach_init (s : Store) : ratings s = [] -> reachable s
| reach_request (q : Request) (s : Store) :
    reachable s -> reachable (handle q s)
| reach_other (s s' : Store) :
    reachable s -> incl (ratings s') (ratings s) -> reachable s'.

(** Every stored rating is well targeted. *)
Definition allTargeted (s : Store) : Prop :=
  Forall (fun r => wellTargeted r = true) (ratings s).

(** ** Scenario data *)

(** The users of the scenarios: a customer, the user of a vendor, the user
    of a waiter, a second customer and an administrator. *)
Definition alice : User.t := User.mk 1 "user".
Definition vera : User.t := User.mk 2 "vendor".
Definition walt : User.t := User.mk 3 "waiter".
Definition mallory : User.t := User.mk 4 "user".
Definition root : User.t := User.mk 9 "admin".

(** The profile of vera, the profile of walt, an order of alice with vera
    and a job offer of vera to walt. *)
Definition veraVendor : Vendor.t := Vendor.mk 10 2 0 0 1 0.
Definition waltWaiter : Waiter.t := Waiter.mk 20 3 0 0 0 0 0.
Definition aliceOrder : Order.t := Order.mk 100 1 10 "pending" false.
Definition waltJob : Job.t := Job.mk 200 10 20 "pending" None None None false.

(** One vendor with one pending order of alice, one waiter with one pending
    job offer, no rating. *)
Definition demo : Store :=
  mkStore [veraVendor] [waltWaiter] [aliceOrder] [waltJob] [].

(** The waiter ratings of the scenario of section 8: one active rating per
    score, each by another reviewer for another job. *)
Fixpoint waiterRatings (waiter : ObjectId) (n : nat) (scores : list Q)
    : list Rating.t :=
  match scores with
  | [] => []
  | q :: rest =>
      Rating.mk (S n) (30 + n) None (Some waiter) None (Some (200 + n)) q
        None None true None false None
      :: waiterRatings waiter (S n) rest
  end.

(** walt with such ratings. *)
Definition waltRated (scores : list Q) : Store :=
  mkStore [veraVendor] [waltWaiter] [] [] (waiterRatings 20 0 scores).

(** The order and the job once completed. *)
Definition completedOrder : Order.t := Order.mk 100 1 10 "completed" false.
Definition completedJob : Job.t :=
  Job.mk 200 10 20 "completed" (Some 1000%Z) None (Some 3000%Z) false.

(** The order of alice and the job of walt are completed, nothing is rated. *)
Definition served : Store :=
  mkStore [veraVendor] [waltWaiter] [completedOrder] [completedJob] [].

(** The order of alice is in progress. *)
Definition inProgressOrder : Order.t :=
  Order.mk 100 1 10 "in-progress" false.

Definition cooking : Store :=
  mkStore [veraVendor] [waltWaiter] [inProgressOrder] [waltJob] [].

(** alice and mallory both have a completed order with vera. *)
Definition servedTwice : Store :=
  mkStore [veraVendor] [] [completedOrder; Order.mk 101 4 10 "completed" false]
    [] [].

(** The rating of alice for her order, retracted. *)
Definition retractedRating : Rating.t :=
  Rating.mk 1 1 (Some 10) None (Some 100) None 5 None None false None false
    None.

(** The rating of vera for the job of walt, retracted. *)
Definition retractedWaiterRating : Rating.t :=
  Rating.mk 2 2 None (Some 20) None (Some 200) 3 (Some 4%Q) None false None
    false None.

(** Both retracted ratings stored, the profiles still carrying their
    aggregates. *)
Definition retracted : Store :=
  mkStore [Vendor.set_rating 5 1 veraVendor]
    [Waiter.set_rating 3 4 1 waltWaiter]
    [Order.set_isRated true completedOrder]
    [Job.set_isRated true completedJob]
    [retractedRating; retractedWaiterRating].

(** alice has rated her completed order with 5. *)
Definition ratedDoc : Rating.t :=
  Rating.mk 1 1 (Some 10) None (Some 100) None 5 None (Some "Great food")
    true None false None.

(** The store after that submission. *)
Definition rated : Store :=
  snd (VendorController.rateVendor alice 10 5 (Some "Great food") served).

(** The administrator has then retracted that rating. *)
Definition unrated : Store :=
  snd (RatingController.deleteRating root 1 rated).

(** * Further properties: vocabulary *)

(** ** The tests of the rating controller *)

(** The value of canRespond when respondToRating reaches its test. *)
Definition canRespond (user : User.t) (r : Rating.t) (s : Store) : bool :=
  let byVendor :=
    match Rating.vendor r with
    | Some v =>
        String.eqb (User.role user) "vendor"
        && RatingModel.isSome
             (find (fun d => Nat.eqb (Vendor._id d) v
                             && Nat.eqb (Vendor.user d) (User._id user))
                (vendors s))
    | None => false
    end in
  match Rating.waiter r with
  | Some w =>
      if String.eqb (User.role user) "waiter" then
        RatingModel.isSome
          (find (fun d => Nat.eqb (Waiter._id d) w
                          && Nat.eqb (Waiter.user d) (User._id user))
             (waiters s))
      else byVendor
  | None => byVendor
  end.

(** The value of canView in getRatingById. *)
Definition canView (user : User.t) (r : Rating.t) (s : Store) : bool :=
  String.eqb (User.role user) "admin"
  || Nat.eqb (Path_id (RatingModel.reviewer r)) (User._id user)
  || RatingController.userIs (RatingController.vendorUser s r)
       (User._id user)
  || RatingController.userIs (RatingController.waiterUser s r)
       (User._id user).

(** The store after a successful save of the rating [r]. *)
Definition ratingSaved (r : Rating.t) (s : Store) : Store :=
  recomputeTargets r (set_ratings (replaceById Rating._id r (ratings s)) s).

(** ** What requests do to the ratings collection *)

(** The requests of a list handled one after the other. *)
Fixpoint handleAll (qs : list Request) (s : Store) : Store :=
  match qs with
  | [] => s
  | q :: rest => handleAll rest (handle q s)
  end.

(** The reviewer, the target and the transaction of a rating: the fields of
    the two unique indexes. *)
Definition ratingKey (r : Rating.t)
    : ObjectId * option ObjectId * option ObjectId * option ObjectId
      * option ObjectId :=
  (Rating.reviewer r, Rating.vendor r, Rating.order r, Rating.waiter r,
   Rating.job r).

(** The fields of a rating that no handler assigns after the creation. *)
Definition ratingCore (r : Rating.t)
    : ObjectId * (ObjectId * option ObjectId * option ObjectId
                  * option ObjectId * option ObjectId)
      * Q * option Q * option string :=
  (Rating._id r, ratingKey r, Rating.rating r, Rating.attitudeRating r,
   Rating.review r).

(** The three things a request can do to the ratings collection: nothing,
    append one new valid active rating with a new key, or replace one
    stored rating by a valid one with the same core. *)
Inductive ratingsStep (l l' : list Rating.t) : Prop :=
| step_same : l' = l -> ratingsStep l l'
| step_insert (doc : Rating.t) :
    l' = l ++ [doc] ->
    Rating._id doc = freshId Rating._id l ->
    RatingModel.validate doc = [] ->
    Rating.isActive doc = true ->
    (forall r, In r l -> ratingKey r <> ratingKey doc) ->
    ratingsStep l l'
| step_update (r r' : Rating.t) :
    In r l ->
    l' = replaceById Rating._id r' l ->
    ratingCore r' = ratingCore r ->
    RatingModel.validate r' = [] ->
    ratingsStep l l'.

(** Identifiers and keys are unique and every rating passes the validators
    of the schema. *)
Definition ratingsSound (l : list Rating.t) : Prop :=
  NoDup (map Rating._id l)
  /\ NoDup (map ratingKey l)
  /\ Forall (fun r => RatingModel.validate r = []) l.

(** * Further models *)

(** ** Listings of orders and jobs (vendorController.js,
       waiterController.js) *)

(** [parseInt(x, 10) || d] for a query parameter: [x] is the value of
    parseInt, [None] for NaN, and 0 is falsy.  Negative values, which the
    source hands to skip and limit as they are, are outside the model. *)
Definition orDefault (x : option nat) (d : nat) : nat :=
  match x with
  | Some (S n) => S n
  | Some O => d
  | None => d
  end.

Record Pagination : Type := mkPagination {
  next : option (nat * nat);
  prev : option (nat * nat)
}.

(** The body of the answer of a listing. *)
Record Listing (A : Type) : Type := mkListing {
  count : nat;
  total : nat;
  pagination : Pagination;
  data : list A
}.
Arguments mkListing {A} _ _ _ _.
Arguments count {A} _.
Arguments total {A} _.
Arguments pagination {A} _.
Arguments data {A} _.

(** [if (req.query.status) query.status = req.query.status]. *)
Definition statusIs (status : option string) (value : string) : bool :=
  match status with
  | Some t => if truthy status then String.eqb value t else true
  | None => true
  end.

(** [find(query).sort({ createdAt: -1 }).skip(startIndex).limit(limit)] over
    the documents that match, given in insertion order. *)
Definition newestFirst {A : Type} (startIndex limit : nat) (docs : list A)
    : list A :=
  firstn limit (skipn startIndex (rev docs)).

Module VendorOrders.

(** getVendorOrders: [page] and [limit] are parseInt of the query
    parameters, [status] is req.query.status. *)
Definition getVendorOrders (user : User.t) (page limit : option nat)
    (status : option string) : M (Listing Order.t) :=
  vendor <- Vendor_findOne
              (fun v => Nat.eqb (Vendor.user v) (User._id user)) ;;
  vendor <- orThrow vendor (ErrorResponse "Vendor profile not found" 404) ;;
  let page := orDefault page 1 in
  let limit := orDefault limit 10 in
  let startIndex := (page - 1) * limit in
  let query := fun o => Nat.eqb (Order.vendor o) (Vendor._id vendor)
                        && statusIs status (Order.status o) in
  found <- gets (fun s => newestFirst startIndex limit
                            (filter query (orders s))) ;;
  total <- gets (fun s => List.length (filter query (orders s))) ;;
  let pagination :=
    mkPagination
      (if Nat.ltb (startIndex + limit) total then Some (page + 1, limit)
       else None)
      (if Nat.ltb 0 startIndex then Some (page - 1, limit) else None) in
  ret (mkListing (List.length found) total pagination found).

(** getVendorOrder *)
Definition getVendorOrder (user : User.t) (orderId : ObjectId) : M Order.t :=
  vendor <- Vendor_findOne
              (fun v => Nat.eqb (Vendor.user v) (User._id user)) ;;
  vendor <- orThrow vendor (ErrorResponse "Vendor profile not found" 404) ;;
  order <- Order_findOne
             (fun o => Nat.eqb (Order._id o) orderId
                       && Nat.eqb (Order.vendor o) (Vendor._id vendor)) ;;
  orThrow order (ErrorResponse "Order not found" 404).

End VendorOrders.

Module WaiterJobs.

(** getWaiterJobs *)
Definition getWaiterJobs (user : User.t) (page limit : option nat)
    (status : option string) : M (Listing Job.t) :=
  waiter <- Waiter_findOne
              (fun w => Nat.eqb (Waiter.user w) (User._id user)) ;;
  waiter <- orThrow waiter (ErrorResponse "Waiter profile not found" 404) ;;
  let page := orDefault page 1 in
  let limit := orDefault limit 10 in
  let startIndex := (page - 1) * limit in
  let query := fun j => Nat.eqb (Job.waiter j) (Waiter._id waiter)
                        && statusIs status (Job.status j) in
  found <- gets (fun s => newestFirst startIndex limit
                            (filter query (jobs s))) ;;
  total <- gets (fun s => List.length (filter query (jobs s))) ;;
  let pagination :=
    mkPagination
      (if Nat.ltb (startIndex + limit) total then Some (page + 1, limit)
       else None)
      (if Nat.ltb 0 startIndex then Some (page - 1, limit) else None) in
  ret (mkListing (List.length found) total pagination found).

(** getWaiterJob *)
Definition getWaiterJob (user : User.t) (jobId : ObjectId) : M Job.t :=
  waiter <- Waiter_findOne
              (fun w => Nat.eqb (Waiter.user w) (User._id user)) ;;
  waiter <- orThrow waiter (ErrorResponse "Waiter profile not found" 404) ;;
  job <- Job_findOne
           (fun j => Nat.eqb (Job._id j) jobId
                     && Nat.eqb (Job.waiter j) (Waiter._id waiter)) ;;
  orThrow job (ErrorResponse "Job not found" 404).

End WaiterJobs.

(** The orders of a vendor (with the status asked for, if any), newest
    first. *)
Definition vendorOrders (vendor : Vendor.t) (status : option string)
    (s : Store) : list Order.t :=
  rev (filter (fun o => Nat.eqb (Order.vendor o) (Vendor._id vendor)
                        && statusIs status (Order.status o)) (orders s)).

(** The jobs of a waiter (with the status asked for, if any), newest
    first. *)
Definition waiterJobs (waiter : Waiter.t) (status : option string)
    (s : Store) : list Job.t :=
  rev (filter (fun j => Nat.eqb (Job.waiter j) (Waiter._id waiter)
                        && statusIs status (Job.status j)) (jobs s)).

(** The data of page [p] of a listing, nothing when the handler throws. *)
Definition pageOf {A : Type} (get : option nat -> M (Listing A)) (s : Store)
    (p : nat) : list A :=
  match fst (get (Some p) s) with
  | Ok l => data l
  | Throw _ => []
  end.

(** Whether page [p] of a listing announces a next page. *)
Definition hasNext {A : Type} (get : option nat -> M (Listing A)) (s : Store)
    (p : nat) : bool :=
  match fst (get (Some p) s) with
  | Ok l => RatingModel.isSome (next (pagination l))
  | Throw _ => false
  end.

(** ** The time fields of the hire forms (routes/vendors.js,
       routes/waiters.js, waiterController.js) *)

Module TimeFields.

(** The regular expressions the validators use, anchored at both ends. *)
Inductive regex : Type :=
| Empty
| Eps
| Range (lo hi : ascii)
| Chr (c : ascii)
| Seq (r1 r2 : regex)
| Alt (r1 r2 : regex)
| Opt (r : regex).

Fixpoint nullable (r : regex) : bool :=
  match r with
  | Empty => false
  | Eps => true
  | Range _ _ => false
  | Chr _ => false
  | Seq r1 r2 => nullable r1 && nullable r2
  | Alt r1 r2 => nullable r1 || nullable r2
  | Opt _ => true
  end.

Definition inRange (lo hi c : ascii) : bool :=
  Ascii.leb lo c && Ascii.leb c hi.

(** What is left of [r] to match after the character [c]. *)
Fixpoint deriv (c : ascii) (r : regex) : regex :=
  match r with
  | Empty => Empty
  | Eps => Empty
  | Range lo hi => if inRange lo hi c then Eps else Empty
  | Chr d => if Ascii.eqb c d then Eps else Empty
  | Seq r1 r2 =>
      if nullable r1 then Alt (Seq (deriv c r1) r2) (deriv c r2)
      else Seq (deriv c r1) r2
  | Alt r1 r2 => Alt (deriv c r1) (deriv c r2)
  | Opt r1 => deriv c r1
  end.

(** [/^r$/.test(s)] *)
Fixpoint matches (r : regex) (s : string) : bool :=
  match s with
  | EmptyString => nullable r
  | String c rest => matches (deriv c r) rest
  end.

(** /^([0-1]?[0-9]|2[0-3]):[0-5][0-9]$/ *)
Definition timeFormat : regex :=
  Seq (Alt (Seq (Opt (Range "0" "1")) (Range "0" "9"))
           (Seq (Chr "2") (Range "0" "3")))
      (Seq (Chr ":") (Seq (Range "0" "5") (Range "0" "9"))).

(** The custom validator of endTime: [true] when it returns, [false] when
    it throws "End time must be after start time".  [<=] on two strings
    compares them character by character. *)
Definition endTimeCustom (endTime : string) (start : option string) : bool :=
  match start with
  | Some t => negb (truthy start && String.leb endTime t)
  | None => true
  end.

(** The two validators of the endTime field together. *)
Definition endTimeValid (endTime : string) (start : option string) : bool :=
  matches timeFormat endTime && endTimeCustom endTime start.

Definition digit (c : ascii) : Z := Z.of_N (N_of_ascii c) - 48.

(** [new Date(`2000-01-01 ${t}`)] in milliseconds after the local midnight
    of that day, for [t] of the shape H:MM or HH:MM; the other shapes, which
    the validators refuse, are not modelled. *)
Definition clockTime (t : string) : option Z :=
  match t with
  | String a (String b (String c (String d EmptyString))) =>
      if Ascii.eqb b ":" then
        Some ((digit a * 60 + digit c * 10 + digit d) * 60000)%Z
      else None
  | String a (String b (String c (String d (String e EmptyString)))) =>
      if Ascii.eqb c ":" then
        Some (((digit a * 10 + digit b) * 60 + digit d * 10 + digit e)
              * 60000)%Z
      else None
  | _ => None
  end.

(** [Math.abs(endTime - startTime) / 36e5] of hireWaiter and of the
    duration virtual of the Job schema. *)
Definition totalHours (startTime endTime : string) : option Q :=
  match clockTime startTime, clockTime endTime with
  | Some a, Some b => Some (inject_Z (Z.abs (b - a)) / 3600000)%Q
  | _, _ => None
  end.

(** The shapes of the strings of the time format. *)
Inductive timeShape : string -> Prop :=
| shape_short (h m1 m2 : ascii) :
    inRange "0" "9" h = true ->
    inRange "0" "5" m1 = true -> inRange "0" "9" m2 = true ->
    timeShape (String h (String ":" (String m1 (String m2 EmptyString))))
| shape_long (h1 h2 m1 m2 : ascii) :
    (inRange "0" "1" h1 = true /\ inRange "0" "9" h2 = true)
    \/ (h1 = "2"%char /\ inRange "0" "3" h2 = true) ->
    inRange "0" "5" m1 = true -> inRange "0" "9" m2 = true ->
    timeShape
      (String h1 (String h2 (String ":" (String m1 (String m2 EmptyString))))).

End TimeFields.

(** ** The counters of the profiles against the orders and the jobs *)

(** The stores a request can leave behind. *)
Inductive storeStep (s : Store) : Store -> Prop :=
| step_none : storeStep s s
| step_rated_vendor (doc : Rating.t) (order : Order.t) :
    In order (orders s) -> storeStep s (vendorRatingStored doc order s)
| step_retracted (r : Rating.t) : storeStep s (ratingRetracted r s)
| step_saved (r : Rating.t) : storeStep s (ratingSaved r s)
| step_order (user : User.t) (orderId : ObjectId) (vendor : Vendor.t)
    (order : Order.t) (status : string) :
    vendorOf user s = Some vendor ->
    orderOf vendor orderId s = Some order ->
    orderEdge (Order.status order) status ->
    storeStep s (orderUpdated vendor order status s)
| step_job (user : User.t) (jobId : ObjectId) (waiter : Waiter.t)
    (job : Job.t) (status : string) (reason : option string) (now : Z) :
    waiterOf user s = Some waiter ->
    jobOf waiter jobId s = Some job ->
    jobEdge (Job.status job) status ->
    storeStep s (jobUpdated waiter job status reason now s).

Definition uniqueIds (s : Store) : Prop :=
  NoDup (map Vendor._id (vendors s))
  /\ NoDup (map Waiter._id (waiters s))
  /\ NoDup (map Order._id (orders s))
  /\ NoDup (map Job._id (jobs s)).

Definition countIf {A : Type} (p : A -> bool) (l : list A) : Z :=
  Z.of_nat (List.length (filter p l)).

(** The orders of the vendor [i] that are completed. *)
Definition completedOrders (i : ObjectId) (s : Store) : Z :=
  countIf (fun o => Nat.eqb (Order.vendor o) i
                    && String.eqb (Order.status o) "completed") (orders s).

(** Every vendor profile counts its completed orders. *)
Definition bookingsCounted (s : Store) : Prop :=
  Forall (fun v => Vendor.completedBookings v
                   = completedOrders (Vendor._id v) s) (vendors s).

(** The jobs of the waiter [i] whose status is one of [among]. *)
Definition jobsIn (among : list string) (i : ObjectId) (s : Store) : Z :=
  countIf (fun j => Nat.eqb (Job.waiter j) i
                    && includes among (Job.status j)) (jobs s).

(** completedJobs counts the completed jobs of the waiter; totalJobs counts
    the jobs the waiter accepted, and the completed ones once more. *)
Definition jobsCounted (s : Store) : Prop :=
  Forall (fun w =>
            Waiter.completedJobs w = jobsIn ["completed"] (Waiter._id w) s
            /\ Waiter.totalJobs w
               = (jobsIn ["accepted"; "in-progress"; "cancelled"; "completed"]
                    (Waiter._id w) s
                  + jobsIn ["completed"] (Waiter._id w) s)%Z)
         (waiters s).

(** What the counters are compared with, and the identifiers. *)
Definition vendorLedger (s : Store)
    : list (ObjectId * Z) * list (ObjectId * ObjectId * string) :=
  (map (fun v => (Vendor._id v, Vendor.completedBookings v)) (vendors s),
   map (fun o => (Order._id o, Order.vendor o, Order.status o)) (orders s)).

Definition waiterLedger (s : Store)
    : list (ObjectId * Z * Z) * list (ObjectId * ObjectId * string) :=
  (map (fun w => (Waiter._id w, Waiter.totalJobs w, Waiter.completedJobs w))
     (waiters s),
   map (fun j => (Job._id j, Job.waiter j, Job.status j)) (jobs s)).

(** [bookingsCounted] and [jobsCounted], read off the ledgers. *)
Definition bookingsLedgered
    (L : list (ObjectId * Z) * list (ObjectId * ObjectId * string)) : Prop :=
  Forall (fun v => snd v
                   = countIf (fun o => Nat.eqb (snd (fst o)) (fst v)
                                       && String.eqb (snd o) "completed")
                       (snd L)) (fst L).

Definition jobsLedgered
    (L : list (ObjectId * Z * Z) * list (ObjectId * ObjectId * string))
    : Prop :=
  Forall (fun w =>
            snd w
            = countIf (fun j => Nat.eqb (snd (fst j)) (fst (fst w))
                                && includes ["completed"] (snd j)) (snd L)
            /\ snd (fst w)
               = (countIf
                    (fun j => Nat.eqb (snd (fst j)) (fst (fst w))
                              && includes ["accepted"; "in-progress";
                                           "cancelled"; "completed"] (snd j))
                    (snd L)
                  + countIf
                      (fun j => Nat.eqb (snd (fst j)) (fst (fst w))
                                && includes ["completed"] (snd j)) (snd L))%Z)
         (fst L).

(** ** Deleting an account (controllers/adminController.js) *)

Module AdminController.

(** The users collection beside the other collections. *)
Record World : Type := mkWorld {
  users : list User.t;
  store : Store
}.

(** [Model.deleteMany(filter)]; no document middleware runs. *)
Definition deleteMany {A : Type} (p : A -> bool) (l : list A) : list A :=
  filter (fun d => negb (p d)) l.

(** [Model.findByIdAndDelete(id)] *)
Fixpoint findByIdAndDelete {A : Type} (id_of : A -> ObjectId) (i : ObjectId)
    (l : list A) : list A :=
  match l with
  | [] => []
  | d :: rest =>
      if Nat.eqb (id_of d) i then rest
      else d :: findByIdAndDelete id_of i rest
  end.

(** The related documents deleteUser removes for a vendor account. *)
Definition deleteVendorData (user : User.t) (s : Store) : Store :=
  match find (fun v => Nat.eqb (Vendor.user v) (User._id user)) (vendors s)
  with
  | Some vendor =>
      let s :=
        set_orders
          (deleteMany
             (fun o => Nat.eqb (Order.vendor o) (Vendor._id vendor))
             (orders s)) s in
      let s :=
        set_jobs
          (deleteMany (fun j => Nat.eqb (Job.vendor j) (Vendor._id vendor))
             (jobs s)) s in
      let s :=
        set_ratings
          (deleteMany (fun r => refIs (Rating.vendor r) (Vendor._id vendor))
             (ratings s)) s in
      set_vendors
        (findByIdAndDelete Vendor._id (Vendor._id vendor) (vendors s)) s
  | None => s
  end.

(** The related documents deleteUser removes for a waiter account. *)
Definition deleteWaiterData (user : User.t) (s : Store) : Store :=
  match find (fun w => Nat.eqb (Waiter.user w) (User._id user)) (waiters s)
  with
  | Some waiter =>
      let s :=
        set_jobs
          (deleteMany (fun j => Nat.eqb (Job.waiter j) (Waiter._id waiter))
             (jobs s)) s in
      let s :=
        set_ratings
          (deleteMany (fun r => refIs (Rating.waiter r) (Waiter._id waiter))
             (ratings s)) s in
      set_waiters
        (findByIdAndDelete Waiter._id (Waiter._id waiter) (waiters s)) s
  | None => s
  end.

(** The related documents deleteUser removes for a customer account. *)
Definition deleteCustomerData (user : User.t) (s : Store) : Store :=
  let s :=
    set_orders
      (deleteMany (fun o => Nat.eqb (Order.user o) (User._id user))
         (orders s)) s in
  set_ratings
    (deleteMany (fun r => Nat.eqb (Rating.reviewer r) (User._id user))
       (ratings s)) s.

(** deleteUser: [id] is req.params.id. *)
Definition deleteUser (id : ObjectId) (w : World) : Outcome unit * World :=
  match find (fun u => Nat.eqb (User._id u) id) (users w) with
  | None => (Throw (ErrorResponse "User not found" 404), w)
  | Some user =>
      if String.eqb (User.role user) "admin" then
        (Throw (ErrorResponse "Cannot delete admin users" 403), w)
      else
        let s :=
          if String.eqb (User.role user) "vendor" then
            deleteVendorData user (store w)
          else if String.eqb (User.role user) "waiter" then
            deleteWaiterData user (store w)
          else if String.eqb (User.role user) "user" then
            deleteCustomerData user (store w)
          else store w in
        (Ok tt,
         mkWorld (findByIdAndDelete User._id (User._id user) (users w)) s)
  end.

End AdminController.

(** A customer account with a rating of vera, and vera's profile carrying
    it. *)
Definition ratedWorld : AdminController.World :=
  AdminController.mkWorld [alice; vera; walt; root] rated.

(** A rating of walt for the completed job, written in the name of vera,
    is stored. *)
Definition vendorRatedWaiter : AdminController.World :=
  AdminController.mkWorld [alice; vera; walt; root]
    (mkStore [veraVendor] [Waiter.set_rating 4 5 1 waltWaiter]
       [completedOrder] [Job.set_isRated true completedJob]
       [Rating.mk 1 2 None (Some 20) None (Some 200) 4 (Some 5%Q) None true
          None false None]).

(** ** The public listing of the ratings of a vendor
       (controllers/ratingController.js) *)

Module RatingListing.

(** The $group stage on the score with its count: a document joins the
    group of its score or opens one, the groups kept by decreasing score
    as the $sort stage leaves them. *)
Fixpoint tally (x : Q) (groups : list (Q * nat)) : list (Q * nat) :=
  match groups with
  | [] => [(x, 1)]
  | (y, n) :: rest =>
      if Qeq_bool x y then (y, S n) :: rest
      else if Qle_bool y x then (x, 1) :: (y, n) :: rest
      else (y, n) :: tally x rest
  end.

Definition breakdown (docs : list Rating.t) : list (Q * nat) :=
  fold_left (fun groups r => tally (Rating.rating r) groups) docs [].

(** The part of the answer that does not depend on the page: [total],
    [data.ratingBreakdown], [data.averageRating] and [data.totalRatings].
    The page of ratings itself ([count], [pagination], [data.ratings]) is
    not modelled. *)
Record VendorRatings : Type := mkVendorRatings {
  total : nat;
  ratingBreakdown : list (Q * nat);
  averageRating : Q;
  totalRatings : Z
}.

(** getVendorRatings: [vendorId] is req.params.vendorId; [rating] is
    [None] when req.query.rating is missing or empty and otherwise the
    value of parseInt on it, [Some None] standing for NaN, which the query
    cannot cast to the Number of the rating path. *)
Definition getVendorRatings (vendorId : ObjectId)
    (rating : option (option Z)) : M VendorRatings :=
  vendor <- Vendor_findById vendorId ;;
  vendor <- orThrow vendor (ErrorResponse "Vendor not found" 404) ;;
  when (match rating with Some None => true | _ => false end)
    (throw (CastError "rating")) ;;;
  let query := fun r =>
    refIs (Rating.vendor r) vendorId && Rating.isActive r
    && match rating with
       | None => true
       | Some None => false
       | Some (Some n) => Qeq_bool (Rating.rating r) (inject_Z n)
       end in
  total <- gets (fun s => List.length (filter query (ratings s))) ;;
  ratingBreakdown <-
    gets (fun s =>
            breakdown
              (filter (fun r => refIs (Rating.vendor r) (Vendor._id vendor)
                                && Rating.isActive r) (ratings s))) ;;
  ret (mkVendorRatings total ratingBreakdown (Vendor.averageRating vendor)
         (Vendor.totalRatings vendor)).

End RatingListing.

(** ** Updating the vendor profile (controllers/vendorController.js) *)

Module VendorProfile.

(** req.body, for the paths of the Vendor schema the model carries and
    for priceRange with both bounds given as numbers; the other paths of
    the schema are not modelled. *)
Record Body : Type := mkBody {
  priceRange : option (Q * Q);
  averageRating : option Q;
  totalRatings : option Z;
  totalBookings : option Z;
  completedBookings : option Z
}.

(** Truthiness of a number. *)
Definition nonZero (q : Q) : bool := negb (Qeq_bool q 0).

(** [min && max && min > max] *)
Definition inverted (range : Q * Q) : bool :=
  nonZero (fst range) && nonZero (snd range)
  && negb (Qle_bool (fst range) (snd range)).

(** The update validators of the paths that are set: min 0 and max 5 on
    averageRating. *)
Definition validate (body : Body) : list string :=
  match averageRating body with
  | Some a =>
      (if Qle_bool 0 a then [] else ["Rating cannot be negative"])
      ++ (if Qle_bool a 5 then []
          else ["Rating must can not be more than 5"])
  | None => []
  end.

Definition orKeep {A : Type} (x : option A) (old : A) : A :=
  match x with
  | Some a => a
  | None => old
  end.

(** The document after the paths of the body are set. *)
Definition apply (body : Body) (v : Vendor.t) : Vendor.t :=
  Vendor.mk (Vendor._id v) (Vendor.user v)
    (orKeep (averageRating body) (Vendor.averageRating v))
    (orKeep (totalRatings body) (Vendor.totalRatings v))
    (orKeep (totalBookings body) (Vendor.totalBookings v))
    (orKeep (completedBookings body) (Vendor.completedBookings v)).

(** [Vendor.findByIdAndUpdate(id, body, { new: true, runValidators: true })] *)
Definition findByIdAndUpdate (id : ObjectId) (body : Body)
    : M (option Vendor.t) :=
  match validate body with
  | m :: ms => throw (ValidationError (m :: ms))
  | [] =>
      found <- Vendor_findById id ;;
      match found with
      | Some v => Vendor_save (apply body v) ;;; ret (Some (apply body v))
      | None => ret None
      end
  end.

(** updateVendorProfile: [user] is req.user, [body] is req.body. *)
Definition updateVendorProfile (user : User.t) (body : Body)
    : M (option Vendor.t) :=
  vendor <- Vendor_findOne
              (fun v => Nat.eqb (Vendor.user v) (User._id user)) ;;
  vendor <- orThrow vendor (ErrorResponse "Vendor profile not found" 404) ;;
  if match priceRange body with
     | Some range => inverted range
     | None => false
     end
  then
    throw (ErrorResponse "Minimum price cannot be greater than maximum price"
             400)
  else findByIdAndUpdate (Vendor._id vendor) body.

End VendorProfile.

(** * Proofs *)

(** ** Helpers *)

Lemma includes_In (l : list string) (x : string) :
  includes l x = true <-> In x l.
Proof.
  unfold includes. rewrite existsb_exists. split.
  - intros [y [Hin Heq]]. apply String.eqb_eq in Heq. now subst.
  - intros Hin. exists x. split; [assumption | apply String.eqb_refl].
Qed.

Lemma includes_not_In (l : list string) (x : string) :
  includes l x = false <-> ~ In x l.
Proof.
  rewrite <- includes_In. destruct (includes l x); split; congruence.
Qed.

(** The identifier of a created document is used by no stored one. *)
Lemma freshId_fresh {A : Type} (id_of : A -> ObjectId) (l : list A) (d : A) :
  In d l -> id_of d <> freshId id_of l.
Proof.
  intros Hin E. unfold freshId in E.
  pose proof (proj1 (list_max_le (map id_of l) (list_max (map id_of l)))
                (le_n _)) as F.
  rewrite Forall_forall in F.
  specialize (F (id_of d) (in_map id_of l d Hin)). lia.
Qed.

Ltac string_cases a :=
  repeat match goal with
  | |- context [String.eqb a ?k] =>
      destruct (String.eqb_spec a k); [subst a | ]
  | H : context [String.eqb a ?k] |- _ =>
      destruct (String.eqb_spec a k); [subst a | ]
  end.

Lemma orderEdge_table (a b : string) :
  orderEdge a b <->
  exists l, lookup a VendorController.validTransitions = Some l /\ In b l.
Proof.
  split.
  - intros H; destruct H; eexists; (split; [reflexivity | simpl; tauto]).
  - intros [l [Hl Hin]]. unfold VendorController.validTransitions in Hl.
    cbn [lookup] in Hl. string_cases a; try discriminate;
      injection Hl as <-; simpl in Hin;
      repeat (destruct Hin as [<- | Hin]; [constructor | ]); contradiction.
Qed.

Lemma jobEdge_table (a b : string) :
  jobEdge a b <->
  exists l, lookup a WaiterController.validTransitions = Some l /\ In b l.
Proof.
  split.
  - intros H; destruct H; eexists; (split; [reflexivity | simpl; tauto]).
  - intros [l [Hl Hin]]. unfold WaiterController.validTransitions in Hl.
    cbn [lookup] in Hl. string_cases a; try discriminate;
      injection Hl as <-; simpl in Hin;
      repeat (destruct Hin as [<- | Hin]; [constructor | ]); contradiction.
Qed.

Lemma lookup_enum_order (a : string) :
  In a Order.statusEnum <->
  exists l, lookup a VendorController.validTransitions = Some l.
Proof.
  split.
  - intros H; simpl in H.
    repeat (destruct H as [<- | H]; [eexists; reflexivity | ]); contradiction.
  - intros [l Hl]. unfold VendorController.validTransitions in Hl.
    cbn [lookup] in Hl. string_cases a; try discriminate; simpl; tauto.
Qed.

Lemma lookup_enum_job (a : string) :
  In a Job.statusEnum <->
  exists l, lookup a WaiterController.validTransitions = Some l.
Proof.
  split.
  - intros H; simpl in H.
    repeat (destruct H as [<- | H]; [eexists; reflexivity | ]); contradiction.
  - intros [l Hl]. unfold WaiterController.validTransitions in Hl.
    cbn [lookup] in Hl. string_cases a; try discriminate; simpl; tauto.
Qed.

Lemma updateOrderStatus_found user orderId status s vendor order allowed :
  vendorOf user s = Some vendor ->
  orderOf vendor orderId s = Some order ->
  lookup (Order.status order) VendorController.validTransitions
    = Some allowed ->
  VendorController.updateOrderStatus user orderId status s =
  if includes allowed status then
    (Ok (Order.set_status status order), orderUpdated vendor order status s)
  else (Throw (InvalidTransition (Order.status order) status), s).
Proof.
  unfold vendorOf, orderOf. intros Hv Ho Hl.
  unfold VendorController.updateOrderStatus, bind, Vendor_findOne,
    Order_findOne, gets. rewrite Hv. cbn [orThrow ret]. rewrite Ho.
  cbn [orThrow ret]. rewrite Hl. cbn [orThrow ret].
  destruct (includes allowed status); cbn [negb]; [ | reflexivity].
  unfold orderUpdated, when.
  destruct (String.eqb status "completed"); reflexivity.
Qed.

Lemma updateOrderStatus_Ok user orderId status s o s' :
  VendorController.updateOrderStatus user orderId status s = (Ok o, s') ->
  exists vendor order allowed,
    vendorOf user s = Some vendor /\
    orderOf vendor orderId s = Some order /\
    lookup (Order.status order) VendorController.validTransitions
      = Some allowed /\
    includes allowed status = true /\
    o = Order.set_status status order /\
    s' = orderUpdated vendor order status s.
Proof.
  intros H.
  destruct (vendorOf user s) as [vendor | ] eqn:Hv.
  2:{ unfold VendorController.updateOrderStatus, bind, Vendor_findOne, gets
        in H. unfold vendorOf in Hv. rewrite Hv in H. discriminate. }
  destruct (orderOf vendor orderId s) as [order | ] eqn:Ho.
  2:{ unfold VendorController.updateOrderStatus, bind, Vendor_findOne,
        Order_findOne, gets in H. unfold vendorOf in Hv. unfold orderOf in Ho.
      rewrite Hv in H. cbn [orThrow ret] in H. rewrite Ho in H.
      discriminate. }
  destruct (lookup (Order.status order) VendorController.validTransitions)
    as [allowed | ] eqn:Hl.
  2:{ unfold VendorController.updateOrderStatus, bind, Vendor_findOne,
        Order_findOne, gets in H. unfold vendorOf in Hv. unfold orderOf in Ho.
      rewrite Hv in H. cbn [orThrow ret] in H. rewrite Ho in H.
      cbn [orThrow ret] in H. rewrite Hl in H. discriminate. }
  rewrite (updateOrderStatus_found _ _ _ _ _ _ _ Hv Ho Hl) in H.
  exists vendor, order, allowed.
  destruct (includes allowed status); [ | discriminate].
  injection H as <- <-. repeat split; assumption || reflexivity.
Qed.

Lemma updateJobStatus_found user jobId status declineReason now s waiter job
    allowed :
  waiterOf user s = Some waiter ->
  jobOf waiter jobId s = Some job ->
  lookup (Job.status job) WaiterController.validTransitions = Some allowed ->
  WaiterController.updateJobStatus user jobId status declineReason now s =
  if includes allowed status then
    (Ok (jobAfter job status declineReason now),
     jobUpdated waiter job status declineReason now s)
  else (Throw (InvalidTransition (Job.status job) status), s).
Proof.
  unfold waiterOf, jobOf. intros Hw Hj Hl.
  unfold WaiterController.updateJobStatus, bind, Waiter_findOne,
    Job_findOne, gets. rewrite Hw. cbn [orThrow ret]. rewrite Hj.
  cbn [orThrow ret]. rewrite Hl. cbn [orThrow ret].
  destruct (includes allowed status); cbn [negb]; [ | reflexivity].
  unfold jobUpdated, jobAfter, waiterAfter.
  destruct (String.eqb status "completed") eqn:Hc.
  - apply String.eqb_eq in Hc. subst status. reflexivity.
  - destruct (String.eqb status "accepted") eqn:Ha.
    + apply String.eqb_eq in Ha. subst status. reflexivity.
    + cbn [orb]. destruct
        (String.eqb status "declined" && truthy declineReason);
        destruct (String.eqb status "declined"); reflexivity.
Qed.

Lemma updateJobStatus_Ok user jobId status declineReason now s j s' :
  WaiterController.updateJobStatus user jobId status declineReason now s
    = (Ok j, s') ->
  exists waiter job allowed,
    waiterOf user s = Some waiter /\
    jobOf waiter jobId s = Some job /\
    lookup (Job.status job) WaiterController.validTransitions = Some allowed /\
    includes allowed status = true /\
    j = jobAfter job status declineReason now /\
    s' = jobUpdated waiter job status declineReason now s.
Proof.
  intros H.
  destruct (waiterOf user s) as [waiter | ] eqn:Hw.
  2:{ unfold WaiterController.updateJobStatus, bind, Waiter_findOne, gets
        in H. unfold waiterOf in Hw. rewrite Hw in H. discriminate. }
  destruct (jobOf waiter jobId s) as [job | ] eqn:Hj.
  2:{ unfold WaiterController.updateJobStatus, bind, Waiter_findOne,
        Job_findOne, gets in H. unfold waiterOf in Hw. unfold jobOf in Hj.
      rewrite Hw in H. cbn [orThrow ret] in H. rewrite Hj in H.
      discriminate. }
  destruct (lookup (Job.status job) WaiterController.validTransitions)
    as [allowed | ] eqn:Hl.
  2:{ unfold WaiterController.updateJobStatus, bind, Waiter_findOne,
        Job_findOne, gets in H. unfold waiterOf in Hw. unfold jobOf in Hj.
      rewrite Hw in H. cbn [orThrow ret] in H. rewrite Hj in H.
      cbn [orThrow ret] in H. rewrite Hl in H. discriminate. }
  rewrite (updateJobStatus_found _ _ _ _ _ _ _ _ _ Hw Hj Hl) in H.
  exists waiter, job, allowed.
  destruct (includes allowed status); [ | discriminate].
  injection H as <- <-. repeat split; assumption || reflexivity.
Qed.

(** ** C1: the transition tables *)

(** C1. For every stored order (its vendor profile found, its status in the
    schema enum) and every requested status, updateOrderStatus succeeds
    exactly when the request is an edge of the fixed table
    (pending -> confirmed | cancelled, confirmed -> in-progress | cancelled,
    in-progress -> completed | cancelled, nothing out of completed,
    cancelled, refunded), and otherwise throws the 400 "Cannot change
    status" error and leaves the store alone; the same holds for
    updateJobStatus with the Job table; whenever either handler succeeds the
    move was an edge, and no edge leads to refunded. *)
Theorem C1_status_transitions :
  (forall user orderId status s vendor order,
     vendorOf user s = Some vendor ->
     orderOf vendor orderId s = Some order ->
     In (Order.status order) Order.statusEnum ->
     (orderEdge (Order.status order) status /\
      exists s', VendorController.updateOrderStatus user orderId status s
                 = (Ok (Order.set_status status order), s'))
     \/ (~ orderEdge (Order.status order) status /\
         VendorController.updateOrderStatus user orderId status s
         = (Throw (InvalidTransition (Order.status order) status), s)))
  /\ (forall user orderId status s o s',
        VendorController.updateOrderStatus user orderId status s = (Ok o, s') ->
        Order.status o = status /\ status <> "refunded" /\
        exists vendor order,
          vendorOf user s = Some vendor /\
          orderOf vendor orderId s = Some order /\
          orderEdge (Order.status order) status)
  /\ (forall user jobId status reason now s waiter job,
        waiterOf user s = Some waiter ->
        jobOf waiter jobId s = Some job ->
        In (Job.status job) Job.statusEnum ->
        (jobEdge (Job.status job) status /\
         exists j s', WaiterController.updateJobStatus user jobId status
                        reason now s = (Ok j, s') /\ Job.status j = status)
        \/ (~ jobEdge (Job.status job) status /\
            WaiterController.updateJobStatus user jobId status reason now s
            = (Throw (InvalidTransition (Job.status job) status), s)))
  /\ (forall user jobId status reason now s j s',
        WaiterController.updateJobStatus user jobId status reason now s
          = (Ok j, s') ->
        Job.status j = status /\ status <> "refunded" /\
        exists waiter job,
          waiterOf user s = Some waiter /\
          jobOf waiter jobId s = Some job /\
          jobEdge (Job.status job) status)
  /\ (forall a, ~ orderEdge a "refunded")
  /\ (forall a, ~ jobEdge a "refunded").
Proof.
  assert (Hno : forall a, ~ orderEdge a "refunded")
    by (intros a H; inversion H).
  assert (Hnj : forall a, ~ jobEdge a "refunded")
    by (intros a H; inversion H).
  repeat split; try assumption.
  - intros user orderId status s vendor order Hv Ho Henum.
    apply lookup_enum_order in Henum. destruct Henum as [allowed Hl].
    rewrite (updateOrderStatus_found _ _ _ _ _ _ _ Hv Ho Hl).
    destruct (includes allowed status) eqn:Hi.
    + left. split.
      * apply orderEdge_table. exists allowed. split; [assumption | ].
        now apply includes_In.
      * eexists. reflexivity.
    + right. split; [ | reflexivity].
      intros He. apply orderEdge_table in He. destruct He as [l [Hl' Hin]].
      rewrite Hl in Hl'. injection Hl' as <-.
      apply includes_not_In in Hi. contradiction.
  - apply updateOrderStatus_Ok in H.
    destruct H as (vendor & order & allowed & _ & _ & _ & _ & -> & _).
    reflexivity.
  - apply updateOrderStatus_Ok in H.
    destruct H as (vendor & order & allowed & _ & _ & Hl & Hi & _ & _).
    intros ->. apply (Hno (Order.status order)). apply orderEdge_table.
    exists allowed. split; [assumption | now apply includes_In].
  - apply updateOrderStatus_Ok in H.
    destruct H as (vendor & order & allowed & Hv & Ho & Hl & Hi & _ & _).
    exists vendor, order. repeat split; try assumption.
    apply orderEdge_table. exists allowed.
    split; [assumption | now apply includes_In].
  - intros user jobId status reason now s waiter job Hw Hj Henum.
    apply lookup_enum_job in Henum. destruct Henum as [allowed Hl].
    rewrite (updateJobStatus_found _ _ _ _ _ _ _ _ _ Hw Hj Hl).
    destruct (includes allowed status) eqn:Hi.
    + left. split.
      * apply jobEdge_table. exists allowed. split; [assumption | ].
        now apply includes_In.
      * do 2 eexists. split; [reflexivity | ].
        unfold jobAfter.
        destruct (String.eqb status "accepted" || String.eqb status "declined");
          destruct (String.eqb status "declined" && truthy reason);
          destruct (String.eqb status "completed"); reflexivity.
    + right. split; [ | reflexivity].
      intros He. apply jobEdge_table in He. destruct He as [l [Hl' Hin]].
      rewrite Hl in Hl'. injection Hl' as <-.
      apply includes_not_In in Hi. contradiction.
  - apply updateJobStatus_Ok in H.
    destruct H as (waiter & job & allowed & _ & _ & _ & _ & -> & _).
    unfold jobAfter.
    destruct (String.eqb status "accepted" || String.eqb status "declined");
      destruct (String.eqb status "declined" && truthy reason);
      destruct (String.eqb status "completed"); reflexivity.
  - apply updateJobStatus_Ok in H.
    destruct H as (waiter & job & allowed & _ & _ & Hl & Hi & _ & _).
    intros ->. apply (Hnj (Job.status job)). apply jobEdge_table.
    exists allowed. split; [assumption | now apply includes_In].
  - apply updateJobStatus_Ok in H.
    destruct H as (waiter & job & allowed & Hw & Hj & Hl & Hi & _ & _).
    exists waiter, job. repeat split; try assumption.
    apply jobEdge_table. exists allowed.
    split; [assumption | now apply includes_In].
Qed.

Lemma C1_status_transitions_witness :
  (exists s', VendorController.updateOrderStatus vera 100 "confirmed" demo
              = (Ok (Order.set_status "confirmed" aliceOrder), s'))
  /\ VendorController.updateOrderStatus vera 100 "completed" demo
     = (Throw (InvalidTransition "pending" "completed"), demo)
  /\ (exists j s', WaiterController.updateJobStatus walt 200 "accepted" None
                     1700000000000 demo = (Ok j, s')
                   /\ Job.status j = "accepted").
Proof.
  destruct C1_status_transitions as (HO & _ & HJ & _).
  split; [ | split].
  - destruct (HO vera 100 "confirmed" demo veraVendor aliceOrder
                eq_refl eq_refl) as [[_ H] | [Hn _]].
    + simpl; tauto.
    + exact H.
    + exfalso. apply Hn. constructor.
  - destruct (HO vera 100 "completed" demo veraVendor aliceOrder
                eq_refl eq_refl) as [[He _] | [_ H]].
    + simpl; tauto.
    + exfalso. inversion He.
    + exact H.
  - destruct (HJ walt 200 "accepted" None 1700000000000%Z demo waltWaiter
                waltJob eq_refl eq_refl) as [[_ H] | [Hn _]].
    + simpl; tauto.
    + exact H.
    + exfalso. apply Hn. constructor.
Defined.

(** ** C5: completedBookings *)

Lemma find_replaceById {A : Type} (id_of : A -> ObjectId) (p : A -> bool)
    (d d' : A) (l : list A) :
  find p l = Some d ->
  id_of d' = id_of d ->
  p d' = true ->
  find p (replaceById id_of d' l) = Some d'.
Proof.
  intros Hf Hid Hp. induction l as [ | x l IH]; [discriminate | ].
  cbn [replaceById map find] in *.
  destruct (Nat.eqb_spec (id_of x) (id_of d')) as [E | E].
  - now rewrite Hp.
  - destruct (p x) eqn:Hx.
    + injection Hf as <-. congruence.
    + apply IH, Hf.
Qed.

Lemma find_pred {A : Type} (p : A -> bool) (d : A) (l : list A) :
  find p l = Some d -> p d = true.
Proof. intros H. now apply find_some in H. Qed.

(** One request keeps the vendor and the order found, and the difference
    between the counter and the completed flag of the order. *)
Lemma updateOrderStatus_step user orderId status s vendor order :
  vendorOf user s = Some vendor ->
  orderOf vendor orderId s = Some order ->
  exists vendor' order',
    let s' := snd (VendorController.updateOrderStatus user orderId status s) in
    vendorOf user s' = Some vendor' /\
    orderOf vendor' orderId s' = Some order' /\
    (Vendor.completedBookings vendor' - isCompleted (Order.status order')
     = Vendor.completedBookings vendor - isCompleted (Order.status order))%Z /\
    (isCompleted (Order.status order) <= isCompleted (Order.status order'))%Z.
Proof.
  intros Hv Ho.
  destruct (lookup (Order.status order) VendorController.validTransitions)
    as [allowed | ] eqn:Hl.
  2:{ exists vendor, order. cbn zeta.
      unfold VendorController.updateOrderStatus, bind, Vendor_findOne,
        Order_findOne, gets. unfold vendorOf in Hv. rewrite Hv.
      cbn [orThrow ret]. unfold orderOf in Ho. rewrite Ho.
      cbn [orThrow ret]. rewrite Hl. cbn [orThrow throw snd].
      repeat split; try assumption; lia. }
  cbn zeta. rewrite (updateOrderStatus_found _ _ _ _ _ _ _ Hv Ho Hl).
  destruct (includes allowed status) eqn:Hi; cbn [snd].
  2:{ exists vendor, order. repeat split; try assumption; lia. }
  assert (Hnc : String.eqb (Order.status order) "completed" = false).
  { destruct (String.eqb_spec (Order.status order) "completed") as [E | E];
      [ | reflexivity].
    rewrite E in Hl. injection Hl as <-. discriminate. }
  pose proof (find_pred _ _ _ Hv) as Pv.
  pose proof (find_pred _ _ _ Ho) as Po.
  unfold orderUpdated. destruct (String.eqb status "completed") eqn:Hc.
  - exists (Vendor.set_completedBookings
              (Vendor.completedBookings vendor + 1) vendor),
           (Order.set_status status order).
    split; [ | split; [ | split]].
    + unfold vendorOf. cbn [vendors set_orders set_vendors].
      apply find_replaceById with (d := vendor); auto.
    + unfold orderOf. cbn [orders set_orders set_vendors Vendor._id
        Vendor.set_completedBookings].
      apply find_replaceById with (d := order); auto.
    + unfold isCompleted. cbn [Order.status Order.set_status
        Vendor.completedBookings Vendor.set_completedBookings].
      rewrite Hc, Hnc. lia.
    + unfold isCompleted. cbn [Order.status Order.set_status].
      rewrite Hc, Hnc. lia.
  - exists vendor, (Order.set_status status order).
    split; [ | split; [ | split]].
    + exact Hv.
    + unfold orderOf. cbn [orders set_orders].
      apply find_replaceById with (d := order); auto.
    + unfold isCompleted. cbn [Order.status Order.set_status].
      rewrite Hc, Hnc. lia.
    + unfold isCompleted. cbn [Order.status Order.set_status].
      rewrite Hc, Hnc. lia.
Qed.

Lemma driveOrder_counter user orderId requests : forall s vendor order,
  vendorOf user s = Some vendor ->
  orderOf vendor orderId s = Some order ->
  exists vendor' order',
    vendorOf user (driveOrder user orderId requests s) = Some vendor' /\
    orderOf vendor' orderId (driveOrder user orderId requests s)
      = Some order' /\
    (Vendor.completedBookings vendor' - isCompleted (Order.status order')
     = Vendor.completedBookings vendor - isCompleted (Order.status order))%Z /\
    (isCompleted (Order.status order) <= isCompleted (Order.status order'))%Z.
Proof.
  induction requests as [ | status rest IH]; intros s vendor order Hv Ho.
  - exists vendor, order. cbn [driveOrder]. repeat split; try assumption; lia.
  - cbn [driveOrder].
    destruct (updateOrderStatus_step user orderId status s vendor order Hv Ho)
      as (v1 & o1 & Hv1 & Ho1 & Hc1 & Hm1).
    cbn zeta in Hv1, Ho1.
    destruct (IH _ v1 o1 Hv1 Ho1) as (v2 & o2 & Hv2 & Ho2 & Hc2 & Hm2).
    exists v2, o2. repeat split; try assumption; lia.
Qed.

(** C5. For an order found for the acting vendor whose completedBookings
    holds a safe integer (below 2^53 in magnitude, where the Numbers count
    one by one): the request for completed on the order in progress
    succeeds, answers the order completed and stores it so, and stores the
    vendor profile with completedBookings one higher; a request for
    completed succeeds from no other status; a successful transition into
    any other status leaves the vendor profiles alone; over any sequence of
    status requests for the order the counter grows by one when the order
    ends completed without having started so, and by nothing otherwise,
    hence by at most one; and once the order is completed every further
    request throws the 400 "Cannot change status" error. *)
Theorem C5_completedBookings_once :
  forall user orderId s vendor order,
    vendorOf user s = Some vendor ->
    orderOf vendor orderId s = Some order ->
    safeInteger (Vendor.completedBookings vendor) ->
    (Order.status order = "in-progress" ->
     let r := VendorController.updateOrderStatus user orderId "completed" s in
     fst r = Ok (Order.set_status "completed" order)
     /\ vendorOf user (snd r)
        = Some (Vendor.set_completedBookings
                  (Vendor.completedBookings vendor + 1) vendor)
     /\ orderOf vendor orderId (snd r)
        = Some (Order.set_status "completed" order)
     /\ (- 2 ^ 53 < Vendor.completedBookings vendor + 1 <= 2 ^ 53)%Z)
    /\ (forall o s',
          VendorController.updateOrderStatus user orderId "completed" s
            = (Ok o, s') ->
          Order.status order = "in-progress"
          /\ vendorOf user s'
             = Some (Vendor.set_completedBookings
                       (Vendor.completedBookings vendor + 1) vendor))
    /\ (forall status o s',
          status <> "completed" ->
          VendorController.updateOrderStatus user orderId status s
            = (Ok o, s') ->
          vendors s' = vendors s)
    /\ (forall requests,
          exists vendor' order',
            vendorOf user (driveOrder user orderId requests s) = Some vendor'
            /\ orderOf vendor' orderId (driveOrder user orderId requests s)
               = Some order'
            /\ (Vendor.completedBookings vendor'
                = Vendor.completedBookings vendor
                  + (isCompleted (Order.status order')
                     - isCompleted (Order.status order)))%Z
            /\ (Vendor.completedBookings vendor
                <= Vendor.completedBookings vendor'
                <= Vendor.completedBookings vendor + 1)%Z)
    /\ (Order.status order = "completed" ->
        forall status,
          VendorController.updateOrderStatus user orderId status s
          = (Throw (InvalidTransition "completed" status), s)).
Proof.
  intros user orderId s vendor order Hv Ho Hsafe.
  pose proof (find_pred _ _ _ Hv) as Pv.
  pose proof (find_pred _ _ _ Ho) as Po.
  split; [ | split; [ | split; [ | split]]].
  - intros Hs. cbn zeta.
    rewrite (updateOrderStatus_found _ _ _ _ _ _ ["completed"; "cancelled"]
               Hv Ho) by now rewrite Hs.
    cbn [includes existsb String.eqb Ascii.eqb Bool.eqb orb fst snd].
    unfold orderUpdated. cbn [String.eqb Ascii.eqb Bool.eqb].
    split; [reflexivity | split; [ | split]].
    + unfold vendorOf. cbn [vendors set_orders set_vendors].
      apply find_replaceById with (d := vendor); auto.
    + unfold orderOf. cbn [orders set_orders set_vendors].
      apply find_replaceById with (d := order); auto.
    + unfold safeInteger in Hsafe. lia.
  - intros o s' H. apply updateOrderStatus_Ok in H.
    destruct H as (v & o0 & allowed & Hv' & Ho' & Hl & Hi & _ & ->).
    rewrite Hv in Hv'. injection Hv' as <-.
    rewrite Ho in Ho'. injection Ho' as <-. split.
    + assert (He : orderEdge (Order.status order) "completed").
      { apply orderEdge_table. exists allowed. split; [exact Hl | ].
        unfold includes in Hi. apply existsb_exists in Hi.
        destruct Hi as (x & Hin & Hx). apply String.eqb_eq in Hx.
        now subst x. }
      now inversion He.
    + unfold orderUpdated. cbn [String.eqb Ascii.eqb Bool.eqb].
      unfold vendorOf. cbn [vendors set_orders set_vendors].
      apply find_replaceById with (d := vendor); auto.
  - intros status o s' Hne H. apply updateOrderStatus_Ok in H.
    destruct H as (v & o0 & allowed & _ & _ & _ & _ & _ & ->).
    unfold orderUpdated.
    destruct (String.eqb_spec status "completed"); [contradiction | ].
    reflexivity.
  - intros requests.
    destruct (driveOrder_counter user orderId requests s vendor order Hv Ho)
      as (v' & o' & Hv' & Ho' & Hc & Hm).
    exists v', o'. repeat split; try assumption; try lia;
      unfold isCompleted in *;
      destruct (String.eqb (Order.status o') "completed");
      destruct (String.eqb (Order.status order) "completed"); lia.
  - intros Hs status.
    rewrite (updateOrderStatus_found _ _ _ _ _ _ [] Hv Ho).
    + cbn [includes existsb]. now rewrite Hs.
    + now rewrite Hs.
Qed.

Lemma C5_completedBookings_once_witness :
  (fst (VendorController.updateOrderStatus vera 100 "completed" cooking)
   = Ok completedOrder
   /\ vendorOf vera
        (snd (VendorController.updateOrderStatus vera 100 "completed"
                cooking))
      = Some (Vendor.set_completedBookings 1 veraVendor)
   /\ orderOf veraVendor 100
        (snd (VendorController.updateOrderStatus vera 100 "completed"
                cooking))
      = Some completedOrder
   /\ (- 2 ^ 53 < 0 + 1 <= 2 ^ 53)%Z)
  /\ exists vendor' order',
       vendorOf vera
         (driveOrder vera 100
            ["confirmed"; "in-progress"; "completed"; "completed";
             "cancelled"] demo) = Some vendor'
       /\ orderOf vendor' 100
            (driveOrder vera 100
               ["confirmed"; "in-progress"; "completed"; "completed";
                "cancelled"] demo) = Some order'
       /\ (Vendor.completedBookings vendor'
           = Vendor.completedBookings veraVendor
             + (isCompleted (Order.status order')
                - isCompleted (Order.status aliceOrder)))%Z
       /\ (Vendor.completedBookings veraVendor
           <= Vendor.completedBookings vendor'
           <= Vendor.completedBookings veraVendor + 1)%Z.
Proof.
  assert (Hsafe : safeInteger (Vendor.completedBookings veraVendor))
    by (unfold safeInteger; cbn; lia).
  split.
  - exact (proj1 (C5_completedBookings_once vera 100 cooking veraVendor
                    inProgressOrder eq_refl eq_refl Hsafe) eq_refl).
  - exact (proj1 (proj2 (proj2 (proj2
             (C5_completedBookings_once vera 100 demo veraVendor aliceOrder
                eq_refl eq_refl Hsafe))))
             ["confirmed"; "in-progress"; "completed"; "completed";
              "cancelled"]).
Defined.

(** C5, counterexample.  vera stores 2^53 in completedBookings through
    updateVendorProfile; on the double of that value the counter line of
    updateOrderStatus adds nothing for the transition into completed: the
    counter after it is the counter before it, where the last safe integer
    below still steps to 2^53. *)
Lemma C5_counterexample :
  fst (VendorProfile.updateVendorProfile vera
         (VendorProfile.mkBody None None None None (Some (2 ^ 53)%Z)) demo)
  = Ok (Some (Vendor.set_completedBookings (2 ^ 53) veraVendor))
  /\ Binary64.ofZ (2 ^ 53) = Binary64.two53
  /\ Binary64.completedBookingsAfter "completed" (Binary64.ofZ (2 ^ 53))
     = Binary64.ofZ (2 ^ 53)
  /\ PrimFloat.ltb (Binary64.ofZ (2 ^ 53))
       (Binary64.completedBookingsAfter "completed" (Binary64.ofZ (2 ^ 53)))
     = false
  /\ Binary64.completedBookingsAfter "completed" (Binary64.ofZ (2 ^ 53 - 1))
     = Binary64.ofZ (2 ^ 53)
  /\ ~ safeInteger (2 ^ 53).
Proof.
  repeat split; try reflexivity. unfold safeInteger. lia.
Qed.

(** The scenario of section 8: after pending -> confirmed -> in-progress ->
    completed the counter went from 0 to 1, and the further requests changed
    nothing. *)
Example order_scenario :
  map Vendor.completedBookings
    (vendors (driveOrder vera 100
                ["confirmed"; "in-progress"; "completed"; "completed";
                 "cancelled"] demo)) = [1%Z]
  /\ map Order.status
       (orders (driveOrder vera 100
                  ["confirmed"; "in-progress"; "completed"; "completed";
                   "cancelled"] demo)) = ["completed"].
Proof. split; reflexivity. Qed.

(** ** C4: the counters of the waiter profile *)

Lemma jobAfter_id job status reason now :
  Job._id (jobAfter job status reason now) = Job._id job
  /\ Job.waiter (jobAfter job status reason now) = Job.waiter job
  /\ Job.status (jobAfter job status reason now) = status.
Proof.
  unfold jobAfter.
  destruct (String.eqb status "accepted" || String.eqb status "declined");
    destruct (String.eqb status "declined" && truthy reason);
    destruct (String.eqb status "completed"); repeat split.
Qed.

Lemma waiterAfter_id waiter status :
  Waiter._id (waiterAfter waiter status) = Waiter._id waiter
  /\ Waiter.user (waiterAfter waiter status) = Waiter.user waiter.
Proof.
  unfold waiterAfter.
  destruct (String.eqb status "completed");
    destruct (String.eqb status "accepted"); split; reflexivity.
Qed.

(** A request along an edge of the table: the answer, and the waiter and
    the job found afterwards. *)
Lemma updateJobStatus_edge user jobId status reason now s waiter job allowed :
  waiterOf user s = Some waiter ->
  jobOf waiter jobId s = Some job ->
  lookup (Job.status job) WaiterController.validTransitions = Some allowed ->
  includes allowed status = true ->
  let s' := snd (WaiterController.updateJobStatus user jobId status reason
                   now s) in
  waiterOf user s' = Some (waiterAfter waiter status)
  /\ jobOf (waiterAfter waiter status) jobId s'
     = Some (jobAfter job status reason now).
Proof.
  intros Hw Hj Hl Hi. cbn zeta.
  rewrite (updateJobStatus_found _ _ _ _ _ _ _ _ _ Hw Hj Hl), Hi. cbn [snd].
  pose proof (find_pred _ _ _ Hw) as Pw.
  pose proof (find_pred _ _ _ Hj) as Pj.
  destruct (jobAfter_id job status reason now) as (Ji & Jw & _).
  destruct (waiterAfter_id waiter status) as (Wi & Wu).
  assert (Hw' : waiterOf user (jobUpdated waiter job status reason now s)
                = Some (waiterAfter waiter status)).
  { unfold waiterOf, jobUpdated.
    destruct (String.eqb status "completed" || String.eqb status "accepted")
      eqn:Hc.
    - cbn [waiters set_jobs set_waiters].
      apply find_replaceById with (d := waiter);
        [exact Hw | exact Wi | cbn beta; rewrite Wu; exact Pw].
    - cbn [waiters set_jobs]. unfold waiterAfter.
      apply orb_false_elim in Hc. destruct Hc as [-> ->]. exact Hw. }
  split; [exact Hw' | ].
  unfold jobOf in *. unfold jobUpdated.
  destruct (String.eqb status "completed" || String.eqb status "accepted");
    cbn [jobs set_jobs set_waiters]; rewrite Wi;
    (apply find_replaceById with (d := job);
      [exact Hj | exact Ji | cbn beta; rewrite Ji, Jw; exact Pj]).
Qed.

(** C4 (the counter part fails on the code). For every job found pending
    for the acting waiter, the path accepted, in-progress, completed leaves
    the waiter profile with totalJobs two higher and completedJobs one
    higher; the job ends completed with respondedAt the time of the
    acceptance and completedAt the time of the completion.  Declining such
    a job stamps respondedAt, stores the decline reason when one is given,
    and leaves the waiter profiles alone. *)
Theorem C4_totalJobs_counted_twice :
  (forall user jobId s waiter job t1 t2 t3,
     waiterOf user s = Some waiter ->
     jobOf waiter jobId s = Some job ->
     Job.status job = "pending" ->
     let s1 := snd (WaiterController.updateJobStatus user jobId "accepted"
                      None t1 s) in
     let s2 := snd (WaiterController.updateJobStatus user jobId "in-progress"
                      None t2 s1) in
     let s3 := snd (WaiterController.updateJobStatus user jobId "completed"
                      None t3 s2) in
     exists waiter' job',
       waiterOf user s3 = Some waiter'
       /\ jobOf waiter' jobId s3 = Some job'
       /\ Waiter.totalJobs waiter' = (Waiter.totalJobs waiter + 2)%Z
       /\ Waiter.completedJobs waiter' = (Waiter.completedJobs waiter + 1)%Z
       /\ Job.status job' = "completed"
       /\ Job.respondedAt job' = Some t1
       /\ Job.completedAt job' = Some t3)
  /\ (forall user jobId s waiter job reason now,
        waiterOf user s = Some waiter ->
        jobOf waiter jobId s = Some job ->
        Job.status job = "pending" ->
        exists j s',
          WaiterController.updateJobStatus user jobId "declined" reason now s
          = (Ok j, s')
          /\ Job.status j = "declined"
          /\ Job.respondedAt j = Some now
          /\ Job.completedAt j = Job.completedAt job
          /\ (truthy reason = true -> Job.declineReason j = reason)
          /\ waiters s' = waiters s).
Proof.
  split.
  - intros user jobId s waiter job t1 t2 t3 Hw Hj Hs. cbn zeta.
    destruct (updateJobStatus_edge user jobId "accepted" None t1 s waiter job
                ["accepted"; "declined"] Hw Hj) as [Hw1 Hj1];
      [now rewrite Hs | reflexivity | ].
    cbn zeta in Hw1, Hj1.
    destruct (updateJobStatus_edge user jobId "in-progress" None t2 _ _ _
                ["in-progress"; "cancelled"] Hw1 Hj1) as [Hw2 Hj2];
      [reflexivity | reflexivity | ].
    cbn zeta in Hw2, Hj2.
    destruct (updateJobStatus_edge user jobId "completed" None t3 _ _ _
                ["completed"] Hw2 Hj2) as [Hw3 Hj3];
      [reflexivity | reflexivity | ].
    cbn zeta in Hw3, Hj3.
    eexists. eexists. split; [exact Hw3 | ]. split; [exact Hj3 | ].
    repeat split; cbn; lia.
  - intros user jobId s waiter job reason now Hw Hj Hs.
    rewrite (updateJobStatus_found user jobId "declined" reason now s waiter
               job ["accepted"; "declined"] Hw Hj);
      [ | now rewrite Hs].
    change (includes ["accepted"; "declined"] "declined") with true.
    cbn iota. do 2 eexists. split; [reflexivity | ].
    unfold jobAfter, jobUpdated.
    change (String.eqb "declined" "accepted") with false.
    change (String.eqb "declined" "declined") with true.
    change (String.eqb "declined" "completed") with false.
    cbn [orb andb].
    destruct (truthy reason); repeat split; intros; try discriminate;
      reflexivity.
Qed.

Lemma C4_totalJobs_counted_twice_witness :
  (exists waiter' job',
     let s1 := snd (WaiterController.updateJobStatus walt 200 "accepted"
                      None 1000 demo) in
     let s2 := snd (WaiterController.updateJobStatus walt 200 "in-progress"
                      None 2000 s1) in
     let s3 := snd (WaiterController.updateJobStatus walt 200 "completed"
                      None 3000 s2) in
     waiterOf walt s3 = Some waiter'
     /\ jobOf waiter' 200 s3 = Some job'
     /\ Waiter.totalJobs waiter' = (Waiter.totalJobs waltWaiter + 2)%Z
     /\ Waiter.completedJobs waiter' = (Waiter.completedJobs waltWaiter + 1)%Z
     /\ Job.status job' = "completed"
     /\ Job.respondedAt job' = Some 1000%Z
     /\ Job.completedAt job' = Some 3000%Z)
  /\ (exists j s',
        WaiterController.updateJobStatus walt 200 "declined"
          (Some "Busy that day") 1000 demo = (Ok j, s')
        /\ Job.status j = "declined"
        /\ Job.respondedAt j = Some 1000%Z
        /\ Job.completedAt j = Job.completedAt waltJob
        /\ (truthy (Some "Busy that day") = true ->
            Job.declineReason j = Some "Busy that day")
        /\ waiters s' = waiters demo).
Proof.
  split.
  - exact (proj1 C4_totalJobs_counted_twice walt 200 demo waltWaiter waltJob
             1000%Z 2000%Z 3000%Z eq_refl eq_refl eq_refl).
  - exact (proj2 C4_totalJobs_counted_twice walt 200 demo waltWaiter waltJob
             (Some "Busy that day") 1000%Z eq_refl eq_refl eq_refl).
Defined.

(** The counters of walt after the three requests: 2 jobs in total, 1
    completed. *)
Example job_scenario :
  map (fun w => (Waiter.totalJobs w, Waiter.completedJobs w))
    (waiters
       (handle (UpdateJobStatus walt 200 "completed" None 3000)
          (handle (UpdateJobStatus walt 200 "in-progress" None 2000)
             (handle (UpdateJobStatus walt 200 "accepted" None 1000) demo))))
  = [(2%Z, 1%Z)].
Proof. reflexivity. Qed.

(** ** Aggregates: what updateRating writes *)

Lemma Vendor_updateRating_eq (this : Vendor.t) (s : Store) :
  VendorModel.updateRating this s =
  (Ok (vendorRated this (ratings s)),
   set_vendors
     (replaceById Vendor._id (vendorRated this (ratings s)) (vendors s)) s).
Proof.
  unfold VendorModel.updateRating, VendorModel.aggregate, bind, gets,
    Vendor_save, modify, ret, vendorRated, vendorDocs.
  destruct (filter _ (ratings s)); reflexivity.
Qed.

Lemma Waiter_updateRating_eq (this : Waiter.t) (s : Store) :
  WaiterModel.updateRating this s =
  (Ok (waiterRated this (ratings s)),
   set_waiters
     (replaceById Waiter._id (waiterRated this (ratings s)) (waiters s)) s).
Proof.
  unfold WaiterModel.updateRating, WaiterModel.aggregate, bind, gets,
    Waiter_save, modify, ret, waiterRated, waiterDocs.
  destruct (filter _ (ratings s)); reflexivity.
Qed.

Lemma vendorRated_id this l : Vendor._id (vendorRated this l) = Vendor._id this.
Proof. unfold vendorRated. destruct (vendorDocs _ l); reflexivity. Qed.

Lemma waiterRated_id this l : Waiter._id (waiterRated this l) = Waiter._id this.
Proof. unfold waiterRated. destruct (waiterDocs _ l); reflexivity. Qed.

Lemma vendorRated_again this l :
  vendorRated (vendorRated this l) l = vendorRated this l.
Proof.
  unfold vendorRated at 1. rewrite vendorRated_id. unfold vendorRated.
  destruct (vendorDocs _ l); reflexivity.
Qed.

Lemma waiterRated_again this l :
  waiterRated (waiterRated this l) l = waiterRated this l.
Proof.
  unfold waiterRated at 1. rewrite waiterRated_id. unfold waiterRated.
  destruct (waiterDocs _ l); reflexivity.
Qed.

Lemma replaceById_again {A : Type} (id_of : A -> ObjectId) (d : A)
    (l : list A) :
  replaceById id_of d (replaceById id_of d l) = replaceById id_of d l.
Proof.
  unfold replaceById. rewrite map_map. apply map_ext. intros x.
  destruct (Nat.eqb_spec (id_of x) (id_of d)) as [E | E].
  - now rewrite Nat.eqb_refl.
  - now apply Nat.eqb_neq in E; rewrite E.
Qed.

(** ** C10: recomputation is idempotent *)

(** C10. Over any store, Vendor.updateRating (and Waiter.updateRating)
    returns; called a second time, on the document as the first call left
    it or on the document as it was loaded, it returns the same document
    and the same store as the first call did. *)
Theorem C10_updateRating_idempotent :
  (forall (this : Vendor.t) (s : Store),
     exists this1 s1,
       VendorModel.updateRating this s = (Ok this1, s1)
       /\ VendorModel.updateRating this1 s1 = (Ok this1, s1)
       /\ VendorModel.updateRating this s1 = (Ok this1, s1))
  /\ (forall (this : Waiter.t) (s : Store),
        exists this1 s1,
          WaiterModel.updateRating this s = (Ok this1, s1)
          /\ WaiterModel.updateRating this1 s1 = (Ok this1, s1)
          /\ WaiterModel.updateRating this s1 = (Ok this1, s1)).
Proof.
  split; intros this s.
  - do 2 eexists. split; [apply Vendor_updateRating_eq | ].
    rewrite !Vendor_updateRating_eq. cbn [ratings vendors set_vendors].
    rewrite vendorRated_again.
    unfold set_vendors. cbn [vendors waiters orders jobs ratings].
    now rewrite replaceById_again.
  - do 2 eexists. split; [apply Waiter_updateRating_eq | ].
    rewrite !Waiter_updateRating_eq. cbn [ratings waiters set_waiters].
    rewrite waiterRated_again.
    unfold set_waiters. cbn [vendors waiters orders jobs ratings].
    now rewrite replaceById_again.
Qed.

(** ** C7: the rounding of the average *)

Lemma Math_ceil_tenths_bounds (m : Q) :
  (m <= Math_ceil (m * 10) / 10)%Q
  /\ (Math_ceil (m * 10) / 10 < m + (1 # 10))%Q
  /\ (Math_ceil (m * 10) / 10 == Qceiling (m * 10) # 10)%Q.
Proof.
  unfold Math_ceil.
  pose proof (Qle_ceiling (m * 10)) as Hle.
  pose proof (Qceiling_lt (m * 10)) as Hlt.
  set (k := Qceiling (m * 10)) in *.
  assert (E : (inject_Z k / 10 == k # 10)%Q).
  { unfold Qeq, Qdiv, Qmult, Qinv, inject_Z. cbn. lia. }
  assert (E1 : (inject_Z (k - 1) == inject_Z k - 1)%Q).
  { unfold Qeq, Qminus, Qplus, Qopp, inject_Z. cbn. lia. }
  rewrite E1 in Hlt.
  assert (E2 : (inject_Z k == (k # 10) * 10)%Q).
  { unfold Qeq, Qmult, inject_Z. cbn. lia. }
  rewrite E2 in Hle, Hlt. rewrite E.
  repeat split; try reflexivity.
  - apply Qmult_le_r with (z := 10%Q); [reflexivity | exact Hle].
  - apply Qmult_lt_r with (z := 10%Q); [reflexivity | ].
    setoid_replace ((m + (1 # 10)) * 10)%Q with (m * 10 + 1)%Q by ring.
    apply Qplus_lt_l with (z := (- (1))%Q).
    setoid_replace (m * 10 + 1 + - (1))%Q with (m * 10)%Q by ring.
    exact Hlt.
Qed.

(** C7. For a waiter whose ratings are the active scores 4 and 5,
    updateRating stores the average 4.5 on the profile; for the active
    scores 4, 4 and 5 it stores 4.4 (and not the 4.3 that rounding to the
    nearest tenth would give); the same two values come out of the
    computation on binary64 doubles; and in general the average that
    updateRating answers for a vendor or a waiter lies at or above the mean
    of the scores, less than a tenth above it, and is a whole number of
    tenths, and the profile read back from its collection after the call
    is the document answered, whenever the collection holds the profile. *)
Theorem C7_average_scenarios :
  (exists w s',
     WaiterModel.updateRating waltWaiter (waltRated [4%Q; 5%Q]) = (Ok w, s')
     /\ find (fun d => Nat.eqb (Waiter._id d) 20) (waiters s') = Some w
     /\ (Waiter.averageRating w == 45 # 10)%Q
     /\ Waiter.totalRatings w = 2%Z)
  /\ (exists w s',
        WaiterModel.updateRating waltWaiter (waltRated [4%Q; 4%Q; 5%Q])
          = (Ok w, s')
        /\ find (fun d => Nat.eqb (Waiter._id d) 20) (waiters s') = Some w
        /\ (Waiter.averageRating w == 44 # 10)%Q
        /\ ~ (Waiter.averageRating w == 43 # 10)%Q
        /\ Waiter.totalRatings w = 3%Z)
  /\ Binary64.ceilTenths (Binary64.avg [4%float; 5%float]) = 4.5%float
  /\ Binary64.ceilTenths (Binary64.avg [4%float; 4%float; 5%float])
     = Binary64.fourPointFour
  /\ (forall (this : Waiter.t) (s : Store),
        exists this' s',
          WaiterModel.updateRating this s = (Ok this', s')
          /\ (let m := toNumber
                         (avgAcc (map (fun r => Some (Rating.rating r))
                                    (waiterDocs (Waiter._id this)
                                       (ratings s))))
              in
              (m <= Waiter.averageRating this')%Q
              /\ (Waiter.averageRating this' < m + (1 # 10))%Q
              /\ (Waiter.averageRating this' == Qceiling (m * 10) # 10)%Q)
          /\ (forall stored,
                find (fun d => Nat.eqb (Waiter._id d) (Waiter._id this))
                  (waiters s) = Some stored ->
                find (fun d => Nat.eqb (Waiter._id d) (Waiter._id this))
                  (waiters s') = Some this')
          /\ vendors s' = vendors s /\ ratings s' = ratings s)
  /\ (forall (this : Vendor.t) (s : Store),
        exists this' s',
          VendorModel.updateRating this s = (Ok this', s')
          /\ (let m := toNumber
                         (avgAcc (map (fun r => Some (Rating.rating r))
                                    (vendorDocs (Vendor._id this)
                                       (ratings s))))
              in
              (m <= Vendor.averageRating this')%Q
              /\ (Vendor.averageRating this' < m + (1 # 10))%Q
              /\ (Vendor.averageRating this' == Qceiling (m * 10) # 10)%Q)
          /\ (forall stored,
                find (fun d => Nat.eqb (Vendor._id d) (Vendor._id this))
                  (vendors s) = Some stored ->
                find (fun d => Nat.eqb (Vendor._id d) (Vendor._id this))
                  (vendors s') = Some this')
          /\ waiters s' = waiters s /\ ratings s' = ratings s).
Proof.
  split; [ | split; [ | split; [ | split; [ | split]]]].
  - do 2 eexists. split; [apply Waiter_updateRating_eq | ].
    split; [reflexivity | split; reflexivity].
  - do 2 eexists. split; [apply Waiter_updateRating_eq | ].
    split; [reflexivity | split; [reflexivity | split; [ | reflexivity]]].
    intros H. vm_compute in H. discriminate.
  - reflexivity.
  - reflexivity.
  - intros this s. do 2 eexists. split; [apply Waiter_updateRating_eq | ].
    split; [ | split; [ | split; reflexivity]].
    + unfold waiterRated. destruct (waiterDocs _ (ratings s)) as [ | d ds].
      * cbn. repeat split; try reflexivity; discriminate.
      * cbn zeta. cbn [Waiter.averageRating Waiter.set_rating].
        apply Math_ceil_tenths_bounds.
    + intros stored Hf. cbn [waiters set_waiters].
      pose proof (find_pred _ _ _ Hf) as P. cbn beta in P.
      apply Nat.eqb_eq in P.
      apply find_replaceById with (d := stored).
      * exact Hf.
      * rewrite waiterRated_id. now rewrite P.
      * rewrite waiterRated_id. apply Nat.eqb_refl.
  - intros this s. do 2 eexists. split; [apply Vendor_updateRating_eq | ].
    split; [ | split; [ | split; reflexivity]].
    + unfold vendorRated. destruct (vendorDocs _ (ratings s)) as [ | d ds].
      * cbn. repeat split; try reflexivity; discriminate.
      * cbn zeta. cbn [Vendor.averageRating Vendor.set_rating].
        apply Math_ceil_tenths_bounds.
    + intros stored Hf. cbn [vendors set_vendors].
      pose proof (find_pred _ _ _ Hf) as P. cbn beta in P.
      apply Nat.eqb_eq in P.
      apply find_replaceById with (d := stored).
      * exact Hf.
      * rewrite vendorRated_id. now rewrite P.
      * rewrite vendorRated_id. apply Nat.eqb_refl.
Qed.

Lemma C7_average_scenarios_witness :
  exists w s',
    WaiterModel.updateRating waltWaiter (waltRated [4%Q; 4%Q; 5%Q])
      = (Ok w, s')
    /\ find (fun d => Nat.eqb (Waiter._id d) 20) (waiters s') = Some w
    /\ (Waiter.averageRating w == 44 # 10)%Q
    /\ ratings s' = ratings (waltRated [4%Q; 4%Q; 5%Q]).
Proof.
  destruct (proj1 (proj2 (proj2 (proj2 (proj2 C7_average_scenarios))))
              waltWaiter (waltRated [4%Q; 4%Q; 5%Q]))
    as (w & s' & H & (_ & _ & E) & Hst & _ & Hr).
  exists w, s'. split; [exact H | ].
  split; [exact (Hst waltWaiter eq_refl) | ].
  split; [ | exact Hr]. rewrite E. reflexivity.
Defined.

(** The same average through the handlers: alice rates vera's profile with
    4, mallory with 5, and the post-save hook leaves the profile at 4.5 over
    2 ratings. *)
Example vendor_scenario :
  exists v,
    find (fun d => Nat.eqb (Vendor._id d) 10)
      (vendors
         (snd (VendorController.rateVendor mallory 10 5 None
                 (snd (VendorController.rateVendor alice 10 4 None
                         servedTwice)))))
    = Some v
    /\ (Vendor.averageRating v == 45 # 10)%Q
    /\ Vendor.totalRatings v = 2%Z.
Proof. eexists. split; [vm_compute; reflexivity | split; reflexivity]. Qed.

(** ** The Rating model: equations *)

Lemma postSave_eq (r : Rating.t) (s : Store) :
  RatingModel.postSave r s = (Ok tt, recomputeTargets r s).
Proof.
  unfold RatingModel.postSave, recomputeTargets, recomputeWaiter,
    recomputeVendor, bind, Vendor_findById, Waiter_findById, gets.
  destruct (Rating.vendor r) as [v | ].
  - destruct (find _ (vendors s)) as [vendor | ].
    + rewrite Vendor_updateRating_eq. cbn [ret].
      destruct (Rating.waiter r) as [w | ]; [ | reflexivity].
      destruct (find _ (waiters _)) as [waiter | ]; [ | reflexivity].
      rewrite Waiter_updateRating_eq. reflexivity.
    + cbn [ret].
      destruct (Rating.waiter r) as [w | ]; [ | reflexivity].
      destruct (find _ (waiters _)) as [waiter | ]; [ | reflexivity].
      rewrite Waiter_updateRating_eq. reflexivity.
  - cbn [ret].
    destruct (Rating.waiter r) as [w | ]; [ | reflexivity].
    destruct (find _ (waiters _)) as [waiter | ]; [ | reflexivity].
    rewrite Waiter_updateRating_eq. reflexivity.
Qed.

Lemma recomputeTargets_frame (r : Rating.t) (s : Store) :
  ratings (recomputeTargets r s) = ratings s
  /\ orders (recomputeTargets r s) = orders s
  /\ jobs (recomputeTargets r s) = jobs s.
Proof.
  unfold recomputeTargets, recomputeWaiter, recomputeVendor.
  destruct (Rating.vendor r) as [v | ];
    [destruct (find _ (vendors s)) | ];
    (destruct (Rating.waiter r) as [w | ];
     [destruct (find _ (waiters _)) | ]); repeat split.
Qed.

Lemma preSave_eq (r : Rating.t) (s : Store) :
  RatingModel.preSave r s =
  if oneTarget r then (Ok tt, s)
  else (Throw
          (Error "Must rate either a vendor or a waiter, not both or neither"),
        s).
Proof.
  unfold RatingModel.preSave, oneTarget.
  destruct (RatingModel.isSome (Rating.vendor r));
    destruct (RatingModel.isSome (Rating.waiter r)); reflexivity.
Qed.

Lemma save_eq (r : Rating.t) (s : Store) :
  RatingModel.save r s =
  match RatingModel.validate r with
  | m :: ms => (Throw (ValidationError (m :: ms)), s)
  | [] =>
      if oneTarget r then
        (Ok tt,
         recomputeTargets r
           (set_ratings (replaceById Rating._id r (ratings s)) s))
      else
        (Throw
           (Error "Must rate either a vendor or a waiter, not both or neither"),
         s)
  end.
Proof.
  unfold RatingModel.save, RatingModel.runValidators, bind.
  destruct (RatingModel.validate r); [ | reflexivity].
  cbn [ret]. rewrite preSave_eq.
  destruct (oneTarget r); [ | reflexivity].
  unfold modify. now rewrite postSave_eq.
Qed.

Lemma create_eq (fields : Rating.t) (s : Store) :
  RatingModel.create fields s =
  match RatingModel.validate fields with
  | m :: ms => (Throw (ValidationError (m :: ms)), s)
  | [] =>
      if oneTarget fields then
        if RatingModel.duplicateKey fields (ratings s) then
          (Throw (DuplicateKey "reviewer"), s)
        else
          let doc := Rating.set_id (freshId Rating._id (ratings s)) fields in
          (Ok doc, recomputeTargets doc (set_ratings (ratings s ++ [doc]) s))
      else
        (Throw
           (Error "Must rate either a vendor or a waiter, not both or neither"),
         s)
  end.
Proof.
  unfold RatingModel.create, RatingModel.runValidators, bind.
  destruct (RatingModel.validate fields); [ | reflexivity].
  cbn [ret]. rewrite preSave_eq.
  destruct (oneTarget fields); [ | reflexivity].
  unfold gets.
  destruct (RatingModel.duplicateKey fields (ratings s)); [reflexivity | ].
  unfold modify. now rewrite postSave_eq.
Qed.

(** ** rateVendor and rateWaiter: equations *)

Lemma existsb_false_of_find {A : Type} (p q : A -> bool) (l : list A) :
  (forall x, q x = true -> p x = true) ->
  find p l = None -> existsb q l = false.
Proof.
  intros Hqp Hf. induction l as [ | x l IH]; [reflexivity | ].
  cbn [find existsb] in *. destruct (p x) eqn:Hp; [discriminate | ].
  destruct (q x) eqn:Hq.
  - apply Hqp in Hq. congruence.
  - now apply IH.
Qed.

Lemma vendor_key_is_query user id order rating review d :
  RatingModel.sameVendorKey (vendorFields user id order rating review) d
  || RatingModel.sameWaiterKey (vendorFields user id order rating review) d
  = true ->
  VendorController.vendorRatingOf user id (Order._id order) d = true.
Proof.
  unfold RatingModel.sameVendorKey, RatingModel.sameWaiterKey, vendorFields,
    VendorController.vendorRatingOf, refIs. cbn [Rating.vendor Rating.order
        Rating.waiter
    Rating.job Rating.reviewer].
  destruct (Rating.vendor d) as [vb | ], (Rating.order d) as [ob | ];
    cbn [orb]; try discriminate.
  rewrite ?orb_false_r, !andb_true_iff, !Nat.eqb_eq.
  intros [[E1 E2] E3]. rewrite <- E1, <- E2, <- E3. auto.
Qed.

Lemma rateVendor_found user id rating review s vendor order :
  find (fun v => Nat.eqb (Vendor._id v) id) (vendors s) = Some vendor ->
  find (VendorController.completedOrderOf user id) (orders s) = Some order ->
  VendorController.rateVendor user id rating review s =
  if RatingModel.isSome
       (find (VendorController.vendorRatingOf user id (Order._id order))
           (ratings s))
  then (Throw VendorController.alreadyRatedVendor, s)
  else
    match RatingModel.validate (vendorFields user id order rating review) with
    | m :: ms => (Throw (ValidationError (m :: ms)), s)
    | [] =>
        let doc :=
          Rating.set_id (freshId Rating._id (ratings s))
            (vendorFields user id order rating review) in
        (Ok doc, vendorRatingStored doc order s)
    end.
Proof.
  intros Hv Ho.
  unfold VendorController.rateVendor, bind, Vendor_findById, Order_findOne,
    RatingModel.findOne, gets. rewrite Hv. cbn [orThrow ret]. rewrite Ho.
  cbn [orThrow ret].
  destruct (find (VendorController.vendorRatingOf user id (Order._id order))
      (ratings s))
    as [r | ] eqn:Hr; cbn [RatingModel.isSome]; [reflexivity | ].
  fold (vendorFields user id order rating review). rewrite create_eq.
  destruct (RatingModel.validate _); [ | reflexivity].
  change (oneTarget (vendorFields user id order rating review)) with true.
  cbn iota. unfold RatingModel.duplicateKey.
  rewrite (existsb_false_of_find _ _ _
             (vendor_key_is_query user id order rating review) Hr).
  reflexivity.
Qed.

Lemma find_never {A : Type} (p : A -> bool) (l : list A) :
  (forall x, p x = false) -> find p l = None.
Proof.
  intros H. induction l as [ | a l IH]; [reflexivity | ].
  cbn [find]. now rewrite H.
Qed.

(** req.user.vendorProfile is undefined, so the eligibility filter of
    rateWaiter, which asks for a null vendor, matches no job. *)
Lemma completedJobOf_never user id j :
  WaiterController.completedJobOf user id j = false.
Proof.
  unfold WaiterController.completedJobOf, User.vendorProfile, refIs.
  now rewrite andb_false_r.
Qed.

Lemma rateWaiter_refused user id rating att review s waiter :
  find (fun w => Nat.eqb (Waiter._id w) id) (waiters s) = Some waiter ->
  WaiterController.rateWaiter user id rating att review s
  = (Throw WaiterController.notHired, s).
Proof.
  intros Hw.
  unfold WaiterController.rateWaiter, bind, Waiter_findById, Job_findOne,
    gets.
  rewrite Hw. cbn [orThrow ret].
  now rewrite (find_never _ (jobs s) (completedJobOf_never user id)).
Qed.

Lemma rateWaiter_frame user id rating att review s :
  snd (WaiterController.rateWaiter user id rating att review s) = s.
Proof.
  destruct (find (fun w => Nat.eqb (Waiter._id w) id) (waiters s))
    as [waiter | ] eqn:Hw.
  - now rewrite (rateWaiter_refused _ _ _ _ _ _ _ Hw).
  - unfold WaiterController.rateWaiter, bind, Waiter_findById, gets.
    now rewrite Hw.
Qed.

Lemma rateVendor_Ok user id rating review s doc s' :
  VendorController.rateVendor user id rating review s = (Ok doc, s') ->
  exists vendor order,
    find (fun v => Nat.eqb (Vendor._id v) id) (vendors s) = Some vendor
    /\ find (VendorController.completedOrderOf user id) (orders s) = Some order
    /\ find (VendorController.vendorRatingOf user id (Order._id order))
        (ratings s) = None
    /\ doc = Rating.set_id (freshId Rating._id (ratings s))
               (vendorFields user id order rating review)
    /\ s' = vendorRatingStored doc order s.
Proof.
  intros H.
  destruct (find (fun v => Nat.eqb (Vendor._id v) id) (vendors s))
    as [vendor | ] eqn:Hv.
  2:{ unfold VendorController.rateVendor, bind, Vendor_findById, gets in H.
      rewrite Hv in H. discriminate. }
  destruct (find (VendorController.completedOrderOf user id) (orders s))
    as [order | ] eqn:Ho.
  2:{ unfold VendorController.rateVendor, bind, Vendor_findById,
      Order_findOne, gets in H.
      rewrite Hv in H. cbn [orThrow ret] in H. rewrite Ho in H.
      discriminate. }
  rewrite (rateVendor_found _ _ _ _ _ _ _ Hv Ho) in H.
  exists vendor, order.
  destruct (find (VendorController.vendorRatingOf user id (Order._id order))
      (ratings s));
    [discriminate | ].
  cbn [RatingModel.isSome] in H.
  destruct (RatingModel.validate _); [ | discriminate].
  cbn zeta in H. injection H as <- <-. repeat split.
Qed.

Lemma isSome_find {A : Type} (p : A -> bool) (l : list A) :
  RatingModel.isSome (find p l) = true <->
  exists x, In x l /\ p x = true.
Proof.
  destruct (find p l) as [x | ] eqn:Hf; cbn [RatingModel.isSome].
  - split; [intros _ | reflexivity]. exists x. now apply find_some in Hf.
  - split; [discriminate | ]. intros [x [Hin Hp]].
    pose proof (find_none _ _ Hf x Hin). congruence.
Qed.

Lemma In_replaceById {A : Type} (id_of : A -> ObjectId) (d d' : A)
    (l : list A) :
  In d l -> id_of d' = id_of d -> In d' (replaceById id_of d' l).
Proof.
  intros Hin Hid. unfold replaceById. apply in_map_iff. exists d.
  split; [ | assumption]. now rewrite Hid, Nat.eqb_refl.
Qed.

Lemma vendorRatingStored_parts doc order s id vendor :
  find (fun v => Nat.eqb (Vendor._id v) id) (vendors s) = Some vendor ->
  Rating.vendor doc = Some id ->
  Rating.waiter doc = None ->
  ratings (vendorRatingStored doc order s) = ratings s ++ [doc]
  /\ vendors (vendorRatingStored doc order s)
     = replaceById Vendor._id (vendorRated vendor (ratings s ++ [doc]))
         (vendors s)
  /\ orders (vendorRatingStored doc order s)
     = replaceById Order._id (Order.set_isRated true order) (orders s)
  /\ waiters (vendorRatingStored doc order s) = waiters s
  /\ jobs (vendorRatingStored doc order s) = jobs s.
Proof.
  intros Hv Hdv Hdw.
  unfold vendorRatingStored, recomputeTargets, recomputeWaiter,
    recomputeVendor.
  rewrite Hdv, Hdw. cbn [vendors set_ratings]. rewrite Hv.
  repeat split.
Qed.

(** rateVendor, for a vendor that exists and a completed order of the
    reviewer with it (the first one, which the handler picks). *)
Lemma rateVendor_spec user id rating review s vendor order :
  find (fun v => Nat.eqb (Vendor._id v) id) (vendors s) = Some vendor ->
  find (VendorController.completedOrderOf user id) (orders s) = Some order ->
  (VendorController.rateVendor user id rating review s
   = (Throw VendorController.alreadyRatedVendor, s)
   <-> exists r, In r (ratings s)
                 /\ VendorController.vendorRatingOf user id (Order._id order)
                     r = true)
  /\ ((forall r, In r (ratings s) ->
         VendorController.vendorRatingOf user id (Order._id order) r = false) ->
      RatingModel.validate (vendorFields user id order rating review) = [] ->
      exists doc s',
        VendorController.rateVendor user id rating review s = (Ok doc, s')
        /\ In doc (ratings s')
        /\ Rating.isActive doc = true
        /\ Rating.reviewer doc = User._id user
        /\ Rating.vendor doc = Some id
        /\ Rating.waiter doc = None
        /\ Rating.order doc = Some (Order._id order)
        /\ Rating.job doc = None
        /\ Rating.rating doc = rating
        /\ find (VendorController.completedOrderOf user id) (orders s')
           = Some (Order.set_isRated true order)
        /\ find (fun v => Nat.eqb (Vendor._id v) id) (vendors s')
           = Some (vendorRated vendor (ratings s'))).
Proof.
  intros Hv Ho. rewrite (rateVendor_found _ _ _ _ _ _ _ Hv Ho). split.
  - rewrite <- isSome_find.
    destruct (RatingModel.isSome (find _ (ratings s))).
    + split; reflexivity.
    + split; [ | discriminate].
      destruct (RatingModel.validate _); discriminate.
  - intros Hnone Hval.
    assert (Hf : RatingModel.isSome
                   (find (VendorController.vendorRatingOf user id
                       (Order._id order))
                      (ratings s)) = false).
    { destruct (RatingModel.isSome _) eqn:E; [ | reflexivity].
      apply isSome_find in E. destruct E as [r [Hin Hp]].
      rewrite (Hnone r Hin) in Hp. discriminate. }
    rewrite Hf, Hval. cbn zeta. do 2 eexists. split; [reflexivity | ].
    destruct (vendorRatingStored_parts
                (Rating.set_id (freshId Rating._id (ratings s))
                   (vendorFields user id order rating review))
                order s id vendor Hv eq_refl eq_refl)
      as (Er & Ev & Eo & _ & _).
    rewrite Er, Ev, Eo.
    repeat split.
    + apply in_or_app. right. left. reflexivity.
    + apply find_replaceById with (d := order);
        [exact Ho | reflexivity | ].
      apply (find_pred _ _ _ Ho).
    + apply find_replaceById with (d := vendor);
        [exact Hv | apply vendorRated_id | ].
      cbn beta. rewrite vendorRated_id. apply (find_pred _ _ _ Hv).
Qed.

(** ** C3: submitting a rating *)

(** C3 as stated fails: with only a retracted (inactive) rating stored for
    the reviewer, the vendor and the order, rateVendor throws the 400
    "already rated" error although no active rating exists for them. *)
Lemma C3_counterexample :
  ~ (VendorController.rateVendor alice 10 5 None retracted
     = (Throw VendorController.alreadyRatedVendor, retracted)
     <-> exists r, In r (ratings retracted)
                   /\ Rating.isActive r = true
                   /\ VendorController.vendorRatingOf alice 10 100 r = true).
Proof.
  intros [H _]. destruct (H eq_refl) as [r [Hin [Hact _]]].
  cbn in Hin. destruct Hin as [<- | [<- | []]]; discriminate.
Qed.

(** C3 (amended). rateVendor throws the 400 "You can only rate vendors you
    have booked and completed services with" error when the vendor exists
    and the reviewer has no completed order with it, and succeeds only if
    such an order exists; for the first such order it throws the 400
    "already rated" error exactly when some rating, active or not, is stored
    for the reviewer, the vendor and that order; otherwise, the fields being
    valid, it stores an active rating that refers to the vendor and the
    order only, marks the order as rated and leaves the vendor profile with
    the aggregates recomputed over the stored ratings.  rateWaiter throws
    the 400 "You can only rate waiters you have hired and completed jobs
    with" error when the waiter exists and has no completed job. *)
Theorem C3_submit_rating :
  (forall user id rating review s vendor,
     find (fun v => Nat.eqb (Vendor._id v) id) (vendors s) = Some vendor ->
     find (VendorController.completedOrderOf user id) (orders s) = None ->
     VendorController.rateVendor user id rating review s =
         (Throw VendorController.notBooked, s))
  /\ (forall user id rating att review s waiter,
        find (fun w => Nat.eqb (Waiter._id w) id) (waiters s) = Some waiter ->
        (forall job, In job (jobs s) -> Job.waiter job = id ->
                     Job.status job <> "completed") ->
        WaiterController.rateWaiter user id rating att review s
        = (Throw WaiterController.notHired, s))
  /\ (forall user id rating review s doc s',
        VendorController.rateVendor user id rating review s = (Ok doc, s') ->
        exists order,
          In order (orders s)
          /\ Order.user order = User._id user
          /\ Order.vendor order = id
          /\ Order.status order = "completed")
  /\ (forall user id rating review s vendor order,
        find (fun v => Nat.eqb (Vendor._id v) id) (vendors s) = Some vendor ->
        find (VendorController.completedOrderOf user id) (orders s) = Some
            order ->
        (VendorController.rateVendor user id rating review s
         = (Throw VendorController.alreadyRatedVendor, s)
         <-> exists r, In r (ratings s)
                       /\ VendorController.vendorRatingOf user id
                           (Order._id order) r
                          = true)
        /\ ((forall r, In r (ratings s) ->
               VendorController.vendorRatingOf user id (Order._id order) r =
                   false) ->
            RatingModel.validate (vendorFields user id order rating review)
            = [] ->
            exists doc s',
              VendorController.rateVendor user id rating review s = (Ok doc, s')
              /\ In doc (ratings s')
              /\ Rating.isActive doc = true
              /\ Rating.reviewer doc = User._id user
              /\ Rating.vendor doc = Some id
              /\ Rating.waiter doc = None
              /\ Rating.order doc = Some (Order._id order)
              /\ Rating.job doc = None
              /\ Rating.rating doc = rating
              /\ find (VendorController.completedOrderOf user id) (orders s')
                 = Some (Order.set_isRated true order)
              /\ find (fun v => Nat.eqb (Vendor._id v) id) (vendors s')
                 = Some (vendorRated vendor (ratings s')))).
Proof.
  split; [ | split; [ | split]].
  - intros user id rating review s vendor Hv Ho.
    unfold VendorController.rateVendor, bind, Vendor_findById, Order_findOne,
        gets.
    rewrite Hv. cbn [orThrow ret]. now rewrite Ho.
  - intros user id rating att review s waiter Hw _.
    now apply rateWaiter_refused with (waiter := waiter).
  - intros user id rating review s doc s' H.
    apply rateVendor_Ok in H. destruct H as (vendor & order & _ & Ho & _).
    exists order. apply find_some in Ho. destruct Ho as [Hin Hp].
    unfold VendorController.completedOrderOf in Hp.
    rewrite !andb_true_iff, !Nat.eqb_eq, String.eqb_eq in Hp. tauto.
  - intros. now apply rateVendor_spec.
Qed.

Lemma C3_submit_rating_witness :
  (exists doc s',
     VendorController.rateVendor alice 10 5 (Some "Great food") served =
         (Ok doc, s')
     /\ In doc (ratings s')
     /\ Rating.isActive doc = true
     /\ Rating.reviewer doc = 1
     /\ Rating.vendor doc = Some 10
     /\ Rating.waiter doc = None
     /\ Rating.order doc = Some 100
     /\ Rating.job doc = None
     /\ Rating.rating doc = 5%Q
     /\ find (VendorController.completedOrderOf alice 10) (orders s')
        = Some (Order.set_isRated true completedOrder)
     /\ find (fun v => Nat.eqb (Vendor._id v) 10) (vendors s')
        = Some (vendorRated veraVendor (ratings s')))
  /\ VendorController.rateVendor alice 10 5 None demo =
      (Throw VendorController.notBooked, demo)
  /\ WaiterController.rateWaiter vera 20 4 None None demo
     = (Throw WaiterController.notHired, demo).
Proof.
  destruct C3_submit_rating as (HnV & HnW & _ & HV).
  split; [ | split].
  - apply (HV alice 10 5%Q (Some "Great food") served veraVendor
             completedOrder eq_refl eq_refl).
    + intros r [].
    + reflexivity.
  - apply (HnV alice 10 5%Q None demo veraVendor eq_refl eq_refl).
  - apply (HnW vera 20 4%Q None None demo waltWaiter eq_refl).
    intros job [<- | []] _. discriminate.
Defined.

(** ** deleteRating: equations *)

Lemma recomputeVendor_again r s :
  recomputeVendor r (recomputeVendor r s) = recomputeVendor r s.
Proof.
  unfold recomputeVendor. destruct (Rating.vendor r) as [v | ]; [ |
      reflexivity].
  destruct (find _ (vendors s)) as [vendor | ] eqn:Hv.
  - cbn [vendors ratings set_vendors].
    rewrite (find_replaceById Vendor._id _ vendor
               (vendorRated vendor (ratings s)) (vendors s) Hv
               (vendorRated_id _ _)).
    + rewrite vendorRated_again. unfold set_vendors.
      cbn [vendors waiters orders jobs ratings].
      now rewrite replaceById_again.
    + rewrite vendorRated_id. apply (find_pred _ _ _ Hv).
  - now rewrite Hv.
Qed.

Lemma recomputeWaiter_again r s :
  recomputeWaiter r (recomputeWaiter r s) = recomputeWaiter r s.
Proof.
  unfold recomputeWaiter. destruct (Rating.waiter r) as [w | ]; [ |
      reflexivity].
  destruct (find _ (waiters s)) as [waiter | ] eqn:Hw.
  - cbn [waiters ratings set_waiters].
    rewrite (find_replaceById Waiter._id _ waiter
               (waiterRated waiter (ratings s)) (waiters s) Hw
               (waiterRated_id _ _)).
    + rewrite waiterRated_again. unfold set_waiters.
      cbn [vendors waiters orders jobs ratings].
      now rewrite replaceById_again.
    + rewrite waiterRated_id. apply (find_pred _ _ _ Hw).
  - now rewrite Hw.
Qed.

Lemma recompute_commute r s :
  recomputeVendor r (recomputeWaiter r s)
  = recomputeWaiter r (recomputeVendor r s).
Proof.
  unfold recomputeVendor, recomputeWaiter.
  destruct (Rating.vendor r) as [v | ], (Rating.waiter r) as [w | ];
    try reflexivity.
  destruct (find _ (waiters s)) as [waiter | ] eqn:Hw;
    destruct (find _ (vendors s)) as [vendor | ] eqn:Hv;
    cbn [vendors waiters ratings set_vendors set_waiters];
    rewrite ?Hw, ?Hv; reflexivity.
Qed.

Lemma recomputeTargets_again r s :
  recomputeTargets r (recomputeTargets r s) = recomputeTargets r s.
Proof.
  unfold recomputeTargets.
  rewrite (recompute_commute r (recomputeVendor r s)).
  now rewrite recomputeVendor_again, recomputeWaiter_again.
Qed.

Lemma deleteRating_found user id s r :
  find (fun d => Nat.eqb (Rating._id d) id) (ratings s) = Some r ->
  RatingController.deleteRating user id s =
  if canDelete user r then
    match RatingModel.validate (Rating.set_isActive false r) with
    | m :: ms => (Throw (ValidationError (m :: ms)), s)
    | [] =>
        if oneTarget r then (Ok tt, ratingRetracted r s)
        else
          (Throw
             (Error
                "Must rate either a vendor or a waiter, not both or neither"),
           s)
    end
  else (Throw RatingController.cannotDelete, s).
Proof.
  intros Hr.
  unfold RatingController.deleteRating, bind, RatingModel.findById, gets.
  rewrite Hr. cbn [orThrow ret]. fold (canDelete user r).
  destruct (canDelete user r); cbn [negb]; [ | reflexivity].
  rewrite save_eq.
  destruct (RatingModel.validate _); [ | reflexivity].
  change (oneTarget (Rating.set_isActive false r)) with (oneTarget r).
  destruct (oneTarget r); [ | reflexivity].
  pose proof (postSave_eq (Rating.set_isActive false r)) as P.
  unfold RatingModel.postSave, bind in P. rewrite P.
  unfold ratingRetracted. now rewrite recomputeTargets_again.
Qed.

Lemma deleteRating_Ok user id s s' :
  RatingController.deleteRating user id s = (Ok tt, s') ->
  exists r,
    find (fun d => Nat.eqb (Rating._id d) id) (ratings s) = Some r
    /\ canDelete user r = true
    /\ oneTarget r = true
    /\ s' = ratingRetracted r s.
Proof.
  intros H.
  destruct (find (fun d => Nat.eqb (Rating._id d) id) (ratings s))
    as [r | ] eqn:Hr.
  2:{ unfold RatingController.deleteRating, bind, RatingModel.findById, gets
        in H. rewrite Hr in H. discriminate. }
  rewrite (deleteRating_found _ _ _ _ Hr) in H. exists r.
  destruct (canDelete user r); [ | discriminate].
  destruct (RatingModel.validate _); [ | discriminate].
  destruct (oneTarget r); [ | discriminate].
  injection H as <-. repeat split.
Qed.

Lemma ratingRetracted_frame r s :
  ratings (ratingRetracted r s)
  = replaceById Rating._id (Rating.set_isActive false r) (ratings s)
  /\ orders (ratingRetracted r s) = orders s
  /\ jobs (ratingRetracted r s) = jobs s.
Proof.
  unfold ratingRetracted.
  destruct (recomputeTargets_frame (Rating.set_isActive false r)
              (set_ratings
                 (replaceById Rating._id (Rating.set_isActive false r)
                    (ratings s)) s)) as (Er & Eo & Ej).
  rewrite Er, Eo, Ej. repeat split.
Qed.

Lemma map_id_replaceById {A : Type} (id_of : A -> ObjectId) (d : A)
    (l : list A) :
  map id_of (replaceById id_of d l) = map id_of l.
Proof.
  unfold replaceById. rewrite map_map. apply map_ext. intros x.
  destruct (Nat.eqb_spec (id_of x) (id_of d)); congruence.
Qed.

Lemma recomputeVendor_frame r s :
  ratings (recomputeVendor r s) = ratings s
  /\ waiters (recomputeVendor r s) = waiters s.
Proof.
  unfold recomputeVendor. destruct (Rating.vendor r);
    [destruct (find _ (vendors s)) | ]; split; reflexivity.
Qed.

Lemma recomputeWaiter_frame r s :
  ratings (recomputeWaiter r s) = ratings s
  /\ vendors (recomputeWaiter r s) = vendors s.
Proof.
  unfold recomputeWaiter. destruct (Rating.waiter r);
    [destruct (find _ (waiters s)) | ]; split; reflexivity.
Qed.

(** After the recomputation the profiles a rating refers to carry the
    aggregates of the stored ratings. *)
Lemma recomputeTargets_vendor r s v vendor :
  Rating.vendor r = Some v ->
  find (fun d => Nat.eqb (Vendor._id d) v) (vendors s) = Some vendor ->
  find (fun d => Nat.eqb (Vendor._id d) v) (vendors (recomputeTargets r s))
  = Some (vendorRated vendor (ratings (recomputeTargets r s))).
Proof.
  intros Hr Hv. unfold recomputeTargets.
  destruct (recomputeWaiter_frame r (recomputeVendor r s)) as [-> ->].
  destruct (recomputeVendor_frame r s) as [-> _].
  unfold recomputeVendor. rewrite Hr, Hv. cbn [vendors set_vendors].
  apply find_replaceById with (d := vendor);
    [exact Hv | apply vendorRated_id | ].
  cbn beta. rewrite vendorRated_id. apply (find_pred _ _ _ Hv).
Qed.

Lemma recomputeTargets_waiter r s w waiter :
  Rating.waiter r = Some w ->
  find (fun d => Nat.eqb (Waiter._id d) w) (waiters s) = Some waiter ->
  find (fun d => Nat.eqb (Waiter._id d) w) (waiters (recomputeTargets r s))
  = Some (waiterRated waiter (ratings (recomputeTargets r s))).
Proof.
  intros Hr Hw. unfold recomputeTargets.
  destruct (recomputeVendor_frame r s) as [Er Ew].
  destruct (recomputeWaiter_frame r (recomputeVendor r s)) as [-> _].
  unfold recomputeWaiter. rewrite Hr, Ew, Er, Hw. cbn [waiters set_waiters].
  rewrite ?Ew.
  apply find_replaceById with (d := waiter);
    [exact Hw | apply waiterRated_id | ].
  cbn beta. rewrite waiterRated_id. apply (find_pred _ _ _ Hw).
Qed.

(** ** C8: retracting a rating *)

(** C8 (the side of the reviewer fails on the code). deleteRating on a
    stored rating throws the 403 "Not authorized to delete this rating"
    error, and changes nothing, for every actor who is not an administrator,
    the original reviewer included: rating.reviewer is the user document the
    pre-find hook has populated, and its text is the text of no identifier.
    For an administrator it succeeds on a valid rating with one target.
    When it succeeds the ratings collection is the old one with that
    rating's isActive set to false and every other field and every other
    rating as before, so no identifier disappears; the rating is still found
    by its identifier and getRatingById answers it to the same actor; and
    the vendor or waiter profile it refers to carries the aggregates that
    updateRating computes from the stored ratings. *)
Theorem C8_reviewer_cannot_retract :
  (forall user id s r,
     find (fun d => Nat.eqb (Rating._id d) id) (ratings s) = Some r ->
     User.role user <> "admin" ->
     RatingController.deleteRating user id s
     = (Throw RatingController.cannotDelete, s))
  /\ (forall user id s r,
        find (fun d => Nat.eqb (Rating._id d) id) (ratings s) = Some r ->
        User.role user = "admin" ->
        RatingModel.validate r = [] ->
        oneTarget r = true ->
        RatingController.deleteRating user id s
        = (Ok tt, ratingRetracted r s))
  /\ (forall user id s s',
        RatingController.deleteRating user id s = (Ok tt, s') ->
        exists r,
          find (fun d => Nat.eqb (Rating._id d) id) (ratings s) = Some r
          /\ User.role user = "admin"
          /\ ratings s'
             = replaceById Rating._id (Rating.set_isActive false r)
                 (ratings s)
          /\ map Rating._id (ratings s') = map Rating._id (ratings s)
          /\ Rating.isActive (Rating.set_isActive false r) = false
          /\ Rating.response (Rating.set_isActive false r)
             = Rating.response r
          /\ RatingModel.findById id s'
             = (Ok (Some (Rating.set_isActive false r)), s')
          /\ RatingController.getRatingById user id s'
             = (Ok (Rating.set_isActive false r), s')
          /\ (forall v vendor,
                Rating.vendor r = Some v ->
                find (fun d => Nat.eqb (Vendor._id d) v) (vendors s)
                = Some vendor ->
                find (fun d => Nat.eqb (Vendor._id d) v) (vendors s')
                = Some (vendorRated vendor (ratings s')))
          /\ (forall w waiter,
                Rating.waiter r = Some w ->
                find (fun d => Nat.eqb (Waiter._id d) w) (waiters s)
                = Some waiter ->
                find (fun d => Nat.eqb (Waiter._id d) w) (waiters s')
                = Some (waiterRated waiter (ratings s')))).
Proof.
  assert (Admin : forall user r,
            canDelete user r = String.eqb (User.role user) "admin").
  { intros user r. unfold canDelete, RatingModel.reviewer, toStringIs.
    apply orb_false_r. }
  split; [ | split].
  - intros user id s r Hr Hrole.
    rewrite (deleteRating_found _ _ _ _ Hr), Admin.
    destruct (String.eqb_spec (User.role user) "admin");
      [contradiction | reflexivity].
  - intros user id s r Hr Hrole Hval Hone.
    rewrite (deleteRating_found _ _ _ _ Hr), Admin, Hrole.
    cbn [String.eqb Ascii.eqb Bool.eqb].
    change (RatingModel.validate (Rating.set_isActive false r))
      with (RatingModel.validate r).
    now rewrite Hval, Hone.
  - intros user id s s' H. apply deleteRating_Ok in H.
    destruct H as (r & Hr & Hcan & Hone & ->). exists r.
    rewrite Admin in Hcan. apply String.eqb_eq in Hcan.
    destruct (ratingRetracted_frame r s) as (Er & _ & _).
    assert (Hfind : find (fun d => Nat.eqb (Rating._id d) id)
                      (ratings (ratingRetracted r s))
                    = Some (Rating.set_isActive false r)).
    { rewrite Er. apply find_replaceById with (d := r);
        [exact Hr | reflexivity | apply (find_pred _ _ _ Hr)]. }
    split; [exact Hr | ].
    split; [exact Hcan | ].
    split; [exact Er | ].
    split; [rewrite Er; apply map_id_replaceById | ].
    split; [reflexivity | ]. split; [reflexivity | ].
    split; [unfold RatingModel.findById, gets; now rewrite Hfind | ].
    split.
    { unfold RatingController.getRatingById, bind, RatingModel.findById,
        gets. rewrite Hfind. cbn [orThrow ret]. now rewrite Hcan. }
    split.
    + intros v vendor Hv Hf. unfold ratingRetracted.
      apply recomputeTargets_vendor; assumption.
    + intros w waiter Hw Hf. unfold ratingRetracted.
      apply recomputeTargets_waiter; assumption.
Qed.

Lemma C8_reviewer_cannot_retract_witness :
  RatingController.deleteRating alice 1 rated
  = (Throw RatingController.cannotDelete, rated)
  /\ RatingController.deleteRating mallory 1 rated
     = (Throw RatingController.cannotDelete, rated)
  /\ RatingController.deleteRating root 1 rated = (Ok tt, unrated)
  /\ RatingController.getRatingById root 1 unrated
     = (Ok (Rating.set_isActive false ratedDoc), unrated)
  /\ map Rating._id (ratings unrated) = map Rating._id (ratings rated).
Proof.
  destruct C8_reviewer_cannot_retract as (Hno & Hadmin & Hyes).
  split; [ | split; [ | split]].
  - apply (Hno alice 1 rated ratedDoc eq_refl); discriminate.
  - apply (Hno mallory 1 rated ratedDoc eq_refl); discriminate.
  - apply (Hadmin root 1 rated ratedDoc); reflexivity.
  - destruct (Hyes root 1 rated unrated eq_refl)
      as (r & Hr & _ & _ & Hids & _ & _ & _ & Hget & _).
    assert (E : Some r = Some ratedDoc) by (rewrite <- Hr; reflexivity).
    injection E as ->. split; assumption.
Defined.

(** ** C6: submitting again after a retraction *)

(** C6 as stated fails: alice rates her completed order with vera's vendor
    profile, the rating is retracted (by the administrator, the one actor
    whose deleteRating succeeds), and alice rates again; the second
    submission is refused with the 400 "already rated" error. *)
Lemma C6_counterexample :
  VendorController.rateVendor alice 10 5 (Some "Great food") served =
      (Ok ratedDoc, rated)
  /\ RatingController.deleteRating root 1 rated = (Ok tt, unrated)
  /\ Rating.isActive (Rating.set_isActive false ratedDoc) = false
  /\ ratings unrated = [Rating.set_isActive false ratedDoc]
  /\ VendorController.rateVendor alice 10 4 None unrated
     = (Throw VendorController.alreadyRatedVendor, unrated)
  /\ forall doc s', VendorController.rateVendor alice 10 4 None unrated <>
      (Ok doc, s').
Proof.
  assert (H : VendorController.rateVendor alice 10 4 None unrated
              = (Throw VendorController.alreadyRatedVendor, unrated))
    by (vm_compute; reflexivity).
  repeat split; try (vm_compute; reflexivity).
  intros doc s'. rewrite H. discriminate.
Qed.

Lemma retracted_still_stored user id s s' r :
  find (fun d => Nat.eqb (Rating._id d) id) (ratings s) = Some r ->
  RatingController.deleteRating user id s = (Ok tt, s') ->
  In (Rating.set_isActive false r) (ratings s')
  /\ orders s' = orders s /\ jobs s' = jobs s.
Proof.
  intros Hr H. apply deleteRating_Ok in H.
  destruct H as (r0 & Hr0 & _ & _ & ->).
  rewrite Hr in Hr0. injection Hr0 as <-.
  destruct (ratingRetracted_frame r s) as (-> & -> & ->).
  repeat split. apply In_replaceById with (d := r); [ | reflexivity].
  now apply find_some in Hr.
Qed.

(** C6 (amended). After a successful deleteRating of the rating a reviewer
    gave a vendor for an order, a new rateVendor of that reviewer for that
    vendor, whose eligibility query picks that order, throws the 400
    "already rated" error and changes nothing; and were the check passed,
    the unique index (reviewer, vendor, order) would refuse the insert with
    a duplicate key error, as the unique index (reviewer, waiter, job)
    refuses a new document for the triple of a retracted waiter rating. *)
Theorem C6_resubmission_refused :
  (forall actor user rid id rating review s s' r vendor order,
     find (fun d => Nat.eqb (Rating._id d) rid) (ratings s) = Some r ->
     RatingController.deleteRating actor rid s = (Ok tt, s') ->
     Rating.reviewer r = User._id user ->
     Rating.vendor r = Some id ->
     Rating.order r = Some (Order._id order) ->
     find (fun v => Nat.eqb (Vendor._id v) id) (vendors s') = Some vendor ->
     find (VendorController.completedOrderOf user id) (orders s') = Some order
         ->
     RatingModel.validate (vendorFields user id order rating review) = [] ->
     VendorController.rateVendor user id rating review s'
     = (Throw VendorController.alreadyRatedVendor, s')
     /\ RatingModel.create (vendorFields user id order rating review) s'
        = (Throw (DuplicateKey "reviewer"), s'))
  /\ (forall actor user rid id rating att review s s' r job,
        find (fun d => Nat.eqb (Rating._id d) rid) (ratings s) = Some r ->
        RatingController.deleteRating actor rid s = (Ok tt, s') ->
        Rating.reviewer r = User._id user ->
        Rating.waiter r = Some id ->
        Rating.job r = Some (Job._id job) ->
        RatingModel.validate (waiterFields user id job rating att review)
        = [] ->
        RatingModel.create (waiterFields user id job rating att review) s'
        = (Throw (DuplicateKey "reviewer"), s')).
Proof.
  split.
  - intros actor user rid id rating review s s' r vendor order
      Hr Hdel Hrev Hven Hord Hv Ho Hval.
    destruct (retracted_still_stored _ _ _ _ _ Hr Hdel) as (Hin & _ & _).
    split.
    + apply (rateVendor_spec user id rating review s' vendor order Hv Ho).
      exists (Rating.set_isActive false r). split; [exact Hin | ].
      unfold VendorController.vendorRatingOf, refIs.
      cbn [Rating.reviewer Rating.vendor Rating.order Rating.set_isActive].
      now rewrite Hrev, Hven, Hord, !Nat.eqb_refl.
    + rewrite create_eq, Hval.
      change (oneTarget (vendorFields user id order rating review)) with true.
      cbn iota.
      assert (D : RatingModel.duplicateKey
                    (vendorFields user id order rating review) (ratings s')
                  = true).
      { unfold RatingModel.duplicateKey. apply existsb_exists.
        exists (Rating.set_isActive false r). split; [exact Hin | ].
        unfold RatingModel.sameVendorKey, vendorFields.
        cbn [Rating.reviewer Rating.vendor Rating.order Rating.set_isActive].
        now rewrite Hrev, Hven, Hord, !Nat.eqb_refl. }
      now rewrite D.
  - intros actor user rid id rating att review s s' r job
      Hr Hdel Hrev Hwai Hjob Hval.
    destruct (retracted_still_stored _ _ _ _ _ Hr Hdel) as (Hin & _ & _).
    rewrite create_eq, Hval.
    change (oneTarget (waiterFields user id job rating att review))
      with true.
    cbn iota.
    assert (D : RatingModel.duplicateKey
                  (waiterFields user id job rating att review) (ratings s')
                = true).
    { unfold RatingModel.duplicateKey. apply existsb_exists.
      exists (Rating.set_isActive false r). split; [exact Hin | ].
      unfold RatingModel.sameVendorKey, RatingModel.sameWaiterKey,
        waiterFields.
      cbn [Rating.reviewer Rating.vendor Rating.order Rating.waiter
        Rating.job Rating.set_isActive].
      rewrite Hrev, Hwai, Hjob, !Nat.eqb_refl.
      destruct (Rating.vendor r), (Rating.order r); reflexivity. }
    now rewrite D.
Qed.

Lemma C6_resubmission_refused_witness :
  VendorController.rateVendor alice 10 4 None unrated
  = (Throw VendorController.alreadyRatedVendor, unrated)
  /\ RatingModel.create
       (vendorFields alice 10 (Order.set_isRated true completedOrder) 4 None)
       unrated
     = (Throw (DuplicateKey "reviewer"), unrated).
Proof.
  exact (proj1 C6_resubmission_refused root alice 1 10 4%Q None rated unrated
           ratedDoc (Vendor.set_rating (50 # 10) 1 veraVendor)
           (Order.set_isRated true completedOrder)
           eq_refl eq_refl eq_refl eq_refl eq_refl eq_refl eq_refl eq_refl).
Defined.

(** ** C2: what the aggregate ranges over *)

Lemma avgAcc_Some {A : Type} (g : A -> Q) (l : list A) :
  avgAcc (map (fun r => Some (g r)) l) =
  match l with
  | [] => None
  | _ :: _ => Some (mean (map g l))
  end.
Proof.
  unfold avgAcc, mean.
  assert (E : flat_map (fun x : option Q =>
                          match x with Some q => [q] | None => [] end)
                (map (fun r => Some (g r)) l) = map g l).
  { induction l as [ | a l IH]; [reflexivity | ].
    cbn [map flat_map app]. now rewrite IH. }
  rewrite E. destruct l; reflexivity.
Qed.

Lemma vendorDocs_reflag flags i l :
  vendorDocs i (reflag flags l) = reflag flags (vendorDocs i l).
Proof.
  unfold vendorDocs, reflag. induction l as [ | a l IH]; [reflexivity | ].
  cbn [map filter Rating.vendor Rating.set_isActive].
  destruct (refIs (Rating.vendor a) i); cbn [map]; now rewrite IH.
Qed.

Lemma waiterDocs_reflag flags i l :
  waiterDocs i (reflag flags l) = reflag flags (waiterDocs i l).
Proof.
  unfold waiterDocs, reflag. induction l as [ | a l IH]; [reflexivity | ].
  cbn [map filter Rating.waiter Rating.set_isActive].
  destruct (refIs (Rating.waiter a) i); cbn [map]; now rewrite IH.
Qed.

Lemma vendorRated_reflag flags this l :
  vendorRated this (reflag flags l) = vendorRated this l.
Proof.
  unfold vendorRated. rewrite vendorDocs_reflag.
  destruct (vendorDocs (Vendor._id this) l) as [ | d ds]; [reflexivity | ].
  unfold reflag.
  cbn [map List.length Rating.rating Rating.set_isActive].
  rewrite map_map, length_map. reflexivity.
Qed.

Lemma waiterRated_reflag flags this l :
  waiterRated this (reflag flags l) = waiterRated this l.
Proof.
  unfold waiterRated. rewrite waiterDocs_reflag.
  destruct (waiterDocs (Waiter._id this) l) as [ | d ds]; [reflexivity | ].
  unfold reflag.
  cbn [map List.length Rating.rating Rating.attitudeRating
    Rating.set_isActive].
  rewrite !map_map, length_map. reflexivity.
Qed.

(** Where every rating that refers to the vendor is active, the code and
    the specification agree. *)
Lemma vendorRated_when_active this l :
  (forall r, In r l -> refIs (Rating.vendor r) (Vendor._id this) = true ->
             Rating.isActive r = true) ->
  Vendor.averageRating (vendorRated this l)
  = specAverage
      (map Rating.rating (activeDocs Rating.vendor (Vendor._id this) l))
  /\ Vendor.totalRatings (vendorRated this l)
     = Z.of_nat
         (List.length (activeDocs Rating.vendor (Vendor._id this) l)).
Proof.
  intros Hact.
  assert (E : activeDocs Rating.vendor (Vendor._id this) l
              = vendorDocs (Vendor._id this) l).
  { unfold activeDocs, vendorDocs. apply filter_ext_in. intros r Hin.
    destruct (refIs (Rating.vendor r) (Vendor._id this)) eqn:Hr.
    - now rewrite (Hact r Hin Hr).
    - apply andb_false_r. }
  rewrite E. unfold vendorRated.
  destruct (vendorDocs (Vendor._id this) l) as [ | d ds];
    [split; reflexivity | ].
  rewrite (avgAcc_Some Rating.rating (d :: ds)). split; reflexivity.
Qed.

(** C2 (fails on the code). updateRating never looks at isActive: changing
    the flags of the stored ratings in any way leaves what it writes
    unchanged.  So after alice rated vera's vendor profile with 5 and
    retracted the rating, the profile still shows averageRating 5 and
    totalRatings 1 although no active rating refers to it, where the
    specification wants 0 and 0; likewise for a waiter whose only rating
    (3, attitude 4) is inactive. *)
Theorem C2_inactive_ratings_counted :
  (forall flags this l,
     vendorRated this (reflag flags l) = vendorRated this l)
  /\ (forall flags this l,
        waiterRated this (reflag flags l) = waiterRated this l)
  /\ (exists v,
        find (fun d => Nat.eqb (Vendor._id d) 10) (vendors unrated) = Some v
        /\ (Vendor.averageRating v == 5)%Q
        /\ Vendor.totalRatings v = 1%Z
        /\ activeDocs Rating.vendor 10 (ratings unrated) = []
        /\ specAverage
             (map Rating.rating (activeDocs Rating.vendor 10 (ratings unrated)))
           = 0%Q)
  /\ (exists w s',
        WaiterModel.updateRating waltWaiter retracted = (Ok w, s')
        /\ (Waiter.averageRating w == 3)%Q
        /\ (Waiter.attitudeRating w == 4)%Q
        /\ Waiter.totalRatings w = 1%Z
        /\ activeDocs Rating.waiter 20 (ratings retracted) = []).
Proof.
  split; [exact vendorRated_reflag | ].
  split; [exact waiterRated_reflag | ].
  split.
  - eexists. split; [vm_compute; reflexivity | ].
    repeat split; reflexivity.
  - do 2 eexists. split; [apply Waiter_updateRating_eq | ].
    repeat split; reflexivity.
Qed.

(** ** C9: one target per rating *)

Lemma Forall_replaceById {A : Type} (P : A -> Prop) (id_of : A -> ObjectId)
    (d : A) (l : list A) :
  Forall P l -> P d -> Forall P (replaceById id_of d l).
Proof.
  intros Hl Hd. unfold replaceById. apply Forall_map.
  apply Forall_impl with (P := P); [ | exact Hl].
  intros a Ha. now destruct (Nat.eqb (id_of a) (id_of d)).
Qed.

Lemma save_preserves r s :
  allTargeted s -> wellTargeted r = true ->
  allTargeted (snd (RatingModel.save r s)).
Proof.
  intros Hs Hr. rewrite save_eq.
  destruct (RatingModel.validate r); [ | exact Hs].
  destruct (oneTarget r); [ | exact Hs].
  cbn [snd]. unfold allTargeted.
  destruct (recomputeTargets_frame r
              (set_ratings (replaceById Rating._id r (ratings s)) s))
    as (-> & _ & _).
  cbn [ratings set_ratings]. now apply Forall_replaceById.
Qed.

Lemma find_allTargeted p s r :
  allTargeted s -> find p (ratings s) = Some r -> wellTargeted r = true.
Proof.
  intros Hs Hf. apply find_some in Hf. destruct Hf as [Hin _].
  unfold allTargeted in Hs. rewrite Forall_forall in Hs. now apply Hs.
Qed.

Lemma rateVendor_preserves user id rating review s :
  allTargeted s -> allTargeted
      (snd (VendorController.rateVendor user id rating review s)).
Proof.
  intros Hs.
  destruct (find (fun v => Nat.eqb (Vendor._id v) id) (vendors s))
    as [vendor | ] eqn:Hv.
  2:{ unfold VendorController.rateVendor, bind, Vendor_findById, gets. now
      rewrite Hv. }
  destruct (find (VendorController.completedOrderOf user id) (orders s))
    as [order | ] eqn:Ho.
  2:{ unfold VendorController.rateVendor, bind, Vendor_findById,
      Order_findOne, gets.
      rewrite Hv. cbn [orThrow ret]. now rewrite Ho. }
  rewrite (rateVendor_found _ _ _ _ _ _ _ Hv Ho).
  destruct (RatingModel.isSome _); [exact Hs | ].
  destruct (RatingModel.validate _); [ | exact Hs].
  cbn zeta. cbn [snd]. unfold allTargeted.
  destruct (vendorRatingStored_parts
              (Rating.set_id (freshId Rating._id (ratings s))
                 (vendorFields user id order rating review))
              order s id vendor Hv eq_refl eq_refl) as (-> & _).
  apply Forall_app. split; [exact Hs | ]. now constructor.
Qed.

Lemma rateWaiter_preserves user id rating att review s :
  allTargeted s ->
  allTargeted (snd (WaiterController.rateWaiter user id rating att review s)).
Proof. now rewrite rateWaiter_frame. Qed.

Lemma deleteRating_preserves user id s :
  allTargeted s -> allTargeted (snd (RatingController.deleteRating user id s)).
Proof.
  intros Hs.
  destruct (find (fun d => Nat.eqb (Rating._id d) id) (ratings s))
    as [r | ] eqn:Hr.
  2:{ unfold RatingController.deleteRating, bind, RatingModel.findById, gets.
      now rewrite Hr. }
  rewrite (deleteRating_found _ _ _ _ Hr).
  destruct (canDelete user r); [ | exact Hs].
  destruct (RatingModel.validate _); [ | exact Hs].
  destruct (oneTarget r); [ | exact Hs].
  cbn [snd]. unfold allTargeted.
  destruct (ratingRetracted_frame r s) as (-> & _).
  apply Forall_replaceById; [exact Hs | ].
  apply (find_allTargeted _ _ _ Hs Hr).
Qed.

Lemma reportRating_preserves id reason s :
  allTargeted s -> allTargeted
      (snd (RatingController.reportRating id reason s)).
Proof.
  intros Hs.
  unfold RatingController.reportRating, bind, RatingModel.findById, gets.
  destruct (find (fun d => Nat.eqb (Rating._id d) id) (ratings s))
    as [r | ] eqn:Hr; cbn [orThrow ret throw]; [ | exact Hs].
  destruct (Rating.isReported r); [exact Hs | ].
  apply save_preserves; [exact Hs | ].
  apply (find_allTargeted _ _ _ Hs Hr).
Qed.

Lemma snd_bind_ret {A B : Type} (m : M A) (b : B) (s : Store) :
  snd (bind m (fun _ => ret b) s) = snd (m s).
Proof. unfold bind, ret. destruct (m s) as [[a | e] s']; reflexivity. Qed.

Lemma respondToRating_preserves user id message now s :
  allTargeted s ->
  allTargeted
    (snd (RatingController.respondToRating user id message now s)).
Proof.
  intros Hs.
  unfold RatingController.respondToRating.
  unfold bind at 1. unfold RatingModel.findById, gets.
  destruct (find (fun d => Nat.eqb (Rating._id d) id) (ratings s))
    as [r | ] eqn:Hr.
  2:{ exact Hs. }
  unfold bind at 1. cbn [orThrow ret].
  assert (Hsave : allTargeted
                    (snd (RatingModel.save
                            (Rating.set_response message now r) s))).
  { apply save_preserves; [exact Hs | ].
    apply (find_allTargeted _ _ _ Hs Hr). }
  assert (Htail : forall canRespond : bool,
            allTargeted
              (snd ((if negb canRespond then
                       throw (ErrorResponse
                                "Not authorized to respond to this rating"
                                403)
                     else if truthy (option_map fst (Rating.response r)) then
                       throw (ErrorResponse
                                "You have already responded to this rating"
                                400)
                     else
                       RatingModel.save (Rating.set_response message now r)
                       ;;; ret (Rating.set_response message now r)) s))).
  { intros [ | ]; cbn [negb]; [ | exact Hs].
    destruct (truthy _); [exact Hs | ].
    now rewrite snd_bind_ret. }
  unfold bind at 1.
  destruct (Rating.vendor r) as [v | ];
    [destruct (String.eqb (User.role user) "vendor") | ];
    unfold bind at 1; unfold Vendor_findOne, gets; cbn [ret];
    (unfold bind at 1;
     destruct (Rating.waiter r) as [w | ];
     [destruct (String.eqb (User.role user) "waiter") | ];
     try (unfold bind at 1); unfold Waiter_findOne, gets; cbn [ret];
     apply Htail).
Qed.

Lemma getRatingById_frame user id s :
  snd (RatingController.getRatingById user id s) = s.
Proof.
  unfold RatingController.getRatingById, bind, RatingModel.findById, gets.
  destruct (find _ (ratings s)) as [r | ]; cbn [orThrow ret throw];
    [ | reflexivity].
  destruct (negb _); reflexivity.
Qed.

Lemma updateOrderStatus_ratings user orderId status s :
  ratings (snd (VendorController.updateOrderStatus user orderId status s))
  = ratings s.
Proof.
  destruct (VendorController.updateOrderStatus user orderId status s)
    as [[o | e] s'] eqn:H.
  - apply updateOrderStatus_Ok in H.
    destruct H as (vendor & order & allowed & _ & _ & _ & _ & _ & ->).
    unfold orderUpdated. destruct (String.eqb status "completed"); reflexivity.
  - destruct (vendorOf user s) as [vendor | ] eqn:Hv.
    2:{ unfold VendorController.updateOrderStatus, bind, Vendor_findOne, gets
          in H. unfold vendorOf in Hv. rewrite Hv in H.
        now injection H as _ <-. }
    destruct (orderOf vendor orderId s) as [order | ] eqn:Ho.
    2:{ unfold VendorController.updateOrderStatus, bind, Vendor_findOne,
          Order_findOne, gets in H. unfold vendorOf in Hv.
        unfold orderOf in Ho. rewrite Hv in H. cbn [orThrow ret] in H.
        rewrite Ho in H. now injection H as _ <-. }
    destruct (lookup (Order.status order) VendorController.validTransitions)
      as [allowed | ] eqn:Hl.
    2:{ unfold VendorController.updateOrderStatus, bind, Vendor_findOne,
          Order_findOne, gets in H. unfold vendorOf in Hv.
        unfold orderOf in Ho. rewrite Hv in H. cbn [orThrow ret] in H.
        rewrite Ho in H. cbn [orThrow ret] in H. rewrite Hl in H.
        now injection H as _ <-. }
    rewrite (updateOrderStatus_found _ _ _ _ _ _ _ Hv Ho Hl) in H.
    destruct (includes allowed status); [discriminate | ].
    now injection H as _ <-.
Qed.

Lemma updateJobStatus_ratings user jobId status reason now s :
  ratings (snd (WaiterController.updateJobStatus user jobId status reason
                  now s))
  = ratings s.
Proof.
  destruct (WaiterController.updateJobStatus user jobId status reason now s)
    as [[j | e] s'] eqn:H.
  - apply updateJobStatus_Ok in H.
    destruct H as (waiter & job & allowed & _ & _ & _ & _ & _ & ->).
    unfold jobUpdated.
    destruct (String.eqb status "completed" || String.eqb status "accepted");
      reflexivity.
  - destruct (waiterOf user s) as [waiter | ] eqn:Hw.
    2:{ unfold WaiterController.updateJobStatus, bind, Waiter_findOne, gets
          in H. unfold waiterOf in Hw. rewrite Hw in H.
        now injection H as _ <-. }
    destruct (jobOf waiter jobId s) as [job | ] eqn:Hj.
    2:{ unfold WaiterController.updateJobStatus, bind, Waiter_findOne,
          Job_findOne, gets in H. unfold waiterOf in Hw.
        unfold jobOf in Hj. rewrite Hw in H. cbn [orThrow ret] in H.
        rewrite Hj in H. now injection H as _ <-. }
    destruct (lookup (Job.status job) WaiterController.validTransitions)
      as [allowed | ] eqn:Hl.
    2:{ unfold WaiterController.updateJobStatus, bind, Waiter_findOne,
          Job_findOne, gets in H. unfold waiterOf in Hw.
        unfold jobOf in Hj. rewrite Hw in H. cbn [orThrow ret] in H.
        rewrite Hj in H. cbn [orThrow ret] in H. rewrite Hl in H.
        now injection H as _ <-. }
    rewrite (updateJobStatus_found _ _ _ _ _ _ _ _ _ Hw Hj Hl) in H.
    destruct (includes allowed status); [discriminate | ].
    now injection H as _ <-.
Qed.

Lemma handle_preserves q s : allTargeted s -> allTargeted (handle q s).
Proof.
  intros Hs. destruct q; cbn [handle].
  - now apply rateVendor_preserves.
  - now apply rateWaiter_preserves.
  - now apply deleteRating_preserves.
  - now apply reportRating_preserves.
  - now apply respondToRating_preserves.
  - now rewrite getRatingById_frame.
  - unfold allTargeted. now rewrite updateOrderStatus_ratings.
  - unfold allTargeted. now rewrite updateJobStatus_ratings.
Qed.

(** C9. In every store the operations can produce, every rating has exactly
    one of vendor and waiter set, a vendor rating carries an order and no
    job, a waiter rating a job and no order; each request keeps that
    property of the stored ratings; and Rating.create and save refuse,
    with an error and without a write, a document that has both targets or
    none. *)
Theorem C9_one_target :
  (forall s, reachable s -> allTargeted s)
  /\ (forall q s, allTargeted s -> allTargeted (handle q s))
  /\ (forall fields s,
        oneTarget fields = false ->
        exists e, RatingModel.create fields s = (Throw e, s))
  /\ (forall r s,
        oneTarget r = false ->
        exists e, RatingModel.save r s = (Throw e, s))
  /\ (forall r, wellTargeted r = true -> oneTarget r = true).
Proof.
  split; [ | split; [ | split; [ | split]]].
  - intros s H. induction H as [s H | q s _ IH | s s' _ IH E].
    + unfold allTargeted. rewrite H. constructor.
    + now apply handle_preserves.
    + unfold allTargeted in *. rewrite Forall_forall in *.
      intros r Hr. apply IH, E, Hr.
  - exact handle_preserves.
  - intros fields s H. rewrite create_eq, H.
    destruct (RatingModel.validate fields); eexists; reflexivity.
  - intros r s H. rewrite save_eq, H.
    destruct (RatingModel.validate r); eexists; reflexivity.
  - intros r. unfold wellTargeted, oneTarget.
    destruct (Rating.vendor r), (Rating.waiter r), (Rating.order r),
      (Rating.job r); cbn; congruence.
Qed.

Lemma C9_one_target_witness :
  allTargeted unrated
  /\ allTargeted (handle (ReportRating 1 None) unrated)
  /\ (exists e,
        RatingModel.create
          (Rating.mk 0 1 (Some 10) (Some 20) (Some 100) None 5 None None true
             None false None) served = (Throw e, served))
  /\ (exists e,
        RatingModel.create
          (Rating.mk 0 1 None None (Some 100) None 5 None None true
             None false None) served = (Throw e, served)).
Proof.
  destruct C9_one_target as (Hreach & Hstep & Hcreate & _ & _).
  assert (R : reachable unrated).
  { apply (reach_request (DeleteRating root 1)).
    apply (reach_request (RateVendor alice 10 5 (Some "Great food"))).
    apply reach_init. reflexivity. }
  split; [exact (Hreach unrated R) | ].
  split; [exact (Hstep (ReportRating 1 None) unrated (Hreach unrated R)) | ].
  split; apply Hcreate; reflexivity.
Defined.

(** * Further properties *)

(** ** reportRating, respondToRating, getRatingById *)

Lemma save_Ok r s :
  RatingModel.validate r = [] -> oneTarget r = true ->
  RatingModel.save r s = (Ok tt, ratingSaved r s).
Proof. intros Hv Ho. now rewrite save_eq, Hv, Ho. Qed.

Lemma ratingSaved_find r0 r s id :
  find (fun d => Nat.eqb (Rating._id d) id) (ratings s) = Some r0 ->
  Rating._id r = Rating._id r0 ->
  find (fun d => Nat.eqb (Rating._id d) id) (ratings (ratingSaved r s))
  = Some r.
Proof.
  intros Hf Hid. unfold ratingSaved.
  destruct (recomputeTargets_frame r
              (set_ratings (replaceById Rating._id r (ratings s)) s))
    as (-> & _ & _).
  cbn [ratings set_ratings].
  apply find_replaceById with (d := r0); [exact Hf | exact Hid | ].
  cbn beta. rewrite Hid. apply (find_pred _ _ _ Hf).
Qed.

Lemma reportRating_found id reason s r :
  find (fun d => Nat.eqb (Rating._id d) id) (ratings s) = Some r ->
  RatingController.reportRating id reason s =
  if Rating.isReported r then
    (Throw (ErrorResponse "Rating is already reported" 400), s)
  else
    RatingModel.save
      (Rating.set_report (orElse reason "Inappropriate content") r) s.
Proof.
  intros Hr.
  unfold RatingController.reportRating, bind, RatingModel.findById, gets.
  rewrite Hr. cbn [orThrow ret]. destruct (Rating.isReported r); reflexivity.
Qed.

(** X1. A stored, valid rating that is not yet reported: reportRating
    succeeds, the rating is then found with isReported set and the reason
    given (or "Inappropriate content" when the reason is missing or empty),
    and every later report of it throws the 400 "Rating is already reported"
    error and leaves the store, hence the first reason, as it is. *)
Theorem reportRating_once :
  forall id reason s r,
    find (fun d => Nat.eqb (Rating._id d) id) (ratings s) = Some r ->
    Rating.isReported r = false ->
    RatingModel.validate r = [] ->
    oneTarget r = true ->
    exists s',
      RatingController.reportRating id reason s = (Ok tt, s')
      /\ find (fun d => Nat.eqb (Rating._id d) id) (ratings s')
         = Some (Rating.set_report (orElse reason "Inappropriate content") r)
      /\ forall reason',
           RatingController.reportRating id reason' s'
           = (Throw (ErrorResponse "Rating is already reported" 400), s').
Proof.
  intros id reason s r Hr Hrep Hval Hone.
  set (r' := Rating.set_report (orElse reason "Inappropriate content") r).
  exists (ratingSaved r' s).
  assert (Hf : find (fun d => Nat.eqb (Rating._id d) id)
                 (ratings (ratingSaved r' s)) = Some r')
    by (apply ratingSaved_find with (r0 := r); [exact Hr | reflexivity]).
  split; [ | split].
  - rewrite (reportRating_found _ _ _ _ Hr), Hrep.
    apply save_Ok; assumption.
  - exact Hf.
  - intros reason'. now rewrite (reportRating_found _ _ _ _ Hf).
Qed.

Lemma reportRating_once_witness :
  exists s',
    RatingController.reportRating 1 None rated = (Ok tt, s')
    /\ find (fun d => Nat.eqb (Rating._id d) 1) (ratings s')
       = Some (Rating.set_report "Inappropriate content" ratedDoc)
    /\ forall reason',
         RatingController.reportRating 1 reason' s'
         = (Throw (ErrorResponse "Rating is already reported" 400), s').
Proof.
  exact (reportRating_once 1 None rated ratedDoc eq_refl eq_refl eq_refl
           eq_refl).
Defined.

Lemma respondToRating_found user id message now s r :
  find (fun d => Nat.eqb (Rating._id d) id) (ratings s) = Some r ->
  RatingController.respondToRating user id message now s =
  if negb (canRespond user r s) then
    (Throw (ErrorResponse "Not authorized to respond to this rating" 403), s)
  else if truthy (option_map fst (Rating.response r)) then
    (Throw (ErrorResponse "You have already responded to this rating" 400), s)
  else
    match RatingModel.save (Rating.set_response message now r) s with
    | (Ok _, s') => (Ok (Rating.set_response message now r), s')
    | (Throw e, s') => (Throw e, s')
    end.
Proof.
  intros Hr.
  unfold RatingController.respondToRating.
  unfold bind at 1. unfold RatingModel.findById, gets. rewrite Hr.
  unfold bind at 1. cbn [orThrow ret].
  assert (Htail : forall b : bool,
            (if negb b then
               throw (ErrorResponse
                        "Not authorized to respond to this rating" 403)
             else if truthy (option_map fst (Rating.response r)) then
               throw (ErrorResponse
                        "You have already responded to this rating" 400)
             else
               RatingModel.save (Rating.set_response message now r)
               ;;; ret (Rating.set_response message now r)) s
            = if negb b then
                (Throw (ErrorResponse
                          "Not authorized to respond to this rating" 403), s)
              else if truthy (option_map fst (Rating.response r)) then
                (Throw (ErrorResponse
                          "You have already responded to this rating" 400),
                 s)
              else
                match RatingModel.save (Rating.set_response message now r) s
                with
                | (Ok _, s') => (Ok (Rating.set_response message now r), s')
                | (Throw e, s') => (Throw e, s')
                end).
  { intros [ | ]; cbn [negb]; [ | reflexivity].
    destruct (truthy _); [reflexivity | ].
    unfold bind, ret. destruct (RatingModel.save _ s) as [[[] | e] s'];
      reflexivity. }
  unfold canRespond. unfold bind at 1.
  destruct (Rating.vendor r) as [v | ];
    [destruct (String.eqb (User.role user) "vendor") | ];
    unfold bind at 1; unfold Vendor_findOne, gets; cbn [ret andb];
    (unfold bind at 1;
     destruct (Rating.waiter r) as [w | ];
     [destruct (String.eqb (User.role user) "waiter") | ];
     try (unfold bind at 1); unfold Waiter_findOne, gets; cbn [ret];
     apply Htail).
Qed.

Lemma respondToRating_Ok user id message now s r' s' :
  RatingController.respondToRating user id message now s = (Ok r', s') ->
  exists r,
    find (fun d => Nat.eqb (Rating._id d) id) (ratings s) = Some r
    /\ canRespond user r s = true
    /\ truthy (option_map fst (Rating.response r)) = false
    /\ r' = Rating.set_response message now r
    /\ s' = ratingSaved r' s.
Proof.
  intros H.
  destruct (find (fun d => Nat.eqb (Rating._id d) id) (ratings s))
    as [r | ] eqn:Hr.
  2:{ unfold RatingController.respondToRating in H. unfold bind at 1 in H.
      unfold RatingModel.findById, gets in H. rewrite Hr in H.
      unfold bind at 1 in H. cbn [orThrow throw] in H. discriminate. }
  rewrite (respondToRating_found _ _ _ _ _ _ Hr) in H. exists r.
  destruct (canRespond user r s); [ | discriminate]. cbn [negb] in H.
  destruct (truthy _); [discriminate | ].
  rewrite save_eq in H.
  destruct (RatingModel.validate _); [ | discriminate].
  change (oneTarget (Rating.set_response message now r)) with (oneTarget r)
    in H.
  destruct (oneTarget r); [ | discriminate].
  injection H as <- <-. repeat split.
Qed.

Lemma canRespond_party user r s :
  canRespond user r s = true ->
  (exists v vendor,
     Rating.vendor r = Some v /\ User.role user = "vendor"
     /\ In vendor (vendors s) /\ Vendor._id vendor = v
     /\ Vendor.user vendor = User._id user)
  \/ (exists w waiter,
        Rating.waiter r = Some w /\ User.role user = "waiter"
        /\ In waiter (waiters s) /\ Waiter._id waiter = w
        /\ Waiter.user waiter = User._id user).
Proof.
  unfold canRespond. intros H.
  assert (V : match Rating.vendor r with
              | Some v =>
                  String.eqb (User.role user) "vendor"
                  && RatingModel.isSome
                       (find (fun d => Nat.eqb (Vendor._id d) v
                                       && Nat.eqb (Vendor.user d)
                                            (User._id user)) (vendors s))
              | None => false
              end = true ->
              exists v vendor,
                Rating.vendor r = Some v /\ User.role user = "vendor"
                /\ In vendor (vendors s) /\ Vendor._id vendor = v
                /\ Vendor.user vendor = User._id user).
  { destruct (Rating.vendor r) as [v | ]; [ | discriminate].
    rewrite andb_true_iff, String.eqb_eq, isSome_find.
    intros [Hrole [vendor [Hin Hp]]].
    rewrite andb_true_iff, !Nat.eqb_eq in Hp. exists v, vendor. tauto. }
  destruct (Rating.waiter r) as [w | ]; [ | left; auto].
  destruct (String.eqb_spec (User.role user) "waiter") as [Hrole | _];
    [ | left; auto].
  right. apply isSome_find in H. destruct H as [waiter [Hin Hp]].
  rewrite andb_true_iff, !Nat.eqb_eq in Hp. exists w, waiter. tauto.
Qed.

(** X2. respondToRating succeeds only for the rated party: the actor has
    the role vendor and is the user of the vendor profile the rating refers
    to, or has the role waiter and is the user of the waiter profile it
    refers to.  An actor with any other role, an administrator or the
    reviewer included, gets the 403 "Not authorized to respond to this
    rating" error on every stored rating, and nothing is written. *)
Theorem respondToRating_only_rated_party :
  (forall user id message now s r' s',
     RatingController.respondToRating user id message now s = (Ok r', s') ->
     exists r,
       find (fun d => Nat.eqb (Rating._id d) id) (ratings s) = Some r
       /\ ((exists v vendor,
              Rating.vendor r = Some v /\ User.role user = "vendor"
              /\ In vendor (vendors s) /\ Vendor._id vendor = v
              /\ Vendor.user vendor = User._id user)
           \/ (exists w waiter,
                 Rating.waiter r = Some w /\ User.role user = "waiter"
                 /\ In waiter (waiters s) /\ Waiter._id waiter = w
                 /\ Waiter.user waiter = User._id user)))
  /\ (forall user id message now s r,
        find (fun d => Nat.eqb (Rating._id d) id) (ratings s) = Some r ->
        User.role user <> "vendor" ->
        User.role user <> "waiter" ->
        RatingController.respondToRating user id message now s
        = (Throw (ErrorResponse "Not authorized to respond to this rating"
                    403), s)).
Proof.
  split.
  - intros user id message now s r' s' H.
    apply respondToRating_Ok in H.
    destruct H as (r & Hr & Hcan & _). exists r. split; [exact Hr | ].
    now apply canRespond_party.
  - intros user id message now s r Hr Hv Hw.
    rewrite (respondToRating_found _ _ _ _ _ _ Hr).
    destruct (canRespond user r s) eqn:Hcan; [ | reflexivity].
    apply canRespond_party in Hcan.
    destruct Hcan as [(v & vendor & _ & Hrole & _)
                     | (w & waiter & _ & Hrole & _)]; contradiction.
Qed.

Lemma respondToRating_only_rated_party_witness :
  RatingController.respondToRating root 1 "Thank you" 5000 rated
  = (Throw (ErrorResponse "Not authorized to respond to this rating" 403),
     rated)
  /\ RatingController.respondToRating alice 1 "Thank you" 5000 rated
     = (Throw (ErrorResponse "Not authorized to respond to this rating" 403),
        rated)
  /\ exists r,
       find (fun d => Nat.eqb (Rating._id d) 1) (ratings rated) = Some r
       /\ ((exists v vendor,
              Rating.vendor r = Some v /\ User.role vera = "vendor"
              /\ In vendor (vendors rated) /\ Vendor._id vendor = v
              /\ Vendor.user vendor = User._id vera)
           \/ (exists w waiter,
                 Rating.waiter r = Some w /\ User.role vera = "waiter"
                 /\ In waiter (waiters rated) /\ Waiter._id waiter = w
                 /\ Waiter.user waiter = User._id vera)).
Proof.
  destruct respondToRating_only_rated_party as [Hok Hno].
  split; [ | split].
  - apply (Hno root 1 "Thank you" 5000%Z rated ratedDoc eq_refl);
      discriminate.
  - apply (Hno alice 1 "Thank you" 5000%Z rated ratedDoc eq_refl);
      discriminate.
  - exact (Hok vera 1 "Thank you" 5000%Z rated
             (Rating.set_response "Thank you" 5000 ratedDoc)
             (snd (RatingController.respondToRating vera 1 "Thank you" 5000
                     rated))
             eq_refl).
Defined.

(** X3. A response with a message that is not empty is final: after a
    successful respondToRating the rating is found with that message and
    date, and every later respondToRating on it, by whomever and with
    whatever message, throws and leaves the store as it is; the rated
    party gets the 400 "You have already responded to this rating"
    error. *)
Theorem respondToRating_write_once :
  forall user id message now s r' s',
    message <> "" ->
    RatingController.respondToRating user id message now s = (Ok r', s') ->
    find (fun d => Nat.eqb (Rating._id d) id) (ratings s') = Some r'
    /\ Rating.response r' = Some (message, now)
    /\ forall user2 message2 now2,
         (canRespond user2 r' s' = false ->
          RatingController.respondToRating user2 id message2 now2 s'
          = (Throw (ErrorResponse "Not authorized to respond to this rating"
                      403), s'))
         /\ (canRespond user2 r' s' = true ->
             RatingController.respondToRating user2 id message2 now2 s'
             = (Throw (ErrorResponse
                         "You have already responded to this rating" 400),
                s')).
Proof.
  intros user id message now s r' s' Hne H.
  apply respondToRating_Ok in H.
  destruct H as (r & Hr & _ & _ & -> & ->).
  assert (Hf : find (fun d => Nat.eqb (Rating._id d) id)
                 (ratings (ratingSaved (Rating.set_response message now r) s))
               = Some (Rating.set_response message now r))
    by (apply ratingSaved_find with (r0 := r); [exact Hr | reflexivity]).
  split; [exact Hf | ]. split; [reflexivity | ].
  intros user2 message2 now2.
  rewrite (respondToRating_found _ _ _ _ _ _ Hf).
  split; intros ->; cbn [negb]; [reflexivity | ].
  cbn [Rating.response Rating.set_response option_map fst truthy].
  destruct message; [contradiction | reflexivity].
Qed.

Lemma respondToRating_write_once_witness :
  let s' := snd (RatingController.respondToRating vera 1 "Thank you" 5000
                   rated) in
  find (fun d => Nat.eqb (Rating._id d) 1) (ratings s')
  = Some (Rating.set_response "Thank you" 5000 ratedDoc)
  /\ RatingController.respondToRating vera 1 "Thanks again" 6000 s'
     = (Throw (ErrorResponse "You have already responded to this rating" 400),
        s').
Proof.
  cbn zeta.
  destruct (respondToRating_write_once vera 1 "Thank you" 5000%Z rated
              (Rating.set_response "Thank you" 5000 ratedDoc)
              (snd (RatingController.respondToRating vera 1 "Thank you" 5000
                      rated)))
    as (Hf & _ & Hlater); [discriminate | reflexivity | ].
  split; [exact Hf | ].
  apply (Hlater vera "Thanks again" 6000%Z). reflexivity.
Defined.

Lemma replaceById_absent {A : Type} (id_of : A -> ObjectId) (d : A)
    (l : list A) :
  ~ In (id_of d) (map id_of l) -> replaceById id_of d l = l.
Proof.
  intros Hn. unfold replaceById. rewrite <- (map_id l) at 2.
  apply map_ext_in. intros x Hx.
  destruct (Nat.eqb_spec (id_of x) (id_of d)) as [E | E]; [ | reflexivity].
  exfalso. apply Hn. rewrite <- E. now apply in_map.
Qed.

Lemma find_absent {A : Type} (id_of : A -> ObjectId) (p : A -> bool)
    (v : ObjectId) (l : list A) :
  (forall x, p x = true -> id_of x = v) ->
  ~ In v (map id_of l) -> find p l = None.
Proof.
  intros Hp Hn. destruct (find p l) as [x | ] eqn:Hf; [ | reflexivity].
  apply find_some in Hf. destruct Hf as [Hin Hx]. exfalso. apply Hn.
  rewrite <- (Hp x Hx). now apply in_map.
Qed.

(** With identifiers that are unique, replacing the document that carries
    [v] by one with the same user does not change whether [u] owns [v]. *)
Lemma owner_replaceById {A : Type} (id_of user_of : A -> ObjectId)
    (v u : ObjectId) (d d' : A) (l : list A) :
  NoDup (map id_of l) ->
  find (fun x => Nat.eqb (id_of x) v) l = Some d ->
  id_of d' = v ->
  user_of d' = user_of d ->
  RatingModel.isSome
    (find (fun x => Nat.eqb (id_of x) v && Nat.eqb (user_of x) u)
       (replaceById id_of d' l))
  = RatingModel.isSome
      (find (fun x => Nat.eqb (id_of x) v && Nat.eqb (user_of x) u) l).
Proof.
  intros Hnd Hf Hid Hu. subst v.
  induction l as [ | x l IH]; [discriminate | ].
  cbn [map] in Hnd. apply NoDup_cons_iff in Hnd. destruct Hnd as [Hx Hnd].
  cbn [replaceById map find] in *.
  destruct (Nat.eqb_spec (id_of x) (id_of d')) as [E | E].
  - injection Hf as <-. rewrite Nat.eqb_refl, Hu. cbn [andb].
    destruct (Nat.eqb (user_of x) u); [reflexivity | ].
    rewrite E in Hx.
    fold (replaceById id_of d' l).
    now rewrite (replaceById_absent id_of d' l Hx).
  - rewrite (proj2 (Nat.eqb_neq _ _) E). cbn [andb].
    apply IH; [exact Hnd | exact Hf].
Qed.

Lemma vendorRated_user this l :
  Vendor.user (vendorRated this l) = Vendor.user this.
Proof. unfold vendorRated. destruct (vendorDocs _ l); reflexivity. Qed.

Lemma waiterRated_user this l :
  Waiter.user (waiterRated this l) = Waiter.user this.
Proof. unfold waiterRated. destruct (waiterDocs _ l); reflexivity. Qed.

Lemma canRespond_ratingSaved user r1 r s :
  NoDup (map Vendor._id (vendors s)) ->
  NoDup (map Waiter._id (waiters s)) ->
  Rating.vendor r1 = Rating.vendor r ->
  Rating.waiter r1 = Rating.waiter r ->
  canRespond user r1 (ratingSaved r1 s) = canRespond user r s.
Proof.
  intros Nv Nw Ev Ew. unfold canRespond. rewrite Ev, Ew.
  assert (V : forall v,
            Rating.vendor r = Some v ->
            RatingModel.isSome
              (find (fun d => Nat.eqb (Vendor._id d) v
                              && Nat.eqb (Vendor.user d) (User._id user))
                 (vendors (ratingSaved r1 s)))
            = RatingModel.isSome
                (find (fun d => Nat.eqb (Vendor._id d) v
                                && Nat.eqb (Vendor.user d) (User._id user))
                   (vendors s))).
  { intros v Hv. unfold ratingSaved, recomputeTargets.
    destruct (recomputeWaiter_frame r1
                (recomputeVendor r1
                   (set_ratings (replaceById Rating._id r1 (ratings s)) s)))
      as [_ ->].
    unfold recomputeVendor. rewrite Ev, Hv. cbn [vendors set_ratings].
    destruct (find (fun d => Nat.eqb (Vendor._id d) v) (vendors s))
      as [vendor | ] eqn:Hf; [ | reflexivity].
    cbn [vendors set_vendors].
    apply owner_replaceById with (d := vendor); auto.
    - rewrite vendorRated_id. apply find_pred in Hf. now apply Nat.eqb_eq.
    - apply vendorRated_user. }
  assert (W : forall w,
            Rating.waiter r = Some w ->
            RatingModel.isSome
              (find (fun d => Nat.eqb (Waiter._id d) w
                              && Nat.eqb (Waiter.user d) (User._id user))
                 (waiters (ratingSaved r1 s)))
            = RatingModel.isSome
                (find (fun d => Nat.eqb (Waiter._id d) w
                                && Nat.eqb (Waiter.user d) (User._id user))
                   (waiters s))).
  { intros w Hw. unfold ratingSaved, recomputeTargets.
    destruct (recomputeVendor_frame r1
                (set_ratings (replaceById Rating._id r1 (ratings s)) s))
      as [Er Ewa].
    unfold recomputeWaiter. rewrite Ew, Hw, Ewa. cbn [waiters set_ratings].
    destruct (find (fun d => Nat.eqb (Waiter._id d) w) (waiters s))
      as [waiter | ] eqn:Hf; [ | now rewrite ?Ewa].
    cbn [waiters set_waiters]. rewrite ?Ewa. cbn [waiters set_ratings].
    apply owner_replaceById with (d := waiter); auto.
    - rewrite waiterRated_id. apply find_pred in Hf. now apply Nat.eqb_eq.
    - apply waiterRated_user. }
  destruct (Rating.vendor r) as [v | ], (Rating.waiter r) as [w | ];
    rewrite ?(V _ eq_refl), ?(W _ eq_refl); reflexivity.
Qed.

(** X4. A response whose message is the empty string does not count as a
    response: with unique profile identifiers, after the rated party
    responded to a valid rating with an empty message, its next
    respondToRating succeeds again and replaces message and date. *)
Theorem respondToRating_empty_message_not_final :
  forall user id now s r message2 now2,
    NoDup (map Vendor._id (vendors s)) ->
    NoDup (map Waiter._id (waiters s)) ->
    find (fun d => Nat.eqb (Rating._id d) id) (ratings s) = Some r ->
    canRespond user r s = true ->
    truthy (option_map fst (Rating.response r)) = false ->
    RatingModel.validate r = [] ->
    oneTarget r = true ->
    exists s1 s2,
      RatingController.respondToRating user id "" now s
      = (Ok (Rating.set_response "" now r), s1)
      /\ RatingController.respondToRating user id message2 now2 s1
         = (Ok (Rating.set_response message2 now2 r), s2)
      /\ find (fun d => Nat.eqb (Rating._id d) id) (ratings s2)
         = Some (Rating.set_response message2 now2 r).
Proof.
  intros user id now s r message2 now2 Nv Nw Hr Hcan Hresp Hval Hone.
  set (r1 := Rating.set_response "" now r).
  set (r2 := Rating.set_response message2 now2 r).
  exists (ratingSaved r1 s), (ratingSaved r2 (ratingSaved r1 s)).
  assert (Hf1 : find (fun d => Nat.eqb (Rating._id d) id)
                  (ratings (ratingSaved r1 s)) = Some r1)
    by (apply ratingSaved_find with (r0 := r); [exact Hr | reflexivity]).
  split; [ | split].
  - rewrite (respondToRating_found _ _ _ _ _ _ Hr), Hcan, Hresp.
    cbn [negb]. fold r1. now rewrite (save_Ok r1 s Hval Hone).
  - rewrite (respondToRating_found _ _ _ _ _ _ Hf1).
    rewrite (canRespond_ratingSaved user r1 r s Nv Nw eq_refl eq_refl), Hcan.
    assert (E : Rating.set_response message2 now2 r1 = r2) by reflexivity.
    rewrite E.
    change (truthy (option_map fst (Rating.response r1))) with false.
    cbn [negb]. now rewrite (save_Ok r2 (ratingSaved r1 s) Hval Hone).
  - apply ratingSaved_find with (r0 := r1); [exact Hf1 | reflexivity].
Qed.

Lemma respondToRating_empty_message_not_final_witness :
  exists s1 s2,
    RatingController.respondToRating vera 1 "" 5000 rated
    = (Ok (Rating.set_response "" 5000 ratedDoc), s1)
    /\ RatingController.respondToRating vera 1 "Thank you" 6000 s1
       = (Ok (Rating.set_response "Thank you" 6000 ratedDoc), s2)
    /\ find (fun d => Nat.eqb (Rating._id d) 1) (ratings s2)
       = Some (Rating.set_response "Thank you" 6000 ratedDoc).
Proof.
  apply (respondToRating_empty_message_not_final vera 1 5000%Z rated ratedDoc
           "Thank you" 6000%Z); try reflexivity.
  - repeat constructor; simpl; tauto.
  - repeat constructor; simpl; tauto.
Defined.

Lemma getRatingById_found user id s r :
  find (fun d => Nat.eqb (Rating._id d) id) (ratings s) = Some r ->
  RatingController.getRatingById user id s =
  if canView user r s then (Ok r, s)
  else (Throw (ErrorResponse "Not authorized to view this rating" 403), s).
Proof.
  intros Hr.
  unfold RatingController.getRatingById, bind, RatingModel.findById, gets.
  rewrite Hr. cbn [orThrow ret]. fold (canView user r s).
  destruct (canView user r s); reflexivity.
Qed.

(** X5. getRatingById writes nothing.  It answers a stored rating, active
    or retracted, to an administrator and to its reviewer.  Every other
    actor gets the 403 "Not authorized to view this rating" error, the user
    of the vendor or waiter profile the rating refers to included: the
    handler tests for the rated party, but rating.vendor.user and
    rating.waiter.user are populated documents, whose text is the text of
    no identifier.  An identifier that no rating carries gets the 404
    "Rating not found" error. *)
Theorem getRatingById_access :
  (forall user id s, snd (RatingController.getRatingById user id s) = s)
  /\ (forall user id s,
        find (fun d => Nat.eqb (Rating._id d) id) (ratings s) = None ->
        RatingController.getRatingById user id s
        = (Throw RatingController.notFound, s))
  /\ (forall user id s r,
        find (fun d => Nat.eqb (Rating._id d) id) (ratings s) = Some r ->
        User.role user = "admin" \/ Rating.reviewer r = User._id user ->
        RatingController.getRatingById user id s = (Ok r, s))
  /\ (forall user id s r,
        find (fun d => Nat.eqb (Rating._id d) id) (ratings s) = Some r ->
        User.role user <> "admin" ->
        Rating.reviewer r <> User._id user ->
        RatingController.getRatingById user id s
        = (Throw (ErrorResponse "Not authorized to view this rating" 403),
           s)).
Proof.
  assert (Party : forall u i, RatingController.userIs u i = false).
  { intros [j | ] i; reflexivity. }
  split; [exact getRatingById_frame | ].
  split.
  { intros user id s Hr.
    unfold RatingController.getRatingById, bind, RatingModel.findById, gets.
    now rewrite Hr. }
  split.
  { intros user id s r Hr H. rewrite (getRatingById_found _ _ _ _ Hr).
    unfold canView. cbn [RatingModel.reviewer Path_id].
    destruct H as [-> | ->].
    - reflexivity.
    - now rewrite Nat.eqb_refl, orb_true_r. }
  intros user id s r Hr Hrole Hrev.
  rewrite (getRatingById_found _ _ _ _ Hr). unfold canView.
  cbn [RatingModel.reviewer Path_id]. rewrite !Party.
  destruct (String.eqb_spec (User.role user) "admin"); [contradiction | ].
  destruct (Nat.eqb_spec (Rating.reviewer r) (User._id user));
    [contradiction | reflexivity].
Qed.

Lemma getRatingById_access_witness :
  RatingController.getRatingById alice 7 unrated
  = (Throw RatingController.notFound, unrated)
  /\ RatingController.getRatingById alice 1 unrated
     = (Ok (Rating.set_isActive false ratedDoc), unrated)
  /\ RatingController.getRatingById root 1 unrated
     = (Ok (Rating.set_isActive false ratedDoc), unrated)
  /\ RatingController.getRatingById vera 1 unrated
     = (Throw (ErrorResponse "Not authorized to view this rating" 403),
        unrated)
  /\ RatingController.getRatingById mallory 1 unrated
     = (Throw (ErrorResponse "Not authorized to view this rating" 403),
        unrated).
Proof.
  destruct getRatingById_access as (_ & H404 & Hown & H403).
  split; [apply H404; reflexivity | ].
  split.
  { apply (Hown alice 1 unrated (Rating.set_isActive false ratedDoc));
      [reflexivity | right; reflexivity]. }
  split.
  { apply (Hown root 1 unrated (Rating.set_isActive false ratedDoc));
      [reflexivity | left; reflexivity]. }
  split.
  - apply (H403 vera 1 unrated (Rating.set_isActive false ratedDoc));
      try reflexivity; discriminate.
  - apply (H403 mallory 1 unrated (Rating.set_isActive false ratedDoc));
      try reflexivity; discriminate.
Defined.

Lemma set_ratings_same s : set_ratings (ratings s) s = s.
Proof. now destruct s. Qed.

(** X6. Retracting twice is harmless: after a successful deleteRating,
    another deleteRating of the same rating by an administrator succeeds
    again and leaves the store exactly as it is. *)
Theorem deleteRating_twice :
  forall user user2 id s s' r,
    find (fun d => Nat.eqb (Rating._id d) id) (ratings s) = Some r ->
    RatingController.deleteRating user id s = (Ok tt, s') ->
    User.role user2 = "admin" ->
    RatingController.deleteRating user2 id s' = (Ok tt, s').
Proof.
  intros user user2 id s s' r Hr H Hcan2.
  pose proof H as H0. apply deleteRating_Ok in H0.
  destruct H0 as (r0 & Hr0 & _ & Hone & ->).
  rewrite Hr in Hr0. injection Hr0 as <-.
  assert (Hval : RatingModel.validate (Rating.set_isActive false r) = []).
  { rewrite (deleteRating_found _ _ _ _ Hr) in H.
    destruct (canDelete user r); [ | discriminate].
    destruct (RatingModel.validate _); [reflexivity | discriminate]. }
  set (r' := Rating.set_isActive false r) in *.
  destruct (ratingRetracted_frame r s) as (Er & _ & _). fold r' in Er.
  assert (Hf : find (fun d => Nat.eqb (Rating._id d) id)
                 (ratings (ratingRetracted r s)) = Some r').
  { rewrite Er. apply find_replaceById with (d := r);
      [exact Hr | reflexivity | apply (find_pred _ _ _ Hr)]. }
  rewrite (deleteRating_found _ _ _ _ Hf).
  assert (C : canDelete user2 r' = true).
  { unfold canDelete. now rewrite Hcan2. }
  rewrite C. change (Rating.set_isActive false r') with r'. rewrite Hval.
  change (oneTarget r') with (oneTarget r). rewrite Hone.
  f_equal. unfold ratingRetracted at 1.
  change (Rating.set_isActive false r') with r'.
  rewrite Er, replaceById_again, <- Er, set_ratings_same.
  unfold ratingRetracted. fold r'. apply recomputeTargets_again.
Qed.

Lemma deleteRating_twice_witness :
  RatingController.deleteRating root 1 unrated = (Ok tt, unrated).
Proof.
  apply (deleteRating_twice root root 1 rated unrated ratedDoc);
    reflexivity.
Defined.

Lemma filter_replaceById {A : Type} (id_of : A -> ObjectId) (p : A -> bool)
    (d : A) (l : list A) :
  (forall x, id_of x = id_of d -> p x = false) ->
  filter p (replaceById id_of d l) = filter p l.
Proof.
  intros Hp. induction l as [ | x l IH]; [reflexivity | ].
  cbn [replaceById map filter]. fold (replaceById id_of d l). rewrite IH.
  destruct (Nat.eqb_spec (id_of x) (id_of d)) as [E | E]; [ | reflexivity].
  now rewrite (Hp d eq_refl), (Hp x E).
Qed.

Lemma recomputeVendor_others r s :
  filter (fun d => negb (refIs (Rating.vendor r) (Vendor._id d)))
    (vendors (recomputeVendor r s))
  = filter (fun d => negb (refIs (Rating.vendor r) (Vendor._id d)))
      (vendors s).
Proof.
  unfold recomputeVendor.
  destruct (Rating.vendor r) as [v | ]; [ | reflexivity].
  destruct (find _ (vendors s)) as [vendor | ] eqn:Hf; [ | reflexivity].
  cbn [vendors set_vendors]. apply filter_replaceById.
  intros x Hx. rewrite vendorRated_id in Hx. cbn [refIs].
  apply find_pred in Hf. apply Nat.eqb_eq in Hf.
  rewrite Hx, Hf, Nat.eqb_refl. reflexivity.
Qed.

Lemma recomputeWaiter_others r s :
  filter (fun d => negb (refIs (Rating.waiter r) (Waiter._id d)))
    (waiters (recomputeWaiter r s))
  = filter (fun d => negb (refIs (Rating.waiter r) (Waiter._id d)))
      (waiters s).
Proof.
  unfold recomputeWaiter.
  destruct (Rating.waiter r) as [w | ]; [ | reflexivity].
  destruct (find _ (waiters s)) as [waiter | ] eqn:Hf; [ | reflexivity].
  cbn [waiters set_waiters]. apply filter_replaceById.
  intros x Hx. rewrite waiterRated_id in Hx. cbn [refIs].
  apply find_pred in Hf. apply Nat.eqb_eq in Hf.
  rewrite Hx, Hf, Nat.eqb_refl. reflexivity.
Qed.

(** X7. deleteRating touches one rating and the profiles it refers to, and
    nothing else: whether it succeeds or throws, the orders and the jobs
    (their isRated flags included) are as before, as is every rating with
    another identifier and every vendor and waiter profile the rating does
    not refer to. *)
Theorem deleteRating_frame :
  forall user id s,
    orders (snd (RatingController.deleteRating user id s)) = orders s
    /\ jobs (snd (RatingController.deleteRating user id s)) = jobs s
    /\ filter (fun d => negb (Nat.eqb (Rating._id d) id))
         (ratings (snd (RatingController.deleteRating user id s)))
       = filter (fun d => negb (Nat.eqb (Rating._id d) id)) (ratings s)
    /\ (forall r,
          find (fun d => Nat.eqb (Rating._id d) id) (ratings s) = Some r ->
          filter (fun d => negb (refIs (Rating.vendor r) (Vendor._id d)))
            (vendors (snd (RatingController.deleteRating user id s)))
          = filter (fun d => negb (refIs (Rating.vendor r) (Vendor._id d)))
              (vendors s)
          /\ filter (fun d => negb (refIs (Rating.waiter r) (Waiter._id d)))
               (waiters (snd (RatingController.deleteRating user id s)))
             = filter (fun d => negb (refIs (Rating.waiter r) (Waiter._id d)))
                 (waiters s)).
Proof.
  intros user id s.
  destruct (find (fun d => Nat.eqb (Rating._id d) id) (ratings s))
    as [r | ] eqn:Hr.
  2:{ unfold RatingController.deleteRating, bind, RatingModel.findById, gets.
      rewrite Hr. cbn [orThrow throw snd]. repeat split. }
  rewrite (deleteRating_found _ _ _ _ Hr).
  assert (Same : orders s = orders s /\ jobs s = jobs s
                 /\ filter (fun d => negb (Nat.eqb (Rating._id d) id))
                      (ratings s)
                    = filter (fun d => negb (Nat.eqb (Rating._id d) id))
                        (ratings s)
                 /\ (forall r0, Some r = Some r0 ->
                       filter (fun d => negb (refIs (Rating.vendor r0)
                                                (Vendor._id d))) (vendors s)
                       = filter (fun d => negb (refIs (Rating.vendor r0)
                                                  (Vendor._id d))) (vendors s)
                       /\ filter (fun d => negb (refIs (Rating.waiter r0)
                                                   (Waiter._id d)))
                            (waiters s)
                          = filter (fun d => negb (refIs (Rating.waiter r0)
                                                     (Waiter._id d)))
                              (waiters s)))
    by (repeat split).
  destruct (canDelete user r); [ | exact Same].
  destruct (RatingModel.validate _); [ | exact Same].
  destruct (oneTarget r); [ | exact Same].
  cbn [snd]. destruct (ratingRetracted_frame r s) as (Er & Eo & Ej).
  split; [exact Eo | ]. split; [exact Ej | ]. split.
  - rewrite Er. apply filter_replaceById.
    intros x Hx. cbn [Rating._id Rating.set_isActive] in Hx.
    apply find_pred in Hr. apply Nat.eqb_eq in Hr.
    now rewrite Hx, Hr, Nat.eqb_refl.
  - intros r0 E. injection E as <-.
    unfold ratingRetracted, recomputeTargets.
    set (s0 := set_ratings
                 (replaceById Rating._id (Rating.set_isActive false r)
                    (ratings s)) s).
    destruct (recomputeWaiter_frame (Rating.set_isActive false r)
                (recomputeVendor (Rating.set_isActive false r) s0))
      as [_ ->].
    split.
    + apply (recomputeVendor_others (Rating.set_isActive false r) s0).
    + etransitivity;
        [exact (recomputeWaiter_others (Rating.set_isActive false r)
                  (recomputeVendor (Rating.set_isActive false r) s0)) | ].
      now destruct (recomputeVendor_frame (Rating.set_isActive false r) s0)
        as [_ ->].
Qed.

Lemma deleteRating_frame_witness :
  orders unrated = orders rated
  /\ jobs unrated = jobs rated
  /\ filter (fun d => negb (refIs (Rating.vendor ratedDoc) (Vendor._id d)))
       (vendors unrated)
     = filter (fun d => negb (refIs (Rating.vendor ratedDoc) (Vendor._id d)))
         (vendors rated).
Proof.
  destruct (deleteRating_frame alice 1 rated) as (Ho & Hj & _ & Hp).
  destruct (Hp ratedDoc eq_refl) as [Hv _].
  split; [exact Ho | ]. split; [exact Hj | exact Hv].
Defined.

(** ** What requests do to the ratings collection *)

Lemma save_ratingsStep r r' s :
  In r (ratings s) ->
  ratingCore r' = ratingCore r ->
  ratingsStep (ratings s) (ratings (snd (RatingModel.save r' s))).
Proof.
  intros Hin Hcore. rewrite save_eq.
  destruct (RatingModel.validate r') eqn:Hval; [ | now apply step_same].
  destruct (oneTarget r'); [ | now apply step_same].
  cbn [snd].
  destruct (recomputeTargets_frame r'
              (set_ratings (replaceById Rating._id r' (ratings s)) s))
    as (-> & _ & _).
  cbn [ratings set_ratings]. now apply step_update with (r := r) (r' := r').
Qed.

Lemma handle_ratingsStep q s : ratingsStep (ratings s) (ratings (handle q s)).
Proof.
  destruct q as [user id rating review | user id rating att review | user id
                | id reason | user id message now | user id
                | user orderId status | user jobId status reason now];
    cbn [handle].
  - destruct (find (fun v => Nat.eqb (Vendor._id v) id) (vendors s))
      as [vendor | ] eqn:Hv.
    2:{ unfold VendorController.rateVendor, bind, Vendor_findById, gets.
        rewrite Hv. now apply step_same. }
    destruct (find (VendorController.completedOrderOf user id) (orders s))
      as [order | ] eqn:Ho.
    2:{ unfold VendorController.rateVendor, bind, Vendor_findById,
          Order_findOne, gets.
        rewrite Hv. cbn [orThrow ret]. rewrite Ho. now apply step_same. }
    rewrite (rateVendor_found _ _ _ _ _ _ _ Hv Ho).
    destruct (find (VendorController.vendorRatingOf user id (Order._id order))
                (ratings s)) as [r0 | ] eqn:Hr; cbn [RatingModel.isSome];
      [now apply step_same | ].
    destruct (RatingModel.validate _) eqn:Hval; [ | now apply step_same].
    cbn zeta. cbn [snd].
    destruct (vendorRatingStored_parts
                (Rating.set_id (freshId Rating._id (ratings s))
                   (vendorFields user id order rating review))
                order s id vendor Hv eq_refl eq_refl) as (-> & _).
    eapply step_insert; [reflexivity | reflexivity | exact Hval
                        | reflexivity | ].
    intros r Hin E. pose proof (find_none _ _ Hr r Hin) as N.
    unfold ratingKey in E. cbn in E.
    injection E as E1 E2 E3 _ _.
    unfold VendorController.vendorRatingOf, refIs in N.
    rewrite E1, E2, E3, !Nat.eqb_refl in N. discriminate.
  - rewrite rateWaiter_frame. now apply step_same.
  - destruct (find (fun d => Nat.eqb (Rating._id d) id) (ratings s))
      as [r | ] eqn:Hr.
    2:{ unfold RatingController.deleteRating, bind, RatingModel.findById,
          gets. rewrite Hr. now apply step_same. }
    rewrite (deleteRating_found _ _ _ _ Hr).
    destruct (canDelete user r); [ | now apply step_same].
    destruct (RatingModel.validate _) eqn:Hval; [ | now apply step_same].
    destruct (oneTarget r); [ | now apply step_same].
    cbn [snd]. destruct (ratingRetracted_frame r s) as (-> & _).
    apply step_update with (r := r) (r' := Rating.set_isActive false r);
      [now apply find_some in Hr | reflexivity | reflexivity | exact Hval].
  - destruct (find (fun d => Nat.eqb (Rating._id d) id) (ratings s))
      as [r | ] eqn:Hr.
    2:{ unfold RatingController.reportRating, bind, RatingModel.findById,
          gets. rewrite Hr. now apply step_same. }
    rewrite (reportRating_found _ _ _ _ Hr).
    destruct (Rating.isReported r); [now apply step_same | ].
    apply save_ratingsStep with (r := r);
      [now apply find_some in Hr | reflexivity].
  - destruct (find (fun d => Nat.eqb (Rating._id d) id) (ratings s))
      as [r | ] eqn:Hr.
    2:{ unfold RatingController.respondToRating. unfold bind at 1.
        unfold RatingModel.findById, gets. rewrite Hr.
        unfold bind at 1. cbn [orThrow throw snd]. now apply step_same. }
    rewrite (respondToRating_found _ _ _ _ _ _ Hr).
    destruct (negb (canRespond user r s)); [now apply step_same | ].
    destruct (truthy _); [now apply step_same | ].
    pose proof (save_ratingsStep r (Rating.set_response message now r) s)
      as S.
    destruct (RatingModel.save (Rating.set_response message now r) s)
      as [[[] | e] s1]; cbn [snd] in *;
      (apply S; [now apply find_some in Hr | reflexivity]).
  - rewrite getRatingById_frame. now apply step_same.
  - apply step_same. apply updateOrderStatus_ratings.
  - apply step_same. apply updateJobStatus_ratings.
Qed.

Lemma NoDup_map_eq {A B : Type} (f : A -> B) (l : list A) (x y : A) :
  NoDup (map f l) -> In x l -> In y l -> f x = f y -> x = y.
Proof.
  induction l as [ | a l IH]; cbn [map]; intros N Hx Hy E; [contradiction | ].
  inversion N as [ | ? ? Hnot N']; subst.
  destruct Hx as [-> | Hx], Hy as [-> | Hy].
  - reflexivity.
  - exfalso. apply Hnot. rewrite E. now apply in_map.
  - exfalso. apply Hnot. rewrite <- E. now apply in_map.
  - now apply IH.
Qed.

Lemma map_replaceById_same {B : Type} (f : Rating.t -> B) (r r' : Rating.t)
    (l : list Rating.t) :
  NoDup (map Rating._id l) -> In r l ->
  Rating._id r' = Rating._id r -> f r' = f r ->
  map f (replaceById Rating._id r' l) = map f l.
Proof.
  intros N Hin Hid Hf. unfold replaceById. rewrite map_map.
  apply map_ext_in. intros x Hx.
  destruct (Nat.eqb_spec (Rating._id x) (Rating._id r')) as [E | E];
    [ | reflexivity].
  rewrite Hid in E.
  now rewrite (NoDup_map_eq Rating._id l x r N Hx Hin E).
Qed.

Lemma ratingCore_id r r' :
  ratingCore r' = ratingCore r -> Rating._id r' = Rating._id r.
Proof. unfold ratingCore. congruence. Qed.

Lemma ratingCore_key r r' :
  ratingCore r' = ratingCore r -> ratingKey r' = ratingKey r.
Proof. unfold ratingCore. congruence. Qed.

Lemma NoDup_snoc {A : Type} (l : list A) (a : A) :
  NoDup l -> ~ In a l -> NoDup (l ++ [a]).
Proof.
  intros N Hn. apply NoDup_rev in N. rewrite <- (rev_involutive (l ++ [a])).
  apply NoDup_rev. rewrite rev_app_distr. cbn. constructor; [ | exact N].
  now rewrite <- in_rev.
Qed.

Lemma ratingsStep_core l l' :
  NoDup (map Rating._id l) -> ratingsStep l l' ->
  exists extra, map ratingCore l' = map ratingCore l ++ extra.
Proof.
  intros N [-> | doc -> _ _ _ _ | r r' Hin -> Hcore _].
  - exists []. now rewrite app_nil_r.
  - exists [ratingCore doc]. now rewrite map_app.
  - exists []. rewrite app_nil_r.
    apply map_replaceById_same with (r := r);
      [exact N | exact Hin | now apply ratingCore_id | exact Hcore].
Qed.

Lemma ratingsStep_sound l l' :
  ratingsSound l -> ratingsStep l l' -> ratingsSound l'.
Proof.
  intros (Nid & Nkey & V)
    [-> | doc -> Hid Hval _ Hkey | r r' Hin -> Hcore Hval].
  - now repeat split.
  - repeat split.
    + rewrite map_app. cbn [map]. apply NoDup_snoc; [exact Nid | ].
      intros Hin. apply in_map_iff in Hin as (d & E & Hd).
      apply (freshId_fresh Rating._id l d Hd). congruence.
    + rewrite map_app. cbn [map]. apply NoDup_snoc; [exact Nkey | ].
      intros Hin. apply in_map_iff in Hin as (d & E & Hd).
      now apply (Hkey d Hd).
    + apply Forall_app. split; [exact V | ]. now constructor.
  - repeat split.
    + now rewrite map_id_replaceById.
    + rewrite (map_replaceById_same ratingKey r r' l Nid Hin);
        [exact Nkey | now apply ratingCore_id | now apply ratingCore_key].
    + now apply Forall_replaceById.
Qed.

Lemma ratingsStep_ids l l' :
  NoDup (map Rating._id l) -> ratingsStep l l' -> NoDup (map Rating._id l').
Proof.
  intros N [-> | doc -> Hid _ _ _ | r r' _ -> _ _].
  - exact N.
  - rewrite map_app. cbn [map]. apply NoDup_snoc; [exact N | ].
    intros Hin. apply in_map_iff in Hin as (d & E & Hd).
    apply (freshId_fresh Rating._id l d Hd). congruence.
  - now rewrite map_id_replaceById.
Qed.

(** X8. No sequence of requests removes a rating or edits its identifier,
    reviewer, target, transaction, scores or review: when the identifiers
    of the stored ratings are distinct, the list of those fields after the
    requests is the list before them with new entries added at the end. *)
Theorem ratings_never_edited (qs : list Request) (s : Store) :
  NoDup (map Rating._id (ratings s)) ->
  exists extra,
    map ratingCore (ratings (handleAll qs s))
    = map ratingCore (ratings s) ++ extra.
Proof.
  revert s. induction qs as [ | q qs IH]; intros s N; cbn [handleAll].
  - exists []. now rewrite app_nil_r.
  - pose proof (handle_ratingsStep q s) as St.
    destruct (IH (handle q s) (ratingsStep_ids _ _ N St)) as (e2 & E2).
    destruct (ratingsStep_core _ _ N St) as (e1 & E1).
    exists (e1 ++ e2). now rewrite E2, E1, app_assoc.
Qed.

Lemma ratings_never_edited_witness :
  exists extra,
    map ratingCore
      (ratings (handleAll [DeleteRating alice 1; ReportRating 1 (Some "spam");
                           RespondToRating vera 1 "Thanks" 7%Z] rated))
    = map ratingCore (ratings rated) ++ extra.
Proof.
  apply (ratings_never_edited
           [DeleteRating alice 1; ReportRating 1 (Some "spam");
            RespondToRating vera 1 "Thanks" 7%Z] rated).
  vm_compute. repeat constructor. intros [].
Defined.

(** X9. Starting from ratings with distinct identifiers, distinct
    (reviewer, target, transaction) keys and valid scores, every sequence
    of requests leaves ratings with distinct identifiers, distinct keys and
    valid scores: a reviewer never has two ratings, active or not, for the
    same target and transaction. *)
Theorem ratings_stay_sound (qs : list Request) (s : Store) :
  ratingsSound (ratings s) -> ratingsSound (ratings (handleAll qs s)).
Proof.
  revert s. induction qs as [ | q qs IH]; intros s H; cbn [handleAll];
    [exact H | ].
  apply IH. apply ratingsStep_sound with (l := ratings s); [exact H | ].
  apply handle_ratingsStep.
Qed.

Lemma ratings_stay_sound_witness :
  ratingsSound
    (ratings (handleAll [RateVendor alice 10 5 None; DeleteRating alice 1;
                         RateVendor alice 10 4 None] served)).
Proof.
  apply (ratings_stay_sound
           [RateVendor alice 10 5 None; DeleteRating alice 1;
            RateVendor alice 10 4 None] served).
  repeat split; cbn; constructor.
Defined.

(** ** The stored averages stay in the range of the schema *)

Lemma validate_scores r :
  RatingModel.validate r = [] ->
  (1 <= Rating.rating r <= 5)%Q
  /\ forall a, Rating.attitudeRating r = Some a -> (1 <= a <= 5)%Q.
Proof.
  unfold RatingModel.validate. intros H.
  apply app_eq_nil in H as (H1 & H).
  apply app_eq_nil in H as (H2 & H).
  apply app_eq_nil in H as (H3 & _).
  destruct (Qle_bool 1 (Rating.rating r)) eqn:E1; [ | discriminate].
  destruct (Qle_bool (Rating.rating r) 5) eqn:E2; [ | discriminate].
  apply Qle_bool_iff in E1, E2. split; [now split | ].
  intros a Ha. rewrite Ha in H3.
  apply app_eq_nil in H3 as (H3 & H4).
  destruct (Qle_bool 1 a) eqn:E3; [ | discriminate].
  destruct (Qle_bool a 5) eqn:E4; [ | discriminate].
  apply Qle_bool_iff in E3, E4. now split.
Qed.

Lemma Qsum_bounds (l : list Q) :
  Forall (fun q => 1 <= q <= 5)%Q l ->
  (inject_Z (Z.of_nat (List.length l)) <= Qsum l
   /\ Qsum l <= 5 * inject_Z (Z.of_nat (List.length l)))%Q.
Proof.
  induction 1 as [ | q l (Hlo & Hhi) _ (IHlo & IHhi)].
  - split; unfold Qle; cbn; lia.
  - cbn [List.length Qsum fold_right]. fold (Qsum l).
    rewrite Nat2Z.inj_succ, <- Z.add_1_l, inject_Z_plus.
    split.
    + now apply Qplus_le_compat.
    + rewrite Qmult_plus_distr_r. now apply Qplus_le_compat.
Qed.

Lemma ceilTenths_range (m : Q) :
  (1 <= m <= 5)%Q ->
  (1 <= Math_ceil (m * 10) / 10 <= 5)%Q.
Proof.
  intros (Hlo & Hhi). unfold Math_ceil.
  assert (L : (10 <= Qceiling (m * 10))%Z).
  { change 10%Z with (Qceiling (inject_Z 10)) at 1. apply Qceiling_resp_le.
    change (inject_Z 10) with (1 * 10)%Q.
    apply Qmult_le_compat_r; [exact Hlo | discriminate]. }
  assert (U : (Qceiling (m * 10) <= 50)%Z).
  { change 50%Z with (Qceiling (inject_Z 50)). apply Qceiling_resp_le.
    change (inject_Z 50) with (5 * 10)%Q.
    apply Qmult_le_compat_r; [exact Hhi | discriminate]. }
  split.
  - apply Qle_shift_div_l; [reflexivity | ].
    change (1 * 10)%Q with (inject_Z 10). now rewrite <- Zle_Qle.
  - apply Qle_shift_div_r; [reflexivity | ].
    change (5 * 10)%Q with (inject_Z 50). now rewrite <- Zle_Qle.
Qed.

Lemma mean_range (q : Q) (l : list Q) :
  Forall (fun x => 1 <= x <= 5)%Q (q :: l) ->
  (1 <= Qsum (q :: l) / inject_Z (Z.of_nat (List.length (q :: l))) <= 5)%Q.
Proof.
  intros H. destruct (Qsum_bounds _ H) as (Lo & Hi).
  assert (P : (0 < inject_Z (Z.of_nat (List.length (q :: l))))%Q).
  { change 0%Q with (inject_Z 0). rewrite <- Zlt_Qlt. cbn [List.length]. lia. }
  split.
  - apply Qle_shift_div_l; [exact P | ]. now rewrite Qmult_1_l.
  - apply Qle_shift_div_r; [exact P | exact Hi].
Qed.

Lemma avgAcc_range (xs : list (option Q)) :
  Forall (fun x => forall a, x = Some a -> (1 <= a <= 5)%Q) xs ->
  avgAcc xs = None
  \/ (1 <= Math_ceil (toNumber (avgAcc xs) * 10) / 10 <= 5)%Q.
Proof.
  intros H. unfold avgAcc.
  assert (F : Forall (fun x => 1 <= x <= 5)%Q
                (flat_map (fun x => match x with
                                    | Some q => [q]
                                    | None => []
                                    end) xs)).
  { induction H as [ | [a | ] xs Ha _ IH]; cbn [flat_map].
    - constructor.
    - cbn [app]. constructor; [now apply Ha | exact IH].
    - exact IH. }
  destruct (flat_map _ xs) as [ | q l]; [now left | right].
  cbn [toNumber]. apply ceilTenths_range. now apply mean_range.
Qed.

Lemma ceil_zero : (Math_ceil (0 * 10) / 10 == 0)%Q.
Proof. reflexivity. Qed.

(** X10. When every stored rating passes the validators of the Rating
    schema, Vendor.updateRating returns and leaves an average that is 0 with
    no rating and between 1 and 5 otherwise, so the bounds of the
    averageRating path (min 0, max 5) are kept. *)
Theorem Vendor_updateRating_in_range (this : Vendor.t) (s : Store) :
  Forall (fun r => RatingModel.validate r = []) (ratings s) ->
  exists v,
    fst (VendorModel.updateRating this s) = Ok v
    /\ ((Vendor.totalRatings v = 0%Z /\ Vendor.averageRating v = 0%Q)
        \/ ((0 < Vendor.totalRatings v)%Z
            /\ (1 <= Vendor.averageRating v <= 5)%Q)).
Proof.
  intros V. rewrite Vendor_updateRating_eq. cbn [fst].
  exists (vendorRated this (ratings s)). split; [reflexivity | ].
  unfold vendorRated.
  assert (F : Forall (fun r => RatingModel.validate r = [])
                (vendorDocs (Vendor._id this) (ratings s))).
  { unfold vendorDocs. rewrite Forall_forall in *. intros r Hr.
    apply filter_In in Hr as (Hr & _). now apply V. }
  destruct (vendorDocs (Vendor._id this) (ratings s)) as [ | d ds];
    [now left | right].
  cbn [Vendor.set_rating Vendor.totalRatings Vendor.averageRating].
  split; [cbn [List.length]; lia | ].
  destruct (avgAcc_range (map (fun r => Some (Rating.rating r)) (d :: ds)))
    as [Z | R]; [ | unfold avgAcc in Z; cbn in Z; discriminate Z | exact R].
  apply Forall_map. apply Forall_impl with (2 := F).
  intros r Hr a [= <-]. now apply validate_scores.
Qed.

Lemma Vendor_updateRating_in_range_witness :
  exists v,
    fst (VendorModel.updateRating veraVendor rated) = Ok v
    /\ ((Vendor.totalRatings v = 0%Z /\ Vendor.averageRating v = 0%Q)
        \/ ((0 < Vendor.totalRatings v)%Z
            /\ (1 <= Vendor.averageRating v <= 5)%Q)).
Proof.
  apply (Vendor_updateRating_in_range veraVendor rated).
  vm_compute. repeat constructor.
Defined.

(** X11. When every stored rating passes the validators of the Rating
    schema, Waiter.updateRating returns and leaves an average between 1 and
    5 (0 with no rating) and an attitude average between 1 and 5 (0 when no
    rating of the waiter carries an attitude score). *)
Theorem Waiter_updateRating_in_range (this : Waiter.t) (s : Store) :
  Forall (fun r => RatingModel.validate r = []) (ratings s) ->
  exists w,
    fst (WaiterModel.updateRating this s) = Ok w
    /\ ((Waiter.totalRatings w = 0%Z /\ Waiter.averageRating w = 0%Q
         /\ Waiter.attitudeRating w = 0%Q)
        \/ ((0 < Waiter.totalRatings w)%Z
            /\ (1 <= Waiter.averageRating w <= 5)%Q
            /\ (Waiter.attitudeRating w == 0
                \/ 1 <= Waiter.attitudeRating w <= 5)%Q)).
Proof.
  intros V. rewrite Waiter_updateRating_eq. cbn [fst].
  exists (waiterRated this (ratings s)). split; [reflexivity | ].
  unfold waiterRated.
  assert (F : Forall (fun r => RatingModel.validate r = [])
                (waiterDocs (Waiter._id this) (ratings s))).
  { unfold waiterDocs. rewrite Forall_forall in *. intros r Hr.
    apply filter_In in Hr as (Hr & _). now apply V. }
  destruct (waiterDocs (Waiter._id this) (ratings s)) as [ | d ds];
    [now left | right].
  cbn [Waiter.set_rating Waiter.totalRatings Waiter.averageRating
       Waiter.attitudeRating].
  split; [cbn [List.length]; lia | ]. split.
  - destruct (avgAcc_range (map (fun r => Some (Rating.rating r)) (d :: ds)))
      as [Z | R]; [ | unfold avgAcc in Z; cbn in Z; discriminate Z | exact R].
    apply Forall_map. apply Forall_impl with (2 := F).
    intros r Hr a [= <-]. now apply validate_scores.
  - destruct (avgAcc_range (map Rating.attitudeRating (d :: ds)))
      as [Z | R]; [ | left | now right].
    + apply Forall_map. apply Forall_impl with (2 := F).
      intros r Hr a Ha. now apply (proj2 (validate_scores r Hr)).
    + rewrite Z. apply ceil_zero.
Qed.

Lemma Waiter_updateRating_in_range_witness :
  exists w,
    fst (WaiterModel.updateRating waltWaiter (waltRated [5; 4]%Q)) = Ok w
    /\ ((Waiter.totalRatings w = 0%Z /\ Waiter.averageRating w = 0%Q
         /\ Waiter.attitudeRating w = 0%Q)
        \/ ((0 < Waiter.totalRatings w)%Z
            /\ (1 <= Waiter.averageRating w <= 5)%Q
            /\ (Waiter.attitudeRating w == 0
                \/ 1 <= Waiter.attitudeRating w <= 5)%Q)).
Proof.
  apply (Waiter_updateRating_in_range waltWaiter (waltRated [5; 4]%Q)).
  vm_compute. repeat constructor.
Defined.

(** ** Listings of orders and jobs *)

Lemma firstn_plus {A : Type} (a b : nat) (l : list A) :
  firstn (a + b) l = firstn a l ++ firstn b (skipn a l).
Proof.
  revert l. induction a as [ | a IH]; intros l; [reflexivity | ].
  destruct l as [ | x l]; cbn [Nat.add firstn skipn app].
  - now rewrite firstn_nil.
  - now rewrite IH.
Qed.

Lemma pages_concat {A : Type} (l : list A) (limit n : nat) :
  List.concat
    (map (fun p => firstn limit (skipn ((p - 1) * limit) l)) (seq 1 n))
  = firstn (n * limit) l.
Proof.
  induction n as [ | n IH]; [reflexivity | ].
  rewrite seq_S, map_app, concat_app, IH. cbn [map List.concat Nat.add].
  rewrite app_nil_r. replace (S n - 1) with n by lia.
  replace (S n * limit) with (n * limit + limit) by lia.
  now rewrite firstn_plus.
Qed.

Lemma page_empty_iff {A : Type} (l : list A) (start limit : nat) :
  1 <= limit ->
  (firstn limit (skipn start l) = [] <-> List.length l <= start).
Proof.
  intros Hl. split.
  - intros E. apply (f_equal (@List.length A)) in E.
    rewrite length_firstn, length_skipn in E. cbn in E. lia.
  - intros H. rewrite skipn_all2 by exact H. apply firstn_nil.
Qed.

Lemma getVendorOrders_found user page limit status s vendor :
  vendorOf user s = Some vendor ->
  VendorOrders.getVendorOrders user page limit status s =
  (Ok (mkListing
         (List.length
            (firstn (orDefault limit 10)
               (skipn ((orDefault page 1 - 1) * orDefault limit 10)
                  (vendorOrders vendor status s))))
         (List.length (vendorOrders vendor status s))
         (mkPagination
            (if Nat.ltb ((orDefault page 1 - 1) * orDefault limit 10
                         + orDefault limit 10)
                  (List.length (vendorOrders vendor status s))
             then Some (orDefault page 1 + 1, orDefault limit 10) else None)
            (if Nat.ltb 0 ((orDefault page 1 - 1) * orDefault limit 10)
             then Some (orDefault page 1 - 1, orDefault limit 10) else None))
         (firstn (orDefault limit 10)
            (skipn ((orDefault page 1 - 1) * orDefault limit 10)
               (vendorOrders vendor status s)))), s).
Proof.
  unfold vendorOf. intros Hv.
  unfold VendorOrders.getVendorOrders, bind, Vendor_findOne, gets.
  rewrite Hv. cbn [orThrow ret]. unfold vendorOrders, newestFirst.
  now rewrite length_rev.
Qed.

Lemma getWaiterJobs_found user page limit status s waiter :
  waiterOf user s = Some waiter ->
  WaiterJobs.getWaiterJobs user page limit status s =
  (Ok (mkListing
         (List.length
            (firstn (orDefault limit 10)
               (skipn ((orDefault page 1 - 1) * orDefault limit 10)
                  (waiterJobs waiter status s))))
         (List.length (waiterJobs waiter status s))
         (mkPagination
            (if Nat.ltb ((orDefault page 1 - 1) * orDefault limit 10
                         + orDefault limit 10)
                  (List.length (waiterJobs waiter status s))
             then Some (orDefault page 1 + 1, orDefault limit 10) else None)
            (if Nat.ltb 0 ((orDefault page 1 - 1) * orDefault limit 10)
             then Some (orDefault page 1 - 1, orDefault limit 10) else None))
         (firstn (orDefault limit 10)
            (skipn ((orDefault page 1 - 1) * orDefault limit 10)
               (waiterJobs waiter status s)))), s).
Proof.
  unfold waiterOf. intros Hw.
  unfold WaiterJobs.getWaiterJobs, bind, Waiter_findOne, gets.
  rewrite Hw. cbn [orThrow ret]. unfold waiterJobs, newestFirst.
  now rewrite length_rev.
Qed.

Lemma orDefault_pos (p d : nat) : 1 <= p -> orDefault (Some p) d = p.
Proof. destruct p; [lia | reflexivity]. Qed.

(** X12. The pages of getVendorOrders partition the orders of the caller's
    vendor profile: with a limit of at least 1, the data of pages 1 to n,
    put end to end, are the first n * limit orders of that profile, newest
    first, and a page announces a next page exactly when the following page
    is not empty. *)
Theorem getVendorOrders_pages (user : User.t) (limit : nat)
    (status : option string) (s : Store) (vendor : Vendor.t) (n : nat) :
  vendorOf user s = Some vendor ->
  1 <= limit ->
  let get := fun p => VendorOrders.getVendorOrders user p (Some limit) status
  in
  List.concat (map (pageOf get s) (seq 1 n))
  = firstn (n * limit) (vendorOrders vendor status s)
  /\ forall p, 1 <= p ->
       (hasNext get s p = true <-> pageOf get s (p + 1) <> []).
Proof.
  intros Hv Hl get. split.
  - rewrite <- pages_concat. f_equal. apply map_ext_in. intros p Hp.
    apply in_seq in Hp. unfold pageOf, get.
    rewrite (getVendorOrders_found _ _ _ _ _ _ Hv). cbn [fst data].
    now rewrite !orDefault_pos by lia.
  - intros p Hp. unfold hasNext, pageOf, get.
    rewrite !(getVendorOrders_found _ _ _ _ _ _ Hv).
    cbn [fst data pagination next].
    rewrite !orDefault_pos by lia.
    replace (p + 1 - 1) with p by lia.
    rewrite (page_empty_iff _ (p * limit) limit Hl).
    destruct (Nat.ltb_spec ((p - 1) * limit + limit)
                (List.length (vendorOrders vendor status s)));
      cbn [RatingModel.isSome];
      replace ((p - 1) * limit + limit) with (p * limit) in * by nia;
      split; intros; try lia; try discriminate; try reflexivity.
Qed.

Lemma getVendorOrders_pages_witness :
  let get := fun p => VendorOrders.getVendorOrders vera p (Some 1) None in
  List.concat (map (pageOf get servedTwice) (seq 1 2))
  = firstn (2 * 1) (vendorOrders veraVendor None servedTwice)
  /\ forall p, 1 <= p ->
       (hasNext get servedTwice p = true
        <-> pageOf get servedTwice (p + 1) <> []).
Proof.
  apply (getVendorOrders_pages vera 1 None servedTwice veraVendor 2);
    [reflexivity | lia].
Defined.

(** X13. The pages of getWaiterJobs partition the jobs of the caller's
    waiter profile in the same way. *)
Theorem getWaiterJobs_pages (user : User.t) (limit : nat)
    (status : option string) (s : Store) (waiter : Waiter.t) (n : nat) :
  waiterOf user s = Some waiter ->
  1 <= limit ->
  let get := fun p => WaiterJobs.getWaiterJobs user p (Some limit) status in
  List.concat (map (pageOf get s) (seq 1 n))
  = firstn (n * limit) (waiterJobs waiter status s)
  /\ forall p, 1 <= p ->
       (hasNext get s p = true <-> pageOf get s (p + 1) <> []).
Proof.
  intros Hw Hl get. split.
  - rewrite <- pages_concat. f_equal. apply map_ext_in. intros p Hp.
    apply in_seq in Hp. unfold pageOf, get.
    rewrite (getWaiterJobs_found _ _ _ _ _ _ Hw). cbn [fst data].
    now rewrite !orDefault_pos by lia.
  - intros p Hp. unfold hasNext, pageOf, get.
    rewrite !(getWaiterJobs_found _ _ _ _ _ _ Hw).
    cbn [fst data pagination next].
    rewrite !orDefault_pos by lia.
    replace (p + 1 - 1) with p by lia.
    rewrite (page_empty_iff _ (p * limit) limit Hl).
    destruct (Nat.ltb_spec ((p - 1) * limit + limit)
                (List.length (waiterJobs waiter status s)));
      cbn [RatingModel.isSome];
      replace ((p - 1) * limit + limit) with (p * limit) in * by nia;
      split; intros; try lia; try discriminate; try reflexivity.
Qed.

Lemma getWaiterJobs_pages_witness :
  let get := fun p => WaiterJobs.getWaiterJobs walt p (Some 1) None in
  List.concat (map (pageOf get demo) (seq 1 2))
  = firstn (2 * 1) (waiterJobs waltWaiter None demo)
  /\ forall p, 1 <= p ->
       (hasNext get demo p = true <-> pageOf get demo (p + 1) <> []).
Proof.
  apply (getWaiterJobs_pages walt 1 None demo waltWaiter 2);
    [reflexivity | lia].
Defined.

(** X14. updateOrderStatus changes no order that getVendorOrder does not
    show to the caller: when getVendorOrder throws, updateOrderStatus throws
    the same exception and leaves the store as it was; when it answers, the
    order belongs to the vendor profile of the caller. *)
Theorem getVendorOrder_guards_update (user : User.t) (orderId : ObjectId)
    (s : Store) :
  (forall e status,
     fst (VendorOrders.getVendorOrder user orderId s) = Throw e ->
     VendorController.updateOrderStatus user orderId status s = (Throw e, s))
  /\ (forall o,
        fst (VendorOrders.getVendorOrder user orderId s) = Ok o ->
        In o (orders s) /\ Order._id o = orderId
        /\ exists vendor,
             In vendor (vendors s)
             /\ Vendor.user vendor = User._id user
             /\ Order.vendor o = Vendor._id vendor).
Proof.
  unfold VendorOrders.getVendorOrder, VendorController.updateOrderStatus,
    bind, Vendor_findOne, Order_findOne, gets.
  destruct (find (fun v => Nat.eqb (Vendor.user v) (User._id user))
              (vendors s)) as [vendor | ] eqn:Hv; cbn [orThrow ret throw fst].
  2:{ split; [now intros e status [= <-] | discriminate]. }
  destruct (find (fun o => Nat.eqb (Order._id o) orderId
                           && Nat.eqb (Order.vendor o) (Vendor._id vendor))
              (orders s)) as [order | ] eqn:Ho; cbn [orThrow ret throw fst].
  2:{ split; [now intros e status [= <-] | discriminate]. }
  split; [discriminate | ]. intros o [= <-].
  apply find_some in Ho as (Hin & Hq). apply andb_prop in Hq as (Hi & Hw).
  apply Nat.eqb_eq in Hi, Hw.
  apply find_some in Hv as (Hvin & Hu). apply Nat.eqb_eq in Hu.
  repeat split; try assumption. now exists vendor.
Qed.

Lemma getVendorOrder_guards_update_witness :
  VendorController.updateOrderStatus mallory 100 "confirmed" demo
  = (Throw (ErrorResponse "Vendor profile not found" 404), demo).
Proof.
  apply (proj1 (getVendorOrder_guards_update mallory 100 demo)).
  reflexivity.
Defined.

(** X15. updateJobStatus changes no job that getWaiterJob does not show to
    the caller: when getWaiterJob throws, updateJobStatus throws the same
    exception and leaves the store as it was; when it answers, the job
    belongs to the waiter profile of the caller. *)
Theorem getWaiterJob_guards_update (user : User.t) (jobId : ObjectId)
    (s : Store) :
  (forall e status reason now,
     fst (WaiterJobs.getWaiterJob user jobId s) = Throw e ->
     WaiterController.updateJobStatus user jobId status reason now s
     = (Throw e, s))
  /\ (forall j,
        fst (WaiterJobs.getWaiterJob user jobId s) = Ok j ->
        In j (jobs s) /\ Job._id j = jobId
        /\ exists waiter,
             In waiter (waiters s)
             /\ Waiter.user waiter = User._id user
             /\ Job.waiter j = Waiter._id waiter).
Proof.
  unfold WaiterJobs.getWaiterJob, WaiterController.updateJobStatus,
    bind, Waiter_findOne, Job_findOne, gets.
  destruct (find (fun w => Nat.eqb (Waiter.user w) (User._id user))
              (waiters s)) as [waiter | ] eqn:Hw; cbn [orThrow ret throw fst].
  2:{ split; [now intros e status reason now [= <-] | discriminate]. }
  destruct (find (fun j => Nat.eqb (Job._id j) jobId
                           && Nat.eqb (Job.waiter j) (Waiter._id waiter))
              (jobs s)) as [job | ] eqn:Hj; cbn [orThrow ret throw fst].
  2:{ split; [now intros e status reason now [= <-] | discriminate]. }
  split; [discriminate | ]. intros j [= <-].
  apply find_some in Hj as (Hin & Hq). apply andb_prop in Hq as (Hi & Hx).
  apply Nat.eqb_eq in Hi, Hx.
  apply find_some in Hw as (Hwin & Hu). apply Nat.eqb_eq in Hu.
  repeat split; try assumption. now exists waiter.
Qed.

Lemma getWaiterJob_guards_update_witness :
  WaiterController.updateJobStatus mallory 200 "accepted" None 0%Z demo
  = (Throw (ErrorResponse "Waiter profile not found" 404), demo).
Proof.
  apply (proj1 (getWaiterJob_guards_update mallory 200 demo)).
  reflexivity.
Defined.

(** ** The time fields of the hire forms *)

Lemma matches_Empty s : TimeFields.matches TimeFields.Empty s = false.
Proof. induction s; [reflexivity | exact IHs]. Qed.

Lemma matches_Eps s :
  TimeFields.matches TimeFields.Eps s = true <-> s = EmptyString.
Proof.
  destruct s; cbn; [tauto | ]. rewrite matches_Empty.
  split; discriminate.
Qed.

Lemma matches_Alt r1 r2 s :
  TimeFields.matches (TimeFields.Alt r1 r2) s
  = TimeFields.matches r1 s || TimeFields.matches r2 s.
Proof.
  revert r1 r2. induction s as [ | c s IH]; intros r1 r2; [reflexivity | ].
  cbn. apply IH.
Qed.

Lemma matches_Opt r s :
  TimeFields.matches (TimeFields.Opt r) s = true
  <-> s = EmptyString \/ TimeFields.matches r s = true.
Proof.
  destruct s as [ | c s]; cbn; [tauto | ].
  split; [tauto | ]. now intros [H | H].
Qed.

Lemma matches_Range lo hi s :
  TimeFields.matches (TimeFields.Range lo hi) s = true
  <-> exists c, s = String c EmptyString /\ TimeFields.inRange lo hi c = true.
Proof.
  destruct s as [ | c s]; cbn.
  - split; [discriminate | ]. now intros (c & H & _).
  - destruct (TimeFields.inRange lo hi c) eqn:E.
    + rewrite matches_Eps. split.
      * intros ->. now exists c.
      * now intros (c' & [= _ ->] & _).
    + rewrite matches_Empty. split; [discriminate | ].
      intros (c' & [= -> ->] & H). congruence.
Qed.

Lemma matches_Chr d s :
  TimeFields.matches (TimeFields.Chr d) s = true <-> s = String d EmptyString.
Proof.
  destruct s as [ | c s]; cbn.
  - split; discriminate.
  - destruct (Ascii.eqb_spec c d) as [-> | N].
    + rewrite matches_Eps. split; [now intros -> | now intros [= ->]].
    + rewrite matches_Empty. split; [discriminate | ].
      intros [= -> ->]. congruence.
Qed.

Lemma matches_Seq r1 r2 s :
  TimeFields.matches (TimeFields.Seq r1 r2) s = true
  <-> exists s1 s2,
        s = (s1 ++ s2)%string
        /\ TimeFields.matches r1 s1 = true /\ TimeFields.matches r2 s2 = true.
Proof.
  revert r1. induction s as [ | c s IH]; intros r1.
  - cbn. rewrite andb_true_iff. split.
    + intros (H1 & H2). now exists EmptyString, EmptyString.
    + intros (s1 & s2 & E & H1 & H2).
      destruct s1; [ | discriminate]. destruct s2; [ | discriminate].
      now split.
  - cbn [TimeFields.matches TimeFields.deriv].
    destruct (TimeFields.nullable r1) eqn:N.
    + rewrite matches_Alt, orb_true_iff, IH. split.
      * intros [(s1 & s2 & -> & H1 & H2) | H].
        -- now exists (String c s1), s2.
        -- exists EmptyString, (String c s). now repeat split.
      * intros (s1 & s2 & E & H1 & H2). destruct s1 as [ | c1 s1].
        -- cbn in E. subst s2. now right.
        -- cbn in E. injection E as <- ->. left. now exists s1, s2.
    + rewrite IH. split.
      * intros (s1 & s2 & -> & H1 & H2). now exists (String c s1), s2.
      * intros (s1 & s2 & E & H1 & H2). destruct s1 as [ | c1 s1].
        -- cbn in H1. congruence.
        -- cbn in E. injection E as <- ->. now exists s1, s2.
Qed.

Lemma timeFormat_shape s :
  TimeFields.matches TimeFields.timeFormat s = true -> TimeFields.timeShape s.
Proof.
  unfold TimeFields.timeFormat. intros H.
  apply matches_Seq in H as (hs & ms & -> & Hh & Hm).
  apply matches_Seq in Hm as (c & ms' & -> & Hc & Hm).
  apply matches_Chr in Hc as ->.
  apply matches_Seq in Hm as (a & b & -> & Ha & Hb).
  apply matches_Range in Ha as (m1 & -> & Hm1).
  apply matches_Range in Hb as (m2 & -> & Hm2).
  rewrite matches_Alt in Hh. apply orb_true_iff in Hh as [Hh | Hh].
  - apply matches_Seq in Hh as (o & d & -> & Ho & Hd).
    apply matches_Range in Hd as (h2 & -> & Hh2).
    apply matches_Opt in Ho as [-> | Ho].
    + now apply TimeFields.shape_short.
    + apply matches_Range in Ho as (h1 & -> & Hh1).
      apply TimeFields.shape_long; [left | | ]; auto.
  - apply matches_Seq in Hh as (o & d & -> & Ho & Hd).
    apply matches_Chr in Ho as ->.
    apply matches_Range in Hd as (h2 & -> & Hh2).
    apply TimeFields.shape_long; [right | | ]; auto.
Qed.

Lemma inRange_digit lo hi c :
  TimeFields.inRange lo hi c = true ->
  (TimeFields.digit lo <= TimeFields.digit c <= TimeFields.digit hi)%Z.
Proof.
  unfold TimeFields.inRange, Ascii.leb, Ascii.compare, TimeFields.digit.
  intros H.
  apply andb_prop in H as (H1 & H2).
  destruct (N.compare_spec (N_of_ascii lo) (N_of_ascii c));
    destruct (N.compare_spec (N_of_ascii c) (N_of_ascii hi));
    try discriminate; lia.
Qed.

Lemma compare_digit a b :
  match Ascii.compare a b with
  | Eq => TimeFields.digit a = TimeFields.digit b
  | Lt => (TimeFields.digit a < TimeFields.digit b)%Z
  | Gt => (TimeFields.digit b < TimeFields.digit a)%Z
  end.
Proof.
  unfold Ascii.compare, TimeFields.digit.
  destruct (N.compare_spec (N_of_ascii a) (N_of_ascii b)); lia.
Qed.

Ltac time_digits :=
  repeat match goal with
  | H : TimeFields.inRange _ _ _ = true |- _ =>
      apply inRange_digit in H;
      change (TimeFields.digit "0") with 0%Z in H;
      change (TimeFields.digit "1") with 1%Z in H;
      change (TimeFields.digit "3") with 3%Z in H;
      change (TimeFields.digit "5") with 5%Z in H;
      change (TimeFields.digit "9") with 9%Z in H
  end.

Ltac compare_chars :=
  repeat match goal with
  | |- context [Ascii.compare ?a ?b] =>
      let C := fresh "C" in
      pose proof (compare_digit a b) as C;
      destruct (Ascii.compare a b)
  end.

Lemma timeShape_truthy s : TimeFields.timeShape s -> truthy (Some s) = true.
Proof. now intros []. Qed.

(** X16. For a start time and an end time of the time format that are
    written with the same number of characters, the validator of endTime
    lets the pair through exactly when the end is later in the day than the
    start. *)
Theorem endTime_check_same_width (startTime endTime : string) :
  TimeFields.matches TimeFields.timeFormat startTime = true ->
  TimeFields.matches TimeFields.timeFormat endTime = true ->
  String.length startTime = String.length endTime ->
  exists a b,
    TimeFields.clockTime startTime = Some a
    /\ TimeFields.clockTime endTime = Some b
    /\ (TimeFields.endTimeCustom endTime (Some startTime) = true
        <-> (a < b)%Z).
Proof.
  intros Hs He Hlen.
  apply timeFormat_shape in Hs, He.
  destruct Hs as [h m1 m2 Hh Hm1 Hm2 | h1 h2 m1 m2 Hh Hm1 Hm2];
    destruct He as [h' m1' m2' Hh' Hm1' Hm2' | h1' h2' m1' m2' Hh' Hm1' Hm2'];
    try discriminate Hlen; clear Hlen.
  - do 2 eexists. split; [reflexivity | ]. split; [reflexivity | ].
    unfold TimeFields.endTimeCustom, String.leb.
    cbn [truthy andb String.compare].
    change (Ascii.compare ":" ":") with Eq. cbv iota.
    time_digits. compare_chars; cbn [negb]; split; intros; try discriminate;
      try reflexivity; lia.
  - do 2 eexists. split; [reflexivity | ]. split; [reflexivity | ].
    unfold TimeFields.endTimeCustom, String.leb.
    cbn [truthy andb String.compare].
    change (Ascii.compare ":" ":") with Eq. cbv iota.
    assert (B : (0 <= TimeFields.digit h2 <= 9)%Z).
    { destruct Hh as [(_ & H) | (_ & H)]; time_digits; lia. }
    assert (B' : (0 <= TimeFields.digit h2' <= 9)%Z).
    { destruct Hh' as [(_ & H) | (_ & H)]; time_digits; lia. }
    clear Hh Hh'. time_digits.
    compare_chars; cbn [negb]; split; intros; try discriminate;
      try reflexivity; lia.
Qed.

Lemma endTime_check_same_width_witness :
  exists a b,
    TimeFields.clockTime "09:30" = Some a
    /\ TimeFields.clockTime "17:00" = Some b
    /\ (TimeFields.endTimeCustom "17:00" (Some "09:30") = true
        <-> (a < b)%Z).
Proof.
  apply (endTime_check_same_width "09:30" "17:00"); reflexivity.
Defined.

(** X17. When one time of the time format is written H:MM from 2:00 on and
    the other HH:MM from 10:00 on, the validator of endTime compares them
    the wrong way round: the later time is refused as an end and the earlier
    one is let through, and the hours hireWaiter then charges are those of
    the positive difference. *)
Theorem endTime_check_mixed_width (early late : string) (a b : Z) :
  TimeFields.matches TimeFields.timeFormat early = true ->
  TimeFields.matches TimeFields.timeFormat late = true ->
  String.length early = 4 ->
  String.length late = 5 ->
  TimeFields.clockTime early = Some a ->
  TimeFields.clockTime late = Some b ->
  (2 * 3600000 <= a)%Z ->
  (10 * 3600000 <= b)%Z ->
  (a < b)%Z
  /\ TimeFields.endTimeValid late (Some early) = false
  /\ TimeFields.endTimeValid early (Some late) = true
  /\ TimeFields.totalHours late early
     = Some (inject_Z (b - a) / 3600000)%Q.
Proof.
  intros Hs He Hl4 Hl5 Ha Hb H2 H10.
  unfold TimeFields.endTimeValid, TimeFields.totalHours.
  rewrite Hs, He, Ha, Hb. cbn [andb].
  apply timeFormat_shape in Hs, He.
  destruct Hs as [h m1 m2 Hh Hm1 Hm2 | ]; [clear Hl4 | discriminate Hl4].
  destruct He as [ | h1' h2' m1' m2' Hh' Hm1' Hm2'];
    [discriminate Hl5 | clear Hl5].
  cbn in Ha, Hb. injection Ha as <-. injection Hb as <-.
  assert (B' : (0 <= TimeFields.digit h2' <= 9)%Z).
  { destruct Hh' as [(_ & H) | (_ & H)]; time_digits; lia. }
  assert (B1 : (0 <= TimeFields.digit h1' <= 2)%Z).
  { destruct Hh' as [(H & _) | (-> & _)]; [time_digits; lia | ].
    change (TimeFields.digit "2") with 2%Z. lia. }
  clear Hh'. time_digits.
  assert (C1 : (2 <= TimeFields.digit h)%Z) by lia.
  assert (C2 : (1 <= TimeFields.digit h1')%Z) by lia.
  split; [lia | ].
  unfold TimeFields.endTimeCustom, String.leb.
  cbn [truthy andb String.compare].
  pose proof (compare_digit h1' h) as P. pose proof (compare_digit h h1') as P'.
  pose proof (compare_digit h2' ":") as Q.
  pose proof (compare_digit ":" h2') as Q'.
  change (TimeFields.digit ":") with 10%Z in Q, Q'.
  repeat split.
  - destruct (Ascii.compare h1' h); [ | reflexivity | lia].
    destruct (Ascii.compare h2' ":"); [lia | reflexivity | lia].
  - destruct (Ascii.compare h h1'); [ | lia | reflexivity].
    destruct (Ascii.compare ":" h2'); [lia | lia | reflexivity].
  - f_equal. f_equal. f_equal. lia.
Qed.

Lemma endTime_check_mixed_width_witness :
  (32400000 < 36000000)%Z
  /\ TimeFields.endTimeValid "10:00" (Some "9:00") = false
  /\ TimeFields.endTimeValid "9:00" (Some "10:00") = true
  /\ TimeFields.totalHours "10:00" "9:00"
     = Some (inject_Z (36000000 - 32400000) / 3600000)%Q.
Proof.
  apply (endTime_check_mixed_width "9:00" "10:00" 32400000 36000000);
    try reflexivity; lia.
Defined.

(** ** The counters of the profiles against the orders and the jobs *)

Lemma rateVendor_step user id rating review s :
  storeStep s (snd (VendorController.rateVendor user id rating review s)).
Proof.
  destruct (find (fun v => Nat.eqb (Vendor._id v) id) (vendors s))
    as [vendor | ] eqn:Hv.
  2:{ unfold VendorController.rateVendor, bind, Vendor_findById, gets.
      rewrite Hv. apply step_none. }
  destruct (find (VendorController.completedOrderOf user id) (orders s))
    as [order | ] eqn:Ho.
  2:{ unfold VendorController.rateVendor, bind, Vendor_findById,
        Order_findOne, gets.
      rewrite Hv. cbn [orThrow ret]. rewrite Ho. apply step_none. }
  rewrite (rateVendor_found _ _ _ _ _ _ _ Hv Ho).
  destruct (RatingModel.isSome _); [apply step_none | ].
  destruct (RatingModel.validate _); [ | apply step_none].
  cbn zeta. cbn [snd]. apply step_rated_vendor.
  now apply find_some in Ho.
Qed.

Lemma rateWaiter_step user id rating att review s :
  storeStep s (snd (WaiterController.rateWaiter user id rating att review s)).
Proof. rewrite rateWaiter_frame. apply step_none. Qed.

Lemma save_step r s : storeStep s (snd (RatingModel.save r s)).
Proof.
  rewrite save_eq. destruct (RatingModel.validate r); [ | apply step_none].
  destruct (oneTarget r); [apply step_saved | apply step_none].
Qed.

Lemma deleteRating_step user id s :
  storeStep s (snd (RatingController.deleteRating user id s)).
Proof.
  destruct (find (fun d => Nat.eqb (Rating._id d) id) (ratings s))
    as [r | ] eqn:Hr.
  2:{ unfold RatingController.deleteRating, bind, RatingModel.findById,
        gets. rewrite Hr. apply step_none. }
  rewrite (deleteRating_found _ _ _ _ Hr).
  destruct (canDelete user r); [ | apply step_none].
  destruct (RatingModel.validate _); [ | apply step_none].
  destruct (oneTarget r); [apply step_retracted | apply step_none].
Qed.

Lemma reportRating_step id reason s :
  storeStep s (snd (RatingController.reportRating id reason s)).
Proof.
  destruct (find (fun d => Nat.eqb (Rating._id d) id) (ratings s))
    as [r | ] eqn:Hr.
  2:{ unfold RatingController.reportRating, bind, RatingModel.findById,
        gets. rewrite Hr. apply step_none. }
  rewrite (reportRating_found _ _ _ _ Hr).
  destruct (Rating.isReported r); [apply step_none | apply save_step].
Qed.

Lemma respondToRating_step user id message now s :
  storeStep s (snd (RatingController.respondToRating user id message now s)).
Proof.
  destruct (find (fun d => Nat.eqb (Rating._id d) id) (ratings s))
    as [r | ] eqn:Hr.
  2:{ unfold RatingController.respondToRating. unfold bind at 1.
      unfold RatingModel.findById, gets. rewrite Hr.
      unfold bind at 1. cbn [orThrow throw snd]. apply step_none. }
  rewrite (respondToRating_found _ _ _ _ _ _ Hr).
  destruct (negb (canRespond user r s)); [apply step_none | ].
  destruct (truthy _); [apply step_none | ].
  pose proof (save_step (Rating.set_response message now r) s) as S.
  destruct (RatingModel.save (Rating.set_response message now r) s)
    as [[[] | e] s1]; exact S.
Qed.

Lemma updateOrderStatus_storeStep user orderId status s :
  storeStep s (snd (VendorController.updateOrderStatus user orderId status s)).
Proof.
  destruct (vendorOf user s) as [vendor | ] eqn:Hv.
  2:{ unfold VendorController.updateOrderStatus, bind, Vendor_findOne, gets.
      unfold vendorOf in Hv. rewrite Hv. apply step_none. }
  destruct (orderOf vendor orderId s) as [order | ] eqn:Ho.
  2:{ unfold VendorController.updateOrderStatus, bind, Vendor_findOne,
        Order_findOne, gets. unfold vendorOf in Hv. unfold orderOf in Ho.
      rewrite Hv. cbn [orThrow ret]. rewrite Ho. apply step_none. }
  destruct (lookup (Order.status order) VendorController.validTransitions)
    as [allowed | ] eqn:Hl.
  2:{ unfold VendorController.updateOrderStatus, bind, Vendor_findOne,
        Order_findOne, gets. unfold vendorOf in Hv. unfold orderOf in Ho.
      rewrite Hv. cbn [orThrow ret]. rewrite Ho. cbn [orThrow ret].
      rewrite Hl. apply step_none. }
  rewrite (updateOrderStatus_found _ _ _ _ _ _ _ Hv Ho Hl).
  destruct (includes allowed status) eqn:Hi; [ | apply step_none].
  cbn [snd]. apply (step_order s user orderId); [exact Hv | exact Ho | ].
  apply orderEdge_table. exists allowed. split; [exact Hl | ].
  now apply includes_In.
Qed.

Lemma updateJobStatus_storeStep user jobId status reason now s :
  storeStep s
    (snd (WaiterController.updateJobStatus user jobId status reason now s)).
Proof.
  destruct (waiterOf user s) as [waiter | ] eqn:Hw.
  2:{ unfold WaiterController.updateJobStatus, bind, Waiter_findOne, gets.
      unfold waiterOf in Hw. rewrite Hw. apply step_none. }
  destruct (jobOf waiter jobId s) as [job | ] eqn:Hj.
  2:{ unfold WaiterController.updateJobStatus, bind, Waiter_findOne,
        Job_findOne, gets. unfold waiterOf in Hw. unfold jobOf in Hj.
      rewrite Hw. cbn [orThrow ret]. rewrite Hj. apply step_none. }
  destruct (lookup (Job.status job) WaiterController.validTransitions)
    as [allowed | ] eqn:Hl.
  2:{ unfold WaiterController.updateJobStatus, bind, Waiter_findOne,
        Job_findOne, gets. unfold waiterOf in Hw. unfold jobOf in Hj.
      rewrite Hw. cbn [orThrow ret]. rewrite Hj. cbn [orThrow ret].
      rewrite Hl. apply step_none. }
  rewrite (updateJobStatus_found _ _ _ _ _ _ _ _ _ Hw Hj Hl).
  destruct (includes allowed status) eqn:Hi; [ | apply step_none].
  cbn [snd]. apply (step_job s user jobId); [exact Hw | exact Hj | ].
  apply jobEdge_table. exists allowed. split; [exact Hl | ].
  now apply includes_In.
Qed.

Lemma handle_storeStep q s : storeStep s (handle q s).
Proof.
  destruct q; cbn [handle].
  - apply rateVendor_step.
  - apply rateWaiter_step.
  - apply deleteRating_step.
  - apply reportRating_step.
  - apply respondToRating_step.
  - rewrite getRatingById_frame. apply step_none.
  - apply updateOrderStatus_storeStep.
  - apply updateJobStatus_storeStep.
Qed.

Lemma map_view_replaceById {A B : Type} (id_of : A -> ObjectId) (f : A -> B)
    (x x' : A) (l : list A) :
  NoDup (map id_of l) -> In x l ->
  id_of x' = id_of x -> f x' = f x ->
  map f (replaceById id_of x' l) = map f l.
Proof.
  intros N Hin Hid Hf. unfold replaceById. rewrite map_map.
  apply map_ext_in. intros y Hy.
  destruct (Nat.eqb_spec (id_of y) (id_of x')) as [E | E]; [ | reflexivity].
  rewrite Hid in E. now rewrite (NoDup_map_eq id_of l y x N Hy Hin E).
Qed.

Lemma replaceById_same {A : Type} (id_of : A -> ObjectId) (x : A)
    (l : list A) :
  NoDup (map id_of l) -> In x l -> replaceById id_of x l = l.
Proof.
  intros N Hin. rewrite <- (map_id l) at 2.
  rewrite <- (map_id (replaceById id_of x l)).
  now apply map_view_replaceById with (x := x).
Qed.

Lemma In_replaceById_inv {A : Type} (id_of : A -> ObjectId) (d y : A)
    (l : list A) :
  In y (replaceById id_of d l) ->
  y = d \/ (In y l /\ id_of y <> id_of d).
Proof.
  unfold replaceById. intros H. apply in_map_iff in H as (x & E & Hx).
  destruct (Nat.eqb_spec (id_of x) (id_of d)); subst; auto.
Qed.

Lemma countIf_replaceById {A : Type} (id_of : A -> ObjectId) (p : A -> bool)
    (x x' : A) (l : list A) :
  NoDup (map id_of l) -> In x l -> id_of x' = id_of x ->
  (countIf p (replaceById id_of x' l)
   = countIf p l - Z.b2z (p x) + Z.b2z (p x'))%Z.
Proof.
  unfold countIf, replaceById. intros N Hin Hid. rewrite Hid.
  induction l as [ | a l IH]; [contradiction | ].
  cbn [map] in N. inversion N as [ | ? ? Hnot N']; subst.
  destruct Hin as [-> | Hin].
  - cbn [map filter]. rewrite Nat.eqb_refl.
    assert (E : map (fun d => if Nat.eqb (id_of d) (id_of x) then x' else d) l
                = l).
    { rewrite <- (map_id l) at 2. apply map_ext_in. intros y Hy.
      destruct (Nat.eqb_spec (id_of y) (id_of x)) as [E | E]; [ | reflexivity].
      exfalso. apply Hnot. rewrite <- E. now apply in_map. }
    rewrite E. destruct (p x), (p x'); cbn [List.length Z.b2z]; lia.
  - cbn [map filter].
    destruct (Nat.eqb_spec (id_of a) (id_of x)) as [E | E].
    + exfalso. apply Hnot. rewrite E. now apply in_map.
    + specialize (IH N' Hin).
      destruct (p a); cbn [List.length]; lia.
Qed.

Lemma vendorRated_counters vendor l :
  Vendor.completedBookings (vendorRated vendor l)
  = Vendor.completedBookings vendor.
Proof. unfold vendorRated. destruct (vendorDocs _ l); reflexivity. Qed.

Lemma waiterRated_counters waiter l :
  Waiter.totalJobs (waiterRated waiter l) = Waiter.totalJobs waiter
  /\ Waiter.completedJobs (waiterRated waiter l)
     = Waiter.completedJobs waiter.
Proof. unfold waiterRated. destruct (waiterDocs _ l); split; reflexivity. Qed.


Lemma countIf_map {A B : Type} (f : A -> B) (p : B -> bool) (l : list A) :
  countIf (fun x => p (f x)) l = countIf p (map f l).
Proof.
  unfold countIf. f_equal.
  induction l as [ | a l IH]; [reflexivity | ].
  cbn [map filter]. destruct (p (f a)); cbn [List.length]; now rewrite IH.
Qed.

Lemma Forall_equiv {A : Type} (P Q : A -> Prop) (l : list A) :
  (forall a, P a <-> Q a) -> Forall P l <-> Forall Q l.
Proof.
  intros H. split; apply Forall_impl; intros a; apply H.
Qed.

Lemma bookingsCounted_iff s :
  bookingsCounted s <-> bookingsLedgered (vendorLedger s).
Proof.
  unfold bookingsCounted, bookingsLedgered, vendorLedger, completedOrders.
  cbn [fst snd]. rewrite Forall_map. apply Forall_equiv. intros v.
  cbn [fst snd].
  now rewrite <- (countIf_map
                    (fun o => (Order._id o, Order.vendor o, Order.status o))
                    (fun o => Nat.eqb (snd (fst o)) (Vendor._id v)
                              && String.eqb (snd o) "completed")).
Qed.

Lemma jobsCounted_iff s : jobsCounted s <-> jobsLedgered (waiterLedger s).
Proof.
  unfold jobsCounted, jobsLedgered, waiterLedger, jobsIn.
  cbn [fst snd]. rewrite Forall_map. apply Forall_equiv. intros w.
  cbn [fst snd].
  now rewrite <- !(countIf_map
                     (fun j => (Job._id j, Job.waiter j, Job.status j))
                     (fun j => Nat.eqb (snd (fst j)) (Waiter._id w)
                               && includes _ (snd j))).
Qed.

Lemma recomputeTargets_ledgers r s :
  uniqueIds s ->
  vendorLedger (recomputeTargets r s) = vendorLedger s
  /\ waiterLedger (recomputeTargets r s) = waiterLedger s.
Proof.
  intros (Nv & Nw & _ & _).
  unfold recomputeTargets, recomputeWaiter, recomputeVendor.
  destruct (Rating.vendor r) as [v | ];
    [destruct (find (fun d => Nat.eqb (Vendor._id d) v) (vendors s))
       as [vendor | ] eqn:Hv | ];
    cbn [waiters set_vendors];
    (destruct (Rating.waiter r) as [w | ];
     [destruct (find (fun d => Nat.eqb (Waiter._id d) w) (waiters s))
        as [waiter | ] eqn:Hw | ]);
    unfold vendorLedger, waiterLedger;
    cbn [vendors waiters orders jobs set_vendors set_waiters];
    repeat match goal with
    | H : find _ (vendors s) = Some ?d |- _ =>
        apply find_some in H as (H & _);
        rewrite (map_view_replaceById Vendor._id
                   (fun v => (Vendor._id v, Vendor.completedBookings v))
                   d _ (vendors s) Nv H (vendorRated_id _ _))
          by (now rewrite vendorRated_id, vendorRated_counters)
    | H : find _ (waiters s) = Some ?d |- _ =>
        apply find_some in H as (H & _);
        rewrite (map_view_replaceById Waiter._id
                   (fun w => (Waiter._id w, Waiter.totalJobs w,
                              Waiter.completedJobs w))
                   d _ (waiters s) Nw H (waiterRated_id _ _))
          by (now rewrite waiterRated_id,
                (proj1 (waiterRated_counters _ _)),
                (proj2 (waiterRated_counters _ _)))
    end;
    split; reflexivity.
Qed.

Lemma uniqueIds_set_ratings l s : uniqueIds s -> uniqueIds (set_ratings l s).
Proof. exact (fun H => H). Qed.

Lemma storeStep_rating_ledgers s s' :
  uniqueIds s ->
  storeStep s s' ->
  (vendorLedger s' = vendorLedger s /\ waiterLedger s' = waiterLedger s)
  \/ (exists user orderId vendor order status,
        vendorOf user s = Some vendor
        /\ orderOf vendor orderId s = Some order
        /\ orderEdge (Order.status order) status
        /\ s' = orderUpdated vendor order status s)
  \/ (exists user jobId waiter job status reason now,
        waiterOf user s = Some waiter
        /\ jobOf waiter jobId s = Some job
        /\ jobEdge (Job.status job) status
        /\ s' = jobUpdated waiter job status reason now s).
Proof.
  intros U [ | doc order Hin | r | r
           | user orderId vendor order status Hv Ho He
           | user jobId waiter job status reason now Hw Hj He].
  - left. now split.
  - left. unfold vendorRatingStored. cbn zeta.
    destruct (recomputeTargets_ledgers doc
                (set_ratings (ratings s ++ [doc]) s)
                (uniqueIds_set_ratings _ s U)) as (EV & EW).
    destruct (recomputeTargets_frame doc
                (set_ratings (ratings s ++ [doc]) s)) as (_ & Eo & _).
    split; [ | exact EW].
    unfold vendorLedger in *. cbn [vendors orders set_orders] in *.
    injection EV as EV1 EV2. rewrite EV1. f_equal.
    rewrite Eo. cbn [orders set_ratings].
    destruct U as (_ & _ & No & _).
    now apply map_view_replaceById with (x := order).
  - left. unfold ratingRetracted.
    apply (recomputeTargets_ledgers _ (set_ratings _ s)),
      uniqueIds_set_ratings, U.
  - left. unfold ratingSaved.
    apply (recomputeTargets_ledgers _ (set_ratings _ s)),
      uniqueIds_set_ratings, U.
  - right. left. now exists user, orderId, vendor, order, status.
  - right. right. now exists user, jobId, waiter, job, status, reason, now.
Qed.

Lemma storeStep_ids s s' :
  storeStep s s' ->
  map Vendor._id (vendors s') = map Vendor._id (vendors s)
  /\ map Waiter._id (waiters s') = map Waiter._id (waiters s)
  /\ map Order._id (orders s') = map Order._id (orders s)
  /\ map Job._id (jobs s') = map Job._id (jobs s).
Proof.
  assert (R : forall r s0,
           map Vendor._id (vendors (recomputeTargets r s0))
           = map Vendor._id (vendors s0)
           /\ map Waiter._id (waiters (recomputeTargets r s0))
              = map Waiter._id (waiters s0)
           /\ orders (recomputeTargets r s0) = orders s0
           /\ jobs (recomputeTargets r s0) = jobs s0).
  { intros r s0. unfold recomputeTargets, recomputeWaiter, recomputeVendor.
    destruct (Rating.vendor r) as [v | ];
      [destruct (find _ (vendors s0)) | ];
      cbn [waiters set_vendors];
      (destruct (Rating.waiter r) as [w | ];
       [destruct (find _ (waiters s0)) | ]);
      cbn [vendors waiters orders jobs set_vendors set_waiters];
      rewrite ?map_id_replaceById; repeat split. }
  intros [ | doc order Hin | r | r
         | user orderId vendor order status Hv Ho He
         | user jobId waiter job status reason now Hw Hj He].
  - repeat split.
  - unfold vendorRatingStored. cbn zeta.
    destruct (R doc (set_ratings (ratings s ++ [doc]) s))
      as (E1 & E2 & E3 & E4).
    cbn [vendors waiters orders jobs set_orders].
    rewrite map_id_replaceById, E1, E2, E3, E4. repeat split.
  - unfold ratingRetracted.
    destruct (R (Rating.set_isActive false r)
                (set_ratings
                   (replaceById Rating._id (Rating.set_isActive false r)
                      (ratings s)) s)) as (E1 & E2 & E3 & E4).
    rewrite E1, E2, E3, E4. repeat split.
  - unfold ratingSaved.
    destruct (R r (set_ratings (replaceById Rating._id r (ratings s)) s))
      as (E1 & E2 & E3 & E4).
    rewrite E1, E2, E3, E4. repeat split.
  - unfold orderUpdated. destruct (String.eqb status "completed");
      cbn [vendors waiters orders jobs set_orders set_vendors];
      rewrite ?map_id_replaceById; repeat split.
  - unfold jobUpdated.
    destruct (String.eqb status "completed" || String.eqb status "accepted");
      cbn [vendors waiters orders jobs set_jobs set_waiters];
      rewrite ?map_id_replaceById; repeat split.
Qed.

Lemma storeStep_uniqueIds s s' :
  storeStep s s' -> uniqueIds s -> uniqueIds s'.
Proof.
  intros St (N1 & N2 & N3 & N4).
  destruct (storeStep_ids s s' St) as (E1 & E2 & E3 & E4).
  unfold uniqueIds. now rewrite E1, E2, E3, E4.
Qed.

Lemma orderEdge_not_completed a b : orderEdge a b -> a <> "completed".
Proof. intros [ ]; discriminate. Qed.

Lemma orderUpdated_bookings s user orderId vendor order status :
  uniqueIds s ->
  vendorOf user s = Some vendor ->
  orderOf vendor orderId s = Some order ->
  orderEdge (Order.status order) status ->
  bookingsCounted s ->
  bookingsCounted (orderUpdated vendor order status s).
Proof.
  intros (Nv & _ & No & _) Hv Ho He B.
  apply find_some in Hv as (Hvin & _).
  apply find_some in Ho as (Hoin & Hq).
  apply andb_prop in Hq as (_ & Hov). apply Nat.eqb_eq in Hov.
  assert (C : forall i,
             completedOrders i (orderUpdated vendor order status s)
             = (completedOrders i s
                + Z.b2z (Nat.eqb (Vendor._id vendor) i
                         && String.eqb status "completed"))%Z).
  { intros i. unfold completedOrders.
    replace (orders (orderUpdated vendor order status s))
      with (replaceById Order._id (Order.set_status status order) (orders s))
      by (unfold orderUpdated; now destruct (String.eqb status "completed")).
    rewrite (countIf_replaceById Order._id _ order
               (Order.set_status status order) (orders s) No Hoin eq_refl).
    cbn [Order.vendor Order.status Order.set_status]. rewrite Hov.
    apply orderEdge_not_completed, String.eqb_neq in He. rewrite He.
    rewrite andb_false_r. cbn [Z.b2z]. lia. }
  unfold bookingsCounted in *. rewrite Forall_forall in *.
  intros y Hy. rewrite C.
  unfold orderUpdated in Hy.
  destruct (String.eqb status "completed") eqn:Hc;
    cbn [vendors set_orders set_vendors] in Hy.
  - apply In_replaceById_inv in Hy as [-> | (Hy & Hne)].
    + cbn [Vendor.completedBookings Vendor._id Vendor.set_completedBookings].
      rewrite Nat.eqb_refl. cbn [andb Z.b2z]. now rewrite (B vendor Hvin).
    + cbn [Vendor._id Vendor.set_completedBookings] in Hne.
      rewrite (proj2 (Nat.eqb_neq _ _) (fun E => Hne (eq_sym E))).
      cbn [andb Z.b2z]. rewrite (B y Hy). lia.
  - rewrite andb_false_r. cbn [Z.b2z]. rewrite (B y Hy). lia.
Qed.

Lemma jobsIn_step among i s waiter job status reason now :
  NoDup (map Job._id (jobs s)) ->
  In job (jobs s) ->
  Job.waiter job = Waiter._id waiter ->
  jobsIn among i (jobUpdated waiter job status reason now s)
  = (jobsIn among i s
     + if Nat.eqb (Waiter._id waiter) i
       then Z.b2z (includes among status)
            - Z.b2z (includes among (Job.status job))
       else 0)%Z.
Proof.
  intros Nj Hin Hw. unfold jobsIn.
  replace (jobs (jobUpdated waiter job status reason now s))
    with (replaceById Job._id (jobAfter job status reason now) (jobs s))
    by (unfold jobUpdated;
        now destruct (String.eqb status "completed"
                      || String.eqb status "accepted")).
  destruct (jobAfter_id job status reason now) as (Ei & Ew & Es).
  rewrite (countIf_replaceById Job._id _ job _ (jobs s) Nj Hin Ei).
  rewrite Ew, Es, Hw.
  destruct (Nat.eqb (Waiter._id waiter) i); cbn [andb Z.b2z]; lia.
Qed.

Lemma jobUpdated_jobs s user jobId waiter job status reason now :
  uniqueIds s ->
  waiterOf user s = Some waiter ->
  jobOf waiter jobId s = Some job ->
  jobEdge (Job.status job) status ->
  jobsCounted s ->
  jobsCounted (jobUpdated waiter job status reason now s).
Proof.
  intros (_ & Nw & _ & Nj) Hw Hj He B.
  apply find_some in Hw as (Hwin & _).
  apply find_some in Hj as (Hjin & Hq).
  apply andb_prop in Hq as (_ & Hjw). apply Nat.eqb_eq in Hjw.
  unfold jobsCounted in *. rewrite Forall_forall in *.
  intros y Hy.
  rewrite !(jobsIn_step _ _ s waiter job status reason now Nj Hjin Hjw).
  pose proof (B waiter Hwin) as (Bc & Bt).
  unfold jobUpdated in Hy.
  inversion He as [E | E | E | E | E]; rewrite <- E in *; subst status;
    cbn [String.eqb Ascii.eqb Bool.eqb orb] in Hy;
    cbn [vendors waiters set_jobs set_waiters] in Hy;
    cbn [includes existsb String.eqb Ascii.eqb Bool.eqb orb Z.b2z];
    try (apply In_replaceById_inv in Hy as [-> | (Hy & Hne)];
         [ unfold waiterAfter;
           cbn [String.eqb Ascii.eqb Bool.eqb
                Waiter._id Waiter.totalJobs Waiter.completedJobs
                Waiter.set_jobs];
           rewrite Nat.eqb_refl; lia
         | rewrite (proj1 (waiterAfter_id _ _)) in Hne;
           rewrite (proj2 (Nat.eqb_neq _ _) (fun E' => Hne (eq_sym E')));
           destruct (B y Hy); lia ]);
    destruct (Nat.eqb (Waiter._id waiter) (Waiter._id y));
    destruct (B y Hy); lia.
Qed.

Lemma storeStep_counted s s' :
  uniqueIds s -> storeStep s s' ->
  (bookingsCounted s -> bookingsCounted s')
  /\ (jobsCounted s -> jobsCounted s').
Proof.
  intros U St.
  destruct (storeStep_rating_ledgers s s' U St)
    as [(EV & EW)
       | [(user & orderId & vendor & order & status & Hv & Ho & He & ->)
         | (user & jobId & waiter & job & status & reason & now
            & Hw & Hj & He & ->)]].
  - rewrite !bookingsCounted_iff, !jobsCounted_iff, EV, EW. now split.
  - split; [now apply (orderUpdated_bookings s user orderId) | ].
    rewrite !jobsCounted_iff.
    replace (waiterLedger (orderUpdated vendor order status s))
      with (waiterLedger s); [tauto | ].
    unfold orderUpdated. now destruct (String.eqb status "completed").
  - split; [ | now apply (jobUpdated_jobs s user jobId)].
    rewrite !bookingsCounted_iff.
    replace (vendorLedger (jobUpdated waiter job status reason now s))
      with (vendorLedger s); [tauto | ].
    unfold jobUpdated.
    now destruct (String.eqb status "completed"
                  || String.eqb status "accepted").
Qed.

Lemma handleAll_counted qs s :
  uniqueIds s ->
  uniqueIds (handleAll qs s)
  /\ (bookingsCounted s -> bookingsCounted (handleAll qs s))
  /\ (jobsCounted s -> jobsCounted (handleAll qs s)).
Proof.
  revert s. induction qs as [ | q qs IH]; intros s U; cbn [handleAll];
    [tauto | ].
  pose proof (handle_storeStep q s) as St.
  destruct (IH (handle q s) (storeStep_uniqueIds _ _ St U)) as (U' & B & J).
  destruct (storeStep_counted s (handle q s) U St) as (B0 & J0).
  tauto.
Qed.

Lemma countIf_le {A : Type} (p q : A -> bool) (l : list A) :
  (forall x, p x = true -> q x = true) -> (countIf p l <= countIf q l)%Z.
Proof.
  intros H. unfold countIf. apply inj_le.
  induction l as [ | a l IH]; [apply le_n | ].
  cbn [filter]. destruct (p a) eqn:E.
  - rewrite (H a E). cbn [List.length]. lia.
  - destruct (q a); cbn [List.length]; lia.
Qed.

(** X18. completedBookings follows the orders: when identifiers are unique
    and every vendor profile counts the completed orders of the vendor,
    every sequence of requests leaves a store where that still holds. *)
Theorem completedBookings_counts_completed_orders (qs : list Request)
    (s : Store) :
  uniqueIds s ->
  bookingsCounted s ->
  bookingsCounted (handleAll qs s).
Proof.
  intros U B. now apply (handleAll_counted qs s U).
Qed.

Lemma completedBookings_counts_completed_orders_witness :
  bookingsCounted
    (handleAll [UpdateOrderStatus vera 100 "confirmed";
                UpdateOrderStatus vera 100 "in-progress";
                UpdateOrderStatus vera 100 "completed";
                RateVendor alice 10 5 None] demo).
Proof.
  apply (completedBookings_counts_completed_orders
           [UpdateOrderStatus vera 100 "confirmed";
            UpdateOrderStatus vera 100 "in-progress";
            UpdateOrderStatus vera 100 "completed";
            RateVendor alice 10 5 None] demo).
  - repeat split; cbn; repeat constructor; intros [].
  - repeat constructor.
Defined.

(** X19. The job counters follow the jobs: when identifiers are unique and
    every waiter profile has completedJobs equal to the number of its
    completed jobs and totalJobs equal to the number of jobs it accepted
    plus the number it completed, every sequence of requests leaves a store
    where that still holds; so totalJobs is never less than twice
    completedJobs, and the completion rate never exceeds one half. *)
Theorem job_counters_follow_jobs (qs : list Request) (s : Store) :
  uniqueIds s ->
  jobsCounted s ->
  jobsCounted (handleAll qs s)
  /\ Forall (fun w => (2 * Waiter.completedJobs w <= Waiter.totalJobs w)%Z)
       (waiters (handleAll qs s)).
Proof.
  intros U J. pose proof (proj2 (proj2 (handleAll_counted qs s U)) J) as J'.
  split; [exact J' | ].
  unfold jobsCounted in J'. apply Forall_impl with (2 := J').
  intros w (Ec & Et). rewrite Et, Ec.
  assert (L : (jobsIn ["completed"] (Waiter._id w) (handleAll qs s)
               <= jobsIn ["accepted"; "in-progress"; "cancelled"; "completed"]
                    (Waiter._id w) (handleAll qs s))%Z).
  { apply countIf_le. intros j Hj.
    apply andb_prop in Hj as (-> & Hj). cbn [andb].
    apply includes_In in Hj. apply includes_In.
    destruct Hj as [<- | []]. cbn. tauto. }
  lia.
Qed.

Lemma job_counters_follow_jobs_witness :
  jobsCounted
    (handleAll [UpdateJobStatus walt 200 "accepted" None 1%Z;
                UpdateJobStatus walt 200 "in-progress" None 2%Z;
                UpdateJobStatus walt 200 "completed" None 3%Z] demo)
  /\ Forall (fun w => (2 * Waiter.completedJobs w <= Waiter.totalJobs w)%Z)
       (waiters
          (handleAll [UpdateJobStatus walt 200 "accepted" None 1%Z;
                      UpdateJobStatus walt 200 "in-progress" None 2%Z;
                      UpdateJobStatus walt 200 "completed" None 3%Z] demo)).
Proof.
  apply (job_counters_follow_jobs
           [UpdateJobStatus walt 200 "accepted" None 1%Z;
            UpdateJobStatus walt 200 "in-progress" None 2%Z;
            UpdateJobStatus walt 200 "completed" None 3%Z] demo).
  - repeat split; cbn; repeat constructor; intros [].
  - repeat constructor.
Defined.

(** ** Deleting an account *)

Lemma filter_filter_shorter {A : Type} (p q : A -> bool) (l : list A)
    (x : A) :
  In x l -> p x = true -> q x = false ->
  List.length (filter p (filter q l)) < List.length (filter p l).
Proof.
  intros Hin Hp Hq.
  assert (Le : forall l0 : list A,
             List.length (filter p (filter q l0))
             <= List.length (filter p l0)).
  { induction l0 as [ | a l0 IH]; [apply le_n | ].
    cbn [filter]. destruct (q a); cbn [filter];
      destruct (p a); cbn [List.length]; lia. }
  induction l as [ | a l IH]; [contradiction | ].
  cbn [filter]. destruct Hin as [-> | Hin].
  - rewrite Hq, Hp. cbn [List.length]. specialize (Le l). lia.
  - specialize (IH Hin). destruct (q a); cbn [filter];
      destruct (p a); cbn [List.length]; lia.
Qed.

(** X20. Deleting a customer account removes the ratings the customer
    wrote but recomputes nothing: every vendor profile is as before, so a
    vendor the customer had rated, whose totalRatings was the number of its
    ratings, now shows more ratings than are stored. *)
Theorem deleteUser_leaves_stale_aggregates (id : ObjectId)
    (w : AdminController.World) (user : User.t) (v : Vendor.t)
    (r : Rating.t) :
  find (fun u => Nat.eqb (User._id u) id) (AdminController.users w)
  = Some user ->
  User.role user = "user" ->
  In v (vendors (AdminController.store w)) ->
  In r (ratings (AdminController.store w)) ->
  Rating.reviewer r = id ->
  refIs (Rating.vendor r) (Vendor._id v) = true ->
  Vendor.totalRatings v
  = Z.of_nat (List.length
                (vendorDocs (Vendor._id v)
                   (ratings (AdminController.store w)))) ->
  exists w',
    AdminController.deleteUser id w = (Ok tt, w')
    /\ vendors (AdminController.store w')
       = vendors (AdminController.store w)
    /\ waiters (AdminController.store w')
       = waiters (AdminController.store w)
    /\ ~ In r (ratings (AdminController.store w'))
    /\ (Z.of_nat (List.length
                    (vendorDocs (Vendor._id v)
                       (ratings (AdminController.store w'))))
        < Vendor.totalRatings v)%Z.
Proof.
  intros Hu Hrole Hv Hr Hrev Hrv Htot.
  unfold AdminController.deleteUser. rewrite Hu, Hrole.
  cbn [String.eqb Ascii.eqb Bool.eqb].
  eexists. split; [reflexivity | ].
  cbn [AdminController.store]. unfold AdminController.deleteCustomerData.
  cbn [vendors waiters ratings set_ratings set_orders].
  apply find_some in Hu as (_ & Hid). apply Nat.eqb_eq in Hid.
  repeat split.
  - unfold AdminController.deleteMany. intros Hin.
    apply filter_In in Hin as (_ & Hn).
    rewrite Hrev, Hid, Nat.eqb_refl in Hn. discriminate.
  - rewrite Htot. apply inj_lt. unfold vendorDocs, AdminController.deleteMany.
    apply filter_filter_shorter with (x := r); [exact Hr | exact Hrv | ].
    now rewrite Hrev, Hid, Nat.eqb_refl.
Qed.

Lemma deleteUser_leaves_stale_aggregates_witness :
  exists w',
    AdminController.deleteUser 1 ratedWorld = (Ok tt, w')
    /\ vendors (AdminController.store w')
       = vendors (AdminController.store ratedWorld)
    /\ waiters (AdminController.store w')
       = waiters (AdminController.store ratedWorld)
    /\ ~ In ratedDoc (ratings (AdminController.store w'))
    /\ (Z.of_nat (List.length
                    (vendorDocs 10 (ratings (AdminController.store w'))))
        < Vendor.totalRatings (vendorRated veraVendor (ratings rated)))%Z.
Proof.
  apply (deleteUser_leaves_stale_aggregates 1 ratedWorld alice
           (vendorRated veraVendor (ratings rated)) ratedDoc);
    try reflexivity; vm_compute; auto.
Defined.

(** X21. Deleting a vendor account deletes the jobs of the vendor but not
    the ratings the vendor wrote about waiters: such a rating is still
    stored afterwards, the waiter profiles are as before, and no stored job
    carries the identifier the rating refers to. *)
Theorem deleteUser_leaves_dangling_ratings (id : ObjectId)
    (w : AdminController.World) (user : User.t) (vendor : Vendor.t)
    (r : Rating.t) (j : ObjectId) :
  find (fun u => Nat.eqb (User._id u) id) (AdminController.users w)
  = Some user ->
  User.role user = "vendor" ->
  vendorOf user (AdminController.store w) = Some vendor ->
  In r (ratings (AdminController.store w)) ->
  Rating.vendor r = None ->
  Rating.job r = Some j ->
  (forall job, In job (jobs (AdminController.store w)) ->
               Job._id job = j -> Job.vendor job = Vendor._id vendor) ->
  exists w',
    AdminController.deleteUser id w = (Ok tt, w')
    /\ In r (ratings (AdminController.store w'))
    /\ waiters (AdminController.store w')
       = waiters (AdminController.store w)
    /\ forall job, In job (jobs (AdminController.store w')) ->
                   Job._id job <> j.
Proof.
  intros Hu Hrole Hv Hr Hrv Hrj Hjobs.
  unfold AdminController.deleteUser. rewrite Hu, Hrole.
  cbn [String.eqb Ascii.eqb Bool.eqb].
  eexists. split; [reflexivity | ].
  cbn [AdminController.store]. unfold AdminController.deleteVendorData.
  unfold vendorOf in Hv. rewrite Hv.
  cbn [vendors waiters ratings jobs orders set_ratings set_orders set_jobs
       set_vendors].
  unfold AdminController.deleteMany. repeat split.
  - apply filter_In. split; [exact Hr | ]. now rewrite Hrv.
  - intros job Hin E. apply filter_In in Hin as (Hin & Hn).
    rewrite (Hjobs job Hin E), Nat.eqb_refl in Hn. discriminate.
Qed.

Lemma deleteUser_leaves_dangling_ratings_witness :
  exists w',
    AdminController.deleteUser 2 vendorRatedWaiter = (Ok tt, w')
    /\ In (Rating.mk 1 2 None (Some 20) None (Some 200) 4 (Some 5%Q) None
             true None false None)
         (ratings (AdminController.store w'))
    /\ waiters (AdminController.store w')
       = waiters (AdminController.store vendorRatedWaiter)
    /\ forall job, In job (jobs (AdminController.store w')) ->
                   Job._id job <> 200.
Proof.
  apply (deleteUser_leaves_dangling_ratings 2 vendorRatedWaiter vera
           veraVendor
           (Rating.mk 1 2 None (Some 20) None (Some 200) 4 (Some 5%Q) None
              true None false None) 200);
    try reflexivity.
  - vm_compute. auto.
  - intros job [<- | []] _. reflexivity.
Defined.

(** ** The public listing of the ratings of a vendor *)

Lemma tally_sum x groups :
  list_sum (map snd (RatingListing.tally x groups))
  = S (list_sum (map snd groups)).
Proof.
  unfold list_sum.
  induction groups as [ | [y n] rest IH]; [reflexivity | ].
  cbn [RatingListing.tally]. destruct (Qeq_bool x y); [reflexivity | ].
  destruct (Qle_bool y x); [reflexivity | ].
  cbn [map snd fold_right]. rewrite IH. lia.
Qed.

Lemma breakdown_sum docs :
  list_sum (map snd (RatingListing.breakdown docs)) = List.length docs.
Proof.
  unfold RatingListing.breakdown.
  assert (G : forall g,
             list_sum (map snd (fold_left
                                  (fun groups r =>
                                     RatingListing.tally (Rating.rating r)
                                       groups) docs g))
             = List.length docs + list_sum (map snd g)).
  { induction docs as [ | d docs IH]; intros g; [reflexivity | ].
    cbn [fold_left List.length]. rewrite IH, tally_sum. lia. }
  rewrite G. cbn. lia.
Qed.

Lemma getVendorRatings_found vendorId rating s vendor :
  find (fun v => Nat.eqb (Vendor._id v) vendorId) (vendors s) = Some vendor ->
  rating <> Some None ->
  RatingListing.getVendorRatings vendorId rating s
  = (Ok (RatingListing.mkVendorRatings
           (List.length
              (filter (fun r =>
                         refIs (Rating.vendor r) vendorId && Rating.isActive r
                         && match rating with
                            | None => true
                            | Some None => false
                            | Some (Some n) =>
                                Qeq_bool (Rating.rating r) (inject_Z n)
                            end) (ratings s)))
           (RatingListing.breakdown
              (filter (fun r => refIs (Rating.vendor r) vendorId
                                && Rating.isActive r) (ratings s)))
           (Vendor.averageRating vendor) (Vendor.totalRatings vendor)), s).
Proof.
  intros Hv Hr.
  unfold RatingListing.getVendorRatings, bind, Vendor_findById, gets.
  rewrite Hv. cbn [orThrow ret].
  apply find_some in Hv as (_ & E). apply Nat.eqb_eq in E. rewrite E.
  destruct rating as [[n | ] | ]; [reflexivity | now destruct Hr | reflexivity].
Qed.

Lemma getVendorRatings_frame vendorId rating s :
  snd (RatingListing.getVendorRatings vendorId rating s) = s.
Proof.
  unfold RatingListing.getVendorRatings, bind, Vendor_findById, gets.
  destruct (find _ (vendors s)); [ | reflexivity].
  now destruct rating as [[n | ] | ].
Qed.

(** X22. getVendorRatings writes nothing, and without a filter on the
    score the counts of its ratingBreakdown add up to its total: both count
    the active ratings of the vendor. *)
Theorem getVendorRatings_breakdown_adds_up (vendorId : ObjectId)
    (rating : option (option Z)) (s : Store) :
  snd (RatingListing.getVendorRatings vendorId rating s) = s
  /\ forall answer,
       fst (RatingListing.getVendorRatings vendorId None s) = Ok answer ->
       list_sum (map snd (RatingListing.ratingBreakdown answer))
       = RatingListing.total answer.
Proof.
  destruct (find (fun v => Nat.eqb (Vendor._id v) vendorId) (vendors s))
    as [vendor | ] eqn:Hv.
  - split; [apply getVendorRatings_frame | ].
    rewrite (getVendorRatings_found _ None _ _ Hv) by discriminate.
    cbn [fst]. intros answer [= <-].
    cbn [RatingListing.ratingBreakdown RatingListing.total].
    rewrite breakdown_sum. f_equal. apply filter_ext. intros r.
    now rewrite andb_true_r.
  - unfold RatingListing.getVendorRatings, bind, Vendor_findById, gets.
    rewrite Hv. cbn [orThrow throw fst snd]. split; [reflexivity | ].
    discriminate.
Qed.

Lemma getVendorRatings_breakdown_adds_up_witness :
  list_sum
    (map snd
       (RatingListing.ratingBreakdown
          (RatingListing.mkVendorRatings 1 [(5%Q, 1)] (50 # 10) 1)))
  = RatingListing.total
      (RatingListing.mkVendorRatings 1 [(5%Q, 1)] (50 # 10) 1).
Proof.
  apply (proj2 (getVendorRatings_breakdown_adds_up 10 None rated)).
  reflexivity.
Defined.

(** X23. After a successful deleteRating of a rating of a vendor, the
    answer of getVendorRatings for that vendor contradicts itself: its
    totalRatings, read from the profile, is greater than its total, the
    number of active ratings, because the profile still counts the
    retracted rating. *)
Theorem getVendorRatings_after_retraction (user : User.t) (id v : ObjectId)
    (s s' : Store) (r : Rating.t) (vendor : Vendor.t) :
  find (fun d => Nat.eqb (Rating._id d) id) (ratings s) = Some r ->
  Rating.vendor r = Some v ->
  find (fun d => Nat.eqb (Vendor._id d) v) (vendors s) = Some vendor ->
  RatingController.deleteRating user id s = (Ok tt, s') ->
  exists answer,
    RatingListing.getVendorRatings v None s' = (Ok answer, s')
    /\ (Z.of_nat (RatingListing.total answer)
        < RatingListing.totalRatings answer)%Z.
Proof.
  intros Hr Hrv Hv H.
  apply deleteRating_Ok in H as (r0 & Hr0 & _ & _ & ->).
  assert (r0 = r) by congruence. subst r0.
  pose proof (recomputeTargets_vendor (Rating.set_isActive false r)
                (set_ratings
                   (replaceById Rating._id (Rating.set_isActive false r)
                      (ratings s)) s) v vendor Hrv Hv) as F.
  fold (ratingRetracted r s) in F.
  rewrite (getVendorRatings_found _ None _ _ F) by discriminate.
  eexists. split; [reflexivity | ].
  cbn [RatingListing.total RatingListing.totalRatings].
  unfold vendorRated.
  assert (Hin : In (Rating.set_isActive false r)
                  (ratings (ratingRetracted r s))).
  { destruct (ratingRetracted_frame r s) as (-> & _).
    apply In_replaceById with (d := r); [ | reflexivity].
    now apply find_some in Hr. }
  assert (Hd : In (Rating.set_isActive false r)
                 (vendorDocs (Vendor._id vendor)
                    (ratings (ratingRetracted r s)))).
  { unfold vendorDocs. apply filter_In. split; [exact Hin | ].
    cbn [Rating.vendor Rating.set_isActive]. rewrite Hrv.
    apply find_some in Hv as (_ & E). cbn [refIs].
    now rewrite Nat.eqb_sym. }
  destruct (vendorDocs (Vendor._id vendor) (ratings (ratingRetracted r s)))
    as [ | d ds] eqn:Ed; [contradiction | ].
  cbn [Vendor.totalRatings Vendor.set_rating]. rewrite <- Ed.
  apply inj_lt. unfold vendorDocs.
  apply find_some in Hv as (_ & E). apply Nat.eqb_eq in E. rewrite E.
  assert (S : forall l,
             filter (fun r1 => refIs (Rating.vendor r1) v
                               && Rating.isActive r1 && true) l
             = filter (fun r1 => refIs (Rating.vendor r1) v)
                 (filter Rating.isActive l)).
  { induction l as [ | a l IH]; [reflexivity | ].
    cbn [filter]. destruct (Rating.isActive a); cbn [filter];
      destruct (refIs (Rating.vendor a) v); cbn [andb]; now rewrite IH. }
  rewrite S.
  apply filter_filter_shorter with (x := Rating.set_isActive false r);
    [exact Hin | | reflexivity].
  cbn [Rating.vendor Rating.set_isActive]. rewrite Hrv. cbn [refIs].
  apply Nat.eqb_refl.
Qed.

Lemma getVendorRatings_after_retraction_witness :
  exists answer,
    RatingListing.getVendorRatings 10 None unrated = (Ok answer, unrated)
    /\ (Z.of_nat (RatingListing.total answer)
        < RatingListing.totalRatings answer)%Z.
Proof.
  apply (getVendorRatings_after_retraction root 1 10 rated unrated ratedDoc
           (vendorRated veraVendor (ratings rated))); reflexivity.
Defined.

(** ** Updating the vendor profile *)

(** X24. updateVendorProfile hands the body to findByIdAndUpdate as it is:
    with unique profile identifiers, a vendor whose body carries an
    averageRating between 0 and 5 and a totalRatings gets exactly these
    stored on the profile, whatever the stored ratings are, which stay as
    they were; and a price range whose maximum is 0 passes the price check
    whatever its minimum is. *)
Theorem updateVendorProfile_overwrites_aggregates (user : User.t)
    (vendor : Vendor.t) (s : Store) (a : Q) (n : Z) (min : Q) :
  NoDup (map Vendor._id (vendors s)) ->
  vendorOf user s = Some vendor ->
  Qle_bool 0 a = true ->
  Qle_bool a 5 = true ->
  exists v' s',
    VendorProfile.updateVendorProfile user
      (VendorProfile.mkBody (Some (min, 0%Q)) (Some a) (Some n) None None) s
    = (Ok (Some v'), s')
    /\ Vendor.averageRating v' = a
    /\ Vendor.totalRatings v' = n
    /\ vendorOf user s' = Some v'
    /\ ratings s' = ratings s.
Proof.
  intros N Hv Ha0 Ha5. unfold vendorOf in Hv.
  unfold VendorProfile.updateVendorProfile, bind, Vendor_findOne, gets.
  rewrite Hv. cbn [orThrow ret VendorProfile.priceRange].
  assert (I : VendorProfile.inverted (min, 0%Q) = false).
  { unfold VendorProfile.inverted. cbn [fst snd].
    change (VendorProfile.nonZero 0) with false.
    now rewrite andb_false_r. }
  rewrite I.
  unfold VendorProfile.findByIdAndUpdate, VendorProfile.validate.
  cbn [VendorProfile.averageRating]. rewrite Ha0, Ha5. cbn [app].
  unfold bind, Vendor_findById, Vendor_save, gets, modify, ret.
  assert (F : find (fun v => Nat.eqb (Vendor._id v) (Vendor._id vendor))
                (vendors s) = Some vendor).
  { pose proof Hv as Hin. apply find_some in Hin as (Hin & _).
    clear Hv. induction (vendors s) as [ | x l IH]; [contradiction | ].
    cbn [find]. cbn [map] in N. inversion N as [ | ? ? Hnot N']; subst.
    destruct Hin as [-> | Hin]; [now rewrite Nat.eqb_refl | ].
    destruct (Nat.eqb_spec (Vendor._id x) (Vendor._id vendor)) as [E | E].
    - exfalso. apply Hnot. rewrite E. now apply in_map.
    - now apply IH. }
  rewrite F. do 2 eexists. split; [reflexivity | ].
  repeat split.
  unfold vendorOf. cbn [vendors set_vendors].
  apply find_replaceById with (d := vendor); [exact Hv | reflexivity | ].
  cbn [VendorProfile.apply Vendor.user]. apply (find_pred _ _ _ Hv).
Qed.

Lemma updateVendorProfile_overwrites_aggregates_witness :
  exists v' s',
    VendorProfile.updateVendorProfile vera
      (VendorProfile.mkBody (Some (9%Q, 0%Q)) (Some 5%Q) (Some 1000%Z) None
         None) demo
    = (Ok (Some v'), s')
    /\ Vendor.averageRating v' = 5%Q
    /\ Vendor.totalRatings v' = 1000%Z
    /\ vendorOf vera s' = Some v'
    /\ ratings s' = ratings demo.
Proof.
  apply (updateVendorProfile_overwrites_aggregates vera veraVendor demo 5
           1000 9); try reflexivity.
  repeat constructor. intros [].
Defined.

(** X25. rateWaiter never stores a rating.  Its eligibility query asks for
    a completed job whose vendor is req.user.vendorProfile, a path that the
    User schema does not declare and that protect does not set, so the
    query finds no job: every request is answered with the 404 "Waiter not
    found" error or with the 400 "You can only rate waiters you have hired
    and completed jobs with" error, and the store stays as it was.  So is
    the request of vera for walt, whose completed job with her vendor
    profile is stored. *)
Theorem rateWaiter_never_succeeds :
  (forall user id rating att review s,
     snd (WaiterController.rateWaiter user id rating att review s) = s
     /\ (fst (WaiterController.rateWaiter user id rating att review s)
         = Throw (ErrorResponse "Waiter not found" 404)
         \/ fst (WaiterController.rateWaiter user id rating att review s)
            = Throw WaiterController.notHired))
  /\ vendorOf vera served = Some veraVendor
  /\ find (fun j => Nat.eqb (Job.waiter j) 20
                    && Nat.eqb (Job.vendor j) (Vendor._id veraVendor)
                    && String.eqb (Job.status j) "completed") (jobs served)
     = Some completedJob
  /\ WaiterController.rateWaiter vera 20 5 (Some 4%Q) None served
     = (Throw WaiterController.notHired, served).
Proof.
  split; [ | repeat split].
  intros user id rating att review s.
  split; [apply rateWaiter_frame | ].
  destruct (find (fun w => Nat.eqb (Waiter._id w) id) (waiters s))
    as [waiter | ] eqn:Hw.
  - right. now rewrite (rateWaiter_refused _ _ _ _ _ _ _ Hw).
  - left. unfold WaiterController.rateWaiter, bind, Waiter_findById, gets.
    now rewrite Hw.
Qed.
